(** * pdfimposer: page sequencing, orientation reconciliation and sheet assembly

    A shallow embedding of [pdfimposer/_constants.py], [_errors.py],
    [_converters/_abstract_converter.py] and [_converters/_stream_converter.py].

    Conventions of the embedding.
    - Python integers held in the converter (grid dimensions, sheet
      dimensions) are [Z]; list positions and page indices, which the code
      only ever builds from [range] and [len], are [nat].
    - A converter object is a record of its private attributes; a method that
      assigns to [self] is a function in the monad [M], which threads the
      record and an [outcome].  An exception leaves the record as it was when
      the exception was raised, as in Python.
    - The document backend (pypdf) is not part of the program.  The reader is
      the list of its pages' media boxes, already converted with [int]; the
      writer is the list of the pages it was asked to build, each recording the
      calls made on it.  The floating-point transformation handed to the
      backend for a cell is determined by the cell's [(vert_pos, horiz_pos)],
      which is what a page records.  The one method [linearize] calls on a
      page that the pages of the backend do not have raises
      [AttributeError].
    - The progress callback only prints; it is left out. *)

From Stdlib Require Import ZArith List String Bool Arith Lia DecimalString Permutation.
From Equations Require Import Equations.
From Equations.Prop Require Import Logic.
Import ListNotations.

(* ================================================================== *)
(** * _constants.py *)

Definition PAGE_FORMATS : list (string * (Z * Z)) :=
  [ ("A3"%string,      (842%Z, 1192%Z));
    ("A4"%string,      (595%Z, 842%Z));
    ("A5"%string,      (420%Z, 595%Z));
    ("Tabloid"%string, (792%Z, 1224%Z));
    ("Letter"%string,  (612%Z, 792%Z));
    ("Legal"%string,   (612%Z, 1008%Z)) ].

(** [PageOrientation.PORTRAIT = False], [PageOrientation.LANDSCAPE = True]. *)
Module PageOrientation.
Definition PORTRAIT : bool := false.
Definition LANDSCAPE : bool := true.
End PageOrientation.

(** [TwoSidedFlip]: the two string constants, which is all
    [set_two_sided_flip] admits. *)
Inductive TwoSidedFlip : Type :=
| SHORT_EDGE
| LONG_EDGE.

Definition flip_eqb (a b : TwoSidedFlip) : bool :=
  match a, b with
  | SHORT_EDGE, SHORT_EDGE | LONG_EDGE, LONG_EDGE => true
  | _, _ => false
  end.

(* ================================================================== *)
(** * _errors.py, and the built-in exceptions the code can meet *)

Inductive exn : Type :=
| MismatchingOrientationsError (message : string)
| UnknownFormatError (message : string)
| UserInterruptError
| ValueError
| KeyError
| IndexError
| ZeroDivisionError
| StopIteration
| AttributeError.

(** What a call does: returns, raises, or (for the one loop of the program
    that need not terminate) is still running when the fuel is spent. *)
Inductive outcome (A : Type) : Type :=
| Ok (a : A)
| Raise (e : exn)
| OutOfFuel.
Arguments Ok {A} a.
Arguments Raise {A} e.
Arguments OutOfFuel {A}.

Definition obind {A B} (m : outcome A) (k : A -> outcome B) : outcome B :=
  match m with
  | Ok a => k a
  | Raise e => Raise e
  | OutOfFuel => OutOfFuel
  end.

Notation "x <-- m ;;; k" := (obind m (fun x => k))
  (at level 61, m at next level, right associativity).

(* ================================================================== *)
(** * Python values and containers used by the code *)

(** [str(n)] for an integer. *)
Definition str (n : Z) : string := NilZero.string_of_int (Z.to_int n).

(** [range(0, n)] for an integer [n]: empty when [n <= 0]. *)
Definition range (n : Z) : list nat := seq 0 (Z.to_nat n).

(** [range(0, stop, 4)]: the multiples of 4 below [stop]. *)
Definition range_step4 (stop : Z) : list nat :=
  map (fun k => 4 * k) (seq 0 (Z.to_nat ((stop + 3) / 4))).

(** [l.pop(0)]. *)
Definition pop_first {A} (l : list A) : outcome (A * list A) :=
  match l with
  | [] => Raise IndexError
  | x :: r => Ok (x, r)
  end.

(** [l.pop()]. *)
Definition pop_last {A} (l : list A) : outcome (A * list A) :=
  match rev l with
  | [] => Raise IndexError
  | x :: r => Ok (x, rev r)
  end.

(** [l.insert(i, x)] for [i >= 0]: past the end it appends. *)
Definition list_insert {A} (i : nat) (x : A) (l : list A) : list A :=
  firstn i l ++ x :: skipn i l.

(** [k in d] and [d[k]] on a dict kept in insertion order. *)
Fixpoint dict_get {V} (d : list (string * V)) (k : string) : option V :=
  match d with
  | [] => None
  | (k', v) :: r => if String.eqb k k' then Some v else dict_get r k
  end.

Definition dict_contains {V} (d : list (string * V)) (k : string) : bool :=
  match dict_get d k with
  | Some _ => true
  | None => false
  end.

(** The two kinds of object that meet in the comparison of
    [get_output_format]: integers, and methods bound to [self]. *)
Inductive PyObj : Type :=
| PyInt (n : Z)
| PyBoundMethod (name : string).

(** [a == b]: an integer and a bound method are never equal (both [__eq__]
    return [NotImplemented], and the objects are distinct); two methods bound
    to the same object are equal when they are the same function. *)
Definition py_eq (a b : PyObj) : bool :=
  match a, b with
  | PyInt x, PyInt y => Z.eqb x y
  | PyBoundMethod f, PyBoundMethod g => String.eqb f g
  | _, _ => false
  end.

(** [==] on 2-tuples is [==] on the components. *)
Definition tuple_eq (a b : PyObj * PyObj) : bool :=
  py_eq (fst a) (fst b) && py_eq (snd a) (snd b).

(** [x == PageOrientation.C] for [x] among [None], [False], [True]. *)
Definition orientation_is (x : option bool) (o : bool) : bool :=
  match x with
  | Some b => Bool.eqb b o
  | None => false
  end.

(** [bool(x)] for the same values. *)
Definition to_bool (x : option bool) : bool :=
  match x with
  | Some b => b
  | None => false
  end.

(* ================================================================== *)
(** * The converter object *)

(** A slot of a sequence: a page number, or [None] for a blank. *)
Definition slot : Type := option nat.

(** A page of the input reader: [int(mediabox.width)], [int(mediabox.height)]. *)
Record MediaBox : Type := {
  mediabox_width : Z;
  mediabox_height : Z
}.

Record Converter : Type := {
  __pages_in_width : Z;
  __pages_in_height : Z;
  __output_width : Z;
  __output_height : Z;
  __copy_pages : bool;
  __two_sided_flip : TwoSidedFlip;
  _inpdf : list MediaBox
}.

(** The object before [__init__] has assigned anything.  Every attribute is
    assigned before [__init__] returns, so these values are never read. *)
Definition new_object : Converter :=
  {| __pages_in_width := 0; __pages_in_height := 0;
     __output_width := 0; __output_height := 0;
     __copy_pages := false; __two_sided_flip := SHORT_EDGE;
     _inpdf := [] |}.

(** Methods that may assign to [self]. *)
Definition M (A : Type) : Type := Converter -> outcome A * Converter.

Definition ret {A} (a : A) : M A := fun c => (Ok a, c).

Definition raise {A} (e : exn) : M A := fun c => (Raise e, c).

Definition bind {A B} (m : M A) (k : A -> M B) : M B :=
  fun c =>
    match m c with
    | (Ok a, c') => k a c'
    | (Raise e, c') => (Raise e, c')
    | (OutOfFuel, c') => (OutOfFuel, c')
    end.

(** A method that only reads [self]. *)
Definition reads {A} (f : Converter -> outcome A) : M A := fun c => (f c, c).

Notation "x <- m ;; k" := (bind m (fun x => k))
  (at level 61, m at next level, right associativity).
Notation "m ;; k" := (bind m (fun _ => k))
  (at level 61, right associativity).

(* ================================================================== *)
(** * _abstract_converter.py *)

Module AbstractConverter.

Definition page_formats := PAGE_FORMATS.

Definition set_output_height (height : Z) : M unit := fun c =>
  (Ok tt,
   {| __pages_in_width := __pages_in_width c;
      __pages_in_height := __pages_in_height c;
      __output_width := __output_width c;
      __output_height := height;
      __copy_pages := __copy_pages c;
      __two_sided_flip := __two_sided_flip c;
      _inpdf := _inpdf c |}).

Definition get_output_height (c : Converter) : Z := __output_height c.

Definition set_output_width (width : Z) : M unit := fun c =>
  (Ok tt,
   {| __pages_in_width := __pages_in_width c;
      __pages_in_height := __pages_in_height c;
      __output_width := width;
      __output_height := __output_height c;
      __copy_pages := __copy_pages c;
      __two_sided_flip := __two_sided_flip c;
      _inpdf := _inpdf c |}).

Definition get_output_width (c : Converter) : Z := __output_width c.

Definition set_pages_in_width (num : Z) : M unit := fun c =>
  (Ok tt,
   {| __pages_in_width := num;
      __pages_in_height := __pages_in_height c;
      __output_width := __output_width c;
      __output_height := __output_height c;
      __copy_pages := __copy_pages c;
      __two_sided_flip := __two_sided_flip c;
      _inpdf := _inpdf c |}).

Definition get_pages_in_width (c : Converter) : Z := __pages_in_width c.

Definition set_pages_in_height (num : Z) : M unit := fun c =>
  (Ok tt,
   {| __pages_in_width := __pages_in_width c;
      __pages_in_height := num;
      __output_width := __output_width c;
      __output_height := __output_height c;
      __copy_pages := __copy_pages c;
      __two_sided_flip := __two_sided_flip c;
      _inpdf := _inpdf c |}).

Definition get_pages_in_height (c : Converter) : Z := __pages_in_height c.

Definition set_copy_pages (copy_pages : bool) : M unit := fun c =>
  (Ok tt,
   {| __pages_in_width := __pages_in_width c;
      __pages_in_height := __pages_in_height c;
      __output_width := __output_width c;
      __output_height := __output_height c;
      __copy_pages := copy_pages;
      __two_sided_flip := __two_sided_flip c;
      _inpdf := _inpdf c |}).

Definition get_copy_pages (c : Converter) : bool := __copy_pages c.

Definition set_two_sided_flip (flip : TwoSidedFlip) : M unit := fun c =>
  (Ok tt,
   {| __pages_in_width := __pages_in_width c;
      __pages_in_height := __pages_in_height c;
      __output_width := __output_width c;
      __output_height := __output_height c;
      __copy_pages := __copy_pages c;
      __two_sided_flip := flip;
      _inpdf := _inpdf c |}).

Definition get_two_sided_flip (c : Converter) : TwoSidedFlip :=
  __two_sided_flip c.

(** [set_layout] on a pair [(W, H)].  The string form ["WxH"] is split and
    converted by Python's [int] to such a pair; a sequence of another length
    raises [ValueError]. *)
Definition set_layout (layout : list Z) : M unit :=
  match layout with
  | [pages_in_width; pages_in_height] =>
      set_pages_in_width pages_in_width ;;
      set_pages_in_height pages_in_height
  | _ => raise ValueError
  end.

Definition get_layout (c : Converter) : string :=
  (str (get_pages_in_width c) ++ "x" ++ str (get_pages_in_height c))%string.

Definition get_pages_in_sheet (c : Converter) : Z :=
  (get_pages_in_width c * get_pages_in_height c)%Z.

Definition set_output_format (page_format : string) : M unit :=
  if dict_contains page_formats page_format then
    match dict_get page_formats page_format with
    | Some (width, height) =>
        set_output_height height ;;
        set_output_width width
    | None => raise KeyError
    end
  else raise (UnknownFormatError page_format).

(** [next(page_format for page_format, dimensions in page_formats.items()
          if dimensions == (self.get_output_width, self.get_output_height))]:
    the right-hand tuple holds the two bound methods, not what they return. *)
Definition get_output_format (c : Converter) : outcome string :=
  match
    find (fun entry : string * (Z * Z) =>
            let (page_format, dimensions) := entry in
            tuple_eq (PyInt (fst dimensions), PyInt (snd dimensions))
                     (PyBoundMethod "get_output_width",
                      PyBoundMethod "get_output_height"))
         page_formats
  with
  | Some (page_format, _) => Ok page_format
  | None => Raise StopIteration
  end.

(** [_set_output_orientation]: the argument goes through [bool] first. *)
Definition _set_output_orientation (output_orientation : option bool) : M unit :=
  fun c =>
    let output_orientation := to_bool output_orientation in
    let w := get_output_width c in
    let h := get_output_height c in
    if (Bool.eqb output_orientation PageOrientation.PORTRAIT && (w >? h)%Z)
       || (Bool.eqb output_orientation PageOrientation.LANDSCAPE && (h >? w)%Z)
    then (set_output_height w ;; set_output_width h) c
    else (Ok tt, c).

Definition _get_output_orientation (c : Converter) : option bool :=
  if (get_output_height c >? get_output_width c)%Z then
    Some PageOrientation.PORTRAIT
  else if (get_output_height c <? get_output_width c)%Z then
    Some PageOrientation.LANDSCAPE
  else None.

(** The getters a subclass has to provide. *)
Section InputGetters.
Variable get_input_height : Converter -> outcome Z.
Variable get_input_width : Converter -> outcome Z.

Definition get_input_size (c : Converter) : outcome (Z * Z) :=
  w <-- get_input_width c ;;;
  h <-- get_input_height c ;;;
  Ok (w, h).

(** Both comparisons call the two getters again, height first. *)
Definition get_input_orientation (c : Converter) : outcome (option bool) :=
  h <-- get_input_height c ;;;
  w <-- get_input_width c ;;;
  if (h >? w)%Z then Ok (Some PageOrientation.PORTRAIT)
  else
    h <-- get_input_height c ;;;
    w <-- get_input_width c ;;;
    if (h <? w)%Z then Ok (Some PageOrientation.LANDSCAPE)
    else Ok None.

(** The sibling of [get_output_format]: here the table entry is compared
    with the page size itself. *)
Definition get_input_format (c : Converter) : outcome string :=
  wh <-- get_input_size c ;;;
  o <-- get_input_orientation c ;;;
  let size :=
    if orientation_is o PageOrientation.LANDSCAPE
    then (snd wh, fst wh) else (fst wh, snd wh) in
  match
    find (fun entry : string * (Z * Z) =>
            let (page_format, dimensions) := entry in
            tuple_eq (PyInt (fst dimensions), PyInt (snd dimensions))
                     (PyInt (fst size), PyInt (snd size)))
         page_formats
  with
  | Some (page_format, _) => Ok page_format
  | None => Raise StopIteration
  end.
End InputGetters.

(** [__init__]: the four setters, in the order of the source. *)
Definition init (layout : list Z) (page_format : string)
           (flip : TwoSidedFlip) (copy_pages : bool) : M unit :=
  set_layout layout ;;
  set_output_format page_format ;;
  set_copy_pages copy_pages ;;
  set_two_sided_flip flip.

End AbstractConverter.

(* ================================================================== *)
(** * _stream_converter.py *)

(** A page of the writer built by [__do_reduce]: a blank page of the given
    size, the input pages merged onto it (each with the cell it was placed
    in), and the rotation applied at the end. *)
Record Merge : Type := {
  merged_page : nat;
  merged_vert_pos : nat;
  merged_horiz_pos : nat
}.

Record Sheet : Type := {
  sheet_width : Z;
  sheet_height : Z;
  sheet_merged : list Merge;
  sheet_rotation : Z
}.

(** A page of the writer built by [linearize]: a blank page of the given
    size and, once a cell of an input page has been merged onto it, that cell
    as [(input_page, (vert_pos, horiz_pos))]. *)
Record Extract : Type := {
  extract_width : Z;
  extract_height : Z;
  extract_merged : option (nat * (nat * nat))
}.

(** [page.mergeScaledTranslatedPage]: the look-up of that method on a page
    of the writer.  The pages of [pypdf] have no method of that name (the
    merge they have is [merge_transformed_page], which [__do_reduce] calls),
    so the look-up raises [AttributeError]; this happens before any argument
    of the call is evaluated. *)
Definition mergeScaledTranslatedPage (page : Extract)
  : outcome (nat -> nat -> nat -> Extract) :=
  Raise AttributeError.

(** The local variables of the [while] loop of [__do_reduce]. *)
Record Writer : Type := {
  current_page : nat;
  output_page : nat;
  outpdf : list Sheet
}.

Module StreamConverter.
Import AbstractConverter.

Definition set_inpdf (pages : list MediaBox) : M unit := fun c =>
  (Ok tt,
   {| __pages_in_width := __pages_in_width c;
      __pages_in_height := __pages_in_height c;
      __output_width := __output_width c;
      __output_height := __output_height c;
      __copy_pages := __copy_pages c;
      __two_sided_flip := __two_sided_flip c;
      _inpdf := pages |}).

(** [__init__]: [input_stream] stands for the pages [pypdf.PdfReader]
    finds in it. *)
Definition init (input_stream : list MediaBox) (layout : list Z)
           (page_format : string) (flip : TwoSidedFlip)
           (copy_pages : bool) : M unit :=
  AbstractConverter.init layout page_format flip copy_pages ;;
  set_inpdf input_stream.

Definition get_input_height (c : Converter) : outcome Z :=
  match _inpdf c with
  | [] => Raise IndexError
  | page :: _ => Ok (mediabox_height page)
  end.

Definition get_input_width (c : Converter) : outcome Z :=
  match _inpdf c with
  | [] => Raise IndexError
  | page :: _ => Ok (mediabox_width page)
  end.

Definition get_page_count (c : Converter) : nat := List.length (_inpdf c).

Definition get_input_orientation :=
  AbstractConverter.get_input_orientation get_input_height get_input_width.

Definition get_input_format :=
  AbstractConverter.get_input_format get_input_height get_input_width.

Definition fix_page_orientation (cmp : Z -> Z -> bool) : M unit := fun c =>
  if cmp (get_pages_in_width c) (get_pages_in_height c) then
    match get_input_orientation c with
    | Ok o =>
        if orientation_is o PageOrientation.PORTRAIT then
          if orientation_is (_get_output_orientation c) PageOrientation.PORTRAIT
          then _set_output_orientation (Some PageOrientation.LANDSCAPE) c
          else (Ok tt, c)
        else (Raise (MismatchingOrientationsError (get_layout c)), c)
    | Raise e => (Raise e, c)
    | OutOfFuel => (OutOfFuel, c)
    end
  else if cmp (get_pages_in_height c) (get_pages_in_width c) then
    match get_input_orientation c with
    | Ok o =>
        if orientation_is o PageOrientation.LANDSCAPE then
          if orientation_is (_get_output_orientation c) PageOrientation.LANDSCAPE
          then _set_output_orientation (Some PageOrientation.PORTRAIT) c
          else (Ok tt, c)
        else (Raise (MismatchingOrientationsError (get_layout c)), c)
    | Raise e => (Raise e, c)
    | OutOfFuel => (OutOfFuel, c)
    end
  else
    match get_input_orientation c with
    | Ok o =>
        if orientation_is o PageOrientation.LANDSCAPE then
          if orientation_is (_get_output_orientation c) PageOrientation.PORTRAIT
          then _set_output_orientation (Some PageOrientation.LANDSCAPE) c
          else (Ok tt, c)
        else
          if orientation_is (_get_output_orientation c) PageOrientation.LANDSCAPE
          then _set_output_orientation (Some PageOrientation.PORTRAIT) c
          else (Ok tt, c)
    | Raise e => (Raise e, c)
    | OutOfFuel => (OutOfFuel, c)
    end.

Definition is_two_times (op1 op2 : Z) : bool := (op1 =? 2 * op2)%Z.

Definition fix_page_orientation_for_booklet : M unit :=
  fix_page_orientation is_two_times.

Definition is_half (op1 op2 : Z) : bool := (op2 =? 2 * op1)%Z.

Definition fix_page_orientation_for_linearize : M unit :=
  fix_page_orientation is_half.

(* ---------------------------------------------------------------- *)
(** ** The page sequences *)

(** [append_and_copy list pages]: what the first argument (here [lst]) is
    afterwards.  [int(n / 2)] rounds the quotient towards zero (the float
    quotient is exact for every count below 2^53). *)
Definition append_and_copy (c : Converter) (lst pages : list slot) : list slot :=
  if get_copy_pages c then
    fold_left (fun lst _ => lst ++ pages)
              (range (Z.quot (get_pages_in_sheet c) 2)) lst
  else lst ++ pages.

(** One turn of the [while pages] loop on [(pages, sequence)]. *)
Definition booklet_turn (c : Converter) (pages sequence : list slot)
  : outcome (list slot * list slot) :=
  a <-- pop_last pages ;;;
  b <-- pop_first (snd a) ;;;
  let sequence := append_and_copy c sequence [fst a; fst b] in
  x <-- pop_first (snd b) ;;;
  y <-- pop_last (snd x) ;;;
  Ok (snd y, append_and_copy c sequence [fst x; fst y]).

(** [while pages: ...].  A turn that returns has popped four elements, so
    the recursion is on the length of [pages]; a turn that raises ends the
    loop with its exception. *)
Equations? booklet_while (c : Converter) (pages sequence : list slot)
  : outcome (list slot) by wf (List.length pages) lt :=
  booklet_while c [] sequence := Ok sequence;
  booklet_while c (p :: pages) sequence
    with inspect (booklet_turn c (p :: pages) sequence) := {
    | exist _ (Ok next) _ => booklet_while c (fst next) (snd next);
    | exist _ (Raise e) _ => Raise e;
    | exist _ OutOfFuel _ => OutOfFuel }.
Proof.
  unfold booklet_turn, pop_last, pop_first, obind in e.
  destruct (rev (p :: pages)) as [|a ra] eqn:Hrev; [discriminate|].
  assert (Hlen : List.length (p :: pages) = S (List.length ra)).
  { rewrite <- (length_rev (p :: pages)), Hrev. reflexivity. }
  simpl in e.
  destruct (rev ra) as [|b rb] eqn:Hb; [discriminate|].
  assert (Hlb : List.length ra = S (List.length rb)).
  { rewrite <- (length_rev ra), Hb. reflexivity. }
  destruct rb as [|x rx]; [discriminate|].
  simpl in e.
  destruct (rev rx) as [|y ry] eqn:Hy; [discriminate|].
  assert (Hly : List.length rx = S (List.length ry)).
  { rewrite <- (length_rev rx), Hy. reflexivity. }
  inversion e; subst. simpl in *.
  rewrite length_rev. lia.
Qed.

(** [__get_sequence_for_booklet]: the pages, the blanks that bring their
    number to a multiple of four, then the loop. *)
Definition get_sequence_for_booklet (c : Converter) : outcome (list slot) :=
  let n_pages := get_page_count c in
  let pages := map Some (seq 0 n_pages) in
  let n_missing_pages :=
    if n_pages mod 4 =? 0 then 0 else 4 - n_pages mod 4 in
  let pages :=
    fold_left (fun pages _ => pages ++ [None]) (seq 0 n_missing_pages) pages in
  booklet_while c pages [].

(** [append_and_remove_copies list pages]: what [sequence] is afterwards. *)
Definition append_and_remove_copies (c : Converter) (sequence pages : list slot)
  : list slot :=
  let sequence := sequence ++ pages in
  if get_copy_pages c then
    fold_left (fun sequence _ => sequence ++ [None])
              (range (get_pages_in_sheet c - Z.of_nat (List.length pages)))
              sequence
  else sequence.

(** The loop variable [i] runs over [range(0, page_count * pages_in_sheet, 4)];
    [int(i / 2)], [int(i / 2 + 1)] and [int(i / 2 + 2)] are [i / 2], [i / 2 + 1]
    and [i / 2 + 2] for such a multiple of 4.  Nothing in the [try] block can
    raise [IndexError]. *)
Definition get_sequence_for_linearize (c : Converter) (booklet : bool)
  : list slot :=
  if booklet then
    fold_left
      (fun sequence i =>
         let sequence :=
           append_and_remove_copies c sequence [Some (i / 2); Some (i / 2)] in
         append_and_remove_copies c sequence
           [Some (i / 2 + 1); Some (i / 2 + 2)])
      (range_step4 (Z.of_nat (get_page_count c) * get_pages_in_sheet c))
      []
  else
    map Some (range (Z.of_nat (get_page_count c) * get_pages_in_sheet c)).

(** [len(sequence) % n] raises [ZeroDivisionError] for [n = 0]. *)
Definition get_sequence_for_reduce (c : Converter) : outcome (list slot) :=
  if get_copy_pages c then
    Ok (fold_left
          (fun sequence page =>
             fold_left (fun sequence _ => sequence ++ [Some page])
                       (range (get_pages_in_sheet c)) sequence)
          (seq 0 (get_page_count c)) [])
  else
    let sequence := map Some (seq 0 (get_page_count c)) in
    if (get_pages_in_sheet c =? 0)%Z then Raise ZeroDivisionError
    else if negb (Z.of_nat (List.length sequence) mod get_pages_in_sheet c =? 0)%Z
    then
      Ok (fold_left (fun sequence _ => sequence ++ [None])
            (range (get_pages_in_sheet c
                    - Z.of_nat (List.length sequence) mod get_pages_in_sheet c))
            sequence)
    else Ok sequence.

(* ---------------------------------------------------------------- *)
(** ** Imposition *)

(** The body of the two [for] loops of [__do_reduce] for one cell, on
    [(current_page, merged so far)].  Fetching the source page raises
    [IndexError] past the end of the input; [get_reduction_factor]
    divides by [pages_in_width * input_width]. *)
Definition place (c : Converter) (sequence : list slot)
           (vert_pos horiz_pos : nat) (st : nat * list Merge)
  : outcome (nat * list Merge) :=
  match nth_error sequence (fst st) with
  | Some (Some n) =>
      if n <? get_page_count c then
        input_width <-- get_input_width c ;;;
        if (get_pages_in_width c * input_width =? 0)%Z
        then Raise ZeroDivisionError
        else Ok (S (fst st),
                 snd st ++ [ {| merged_page := n;
                                merged_vert_pos := vert_pos;
                                merged_horiz_pos := horiz_pos |} ])
      else Raise IndexError
  | _ => Ok st
  end.

Definition fill_sheet (c : Converter) (sequence : list slot)
           (current_page : nat) : outcome (nat * list Merge) :=
  fold_left
    (fun acc vert_pos =>
       fold_left
         (fun acc horiz_pos =>
            st <-- acc ;;; place c sequence vert_pos horiz_pos st)
         (range (get_pages_in_width c)) acc)
    (range (get_pages_in_height c))
    (Ok (current_page, [])).

(** One turn of the [while current_page < len(sequence)] loop.  The
    progress message divides by [get_pages_in_sheet()]. *)
Definition do_reduce_turn (c : Converter) (sequence : list slot) (w : Writer)
  : outcome Writer :=
  if (get_pages_in_sheet c =? 0)%Z then Raise ZeroDivisionError
  else
    filled <-- fill_sheet c sequence (current_page w) ;;;
    let page :=
      {| sheet_width := get_output_width c;
         sheet_height := get_output_height c;
         sheet_merged := snd filled;
         sheet_rotation :=
           if flip_eqb (get_two_sided_flip c) LONG_EDGE
              && Nat.odd (output_page w)
           then 180%Z else 0%Z |} in
    Ok {| current_page := fst filled;
          output_page := S (output_page w);
          outpdf := outpdf w ++ [page] |}.

Fixpoint do_reduce_while (fuel : nat) (c : Converter) (sequence : list slot)
         (w : Writer) : outcome Writer :=
  if current_page w <? List.length sequence then
    match fuel with
    | O => OutOfFuel
    | S fuel =>
        w' <-- do_reduce_turn c sequence w ;;;
        do_reduce_while fuel c sequence w'
    end
  else Ok w.

(** [__do_reduce]: [fuel] bounds the number of turns of the [while] loop.
    The method hands the writer to the output stream; here it returns its
    pages, so that they can be looked at. *)
Definition do_reduce (fuel : nat) (sequence : list slot) : M (list Sheet) :=
  fix_page_orientation_for_booklet ;;
  reads (fun c =>
           w <-- do_reduce_while fuel c sequence
                   {| current_page := 0; output_page := 0; outpdf := [] |} ;;;
           Ok (outpdf w)).

(** The sequence is computed first, being the argument of the call. *)
Definition bookletize (fuel : nat) : M (list Sheet) :=
  sequence <- reads get_sequence_for_booklet ;;
  do_reduce fuel sequence.

Definition reduce (fuel : nat) : M (list Sheet) :=
  sequence <- reads get_sequence_for_reduce ;;
  do_reduce fuel sequence.

(* ---------------------------------------------------------------- *)
(** ** Linearization *)

(** The body of the three [for] loops of [linearize] for one cell, on
    [(output_page, outpdf)].  [insert_blank_page] returns the blank page it
    has put at [index]; the method [mergeScaledTranslatedPage] is looked up on
    that page, then the arguments of the call are evaluated
    ([get_increasing_factor] divides by the input width), then the call is
    made. *)
Definition extract (c : Converter) (sequence : list slot)
           (input_page vert_pos horiz_pos : nat) (st : nat * list Extract)
  : outcome (nat * list Extract) :=
  match nth_error sequence (fst st) with
  | None => Raise IndexError
  | Some (Some index) =>
      let page := {| extract_width := get_output_width c;
                     extract_height := get_output_height c;
                     extract_merged := None |} in
      merge <-- mergeScaledTranslatedPage page ;;;
      input_width <-- get_input_width c ;;;
      if (input_width =? 0)%Z then Raise ZeroDivisionError
      else Ok (S (fst st),
               list_insert index (merge input_page vert_pos horiz_pos)
                           (snd st))
  | Some None => Ok (S (fst st), snd st)
  end.

(** The parameter [booklet] is not handed on: the sequence is always the
    booklet one. *)
Definition linearize (booklet : bool) : M (list Extract) :=
  fix_page_orientation_for_linearize ;;
  reads (fun c =>
           let sequence := get_sequence_for_linearize c true in
           st <-- fold_left
                    (fun acc input_page =>
                       fold_left
                         (fun acc vert_pos =>
                            fold_left
                              (fun acc horiz_pos =>
                                 st <-- acc ;;;
                                 extract c sequence input_page vert_pos
                                         horiz_pos st)
                              (range (get_pages_in_width c)) acc)
                         (range (get_pages_in_height c)) acc)
                    (seq 0 (get_page_count c))
                    (Ok (0, [])) ;;;
           Ok (snd st)).

End StreamConverter.

(* ================================================================== *)
(** * Vocabulary of the statements *)

Import AbstractConverter.

(** The six names of the format table. *)
Definition format_names : list string :=
  ["A3"; "A4"; "A5"; "Tabloid"; "Letter"; "Legal"]%string.

(** The pair [(output_width, output_height)]. *)
Definition output_size (c : Converter) : Z * Z :=
  (get_output_width c, get_output_height c).

(** The attributes at the end of [StreamConverter(input, output, layout,
    page_format, flip, copy_pages)]: the converter, when the constructor
    returns; what had been assigned, when it raises. *)
Definition construct (input_stream : list MediaBox) (layout : list Z)
           (page_format : string) (flip : TwoSidedFlip) (copy_pages : bool)
  : Converter :=
  snd (StreamConverter.init input_stream layout page_format flip copy_pages
         new_object).

Definition portrait_A5 : MediaBox :=
  {| mediabox_width := 420; mediabox_height := 595 |}.

Definition landscape_A5 : MediaBox :=
  {| mediabox_width := 595; mediabox_height := 420 |}.

(** The converter with its output width and height exchanged. *)
Definition swap_output (c : Converter) : Converter :=
  {| __pages_in_width := __pages_in_width c;
     __pages_in_height := __pages_in_height c;
     __output_width := __output_height c;
     __output_height := __output_width c;
     __copy_pages := __copy_pages c;
     __two_sided_flip := __two_sided_flip c;
     _inpdf := _inpdf c |}.

(** The area of the output sheet. *)
Definition output_area (c : Converter) : Z :=
  (get_output_width c * get_output_height c)%Z.

(** An outcome that is [MismatchingOrientationsError]. *)
Definition is_mismatch {A} (r : outcome A) : Prop :=
  exists message, r = Raise (MismatchingOrientationsError message).

(** [size'] is [size] or [size] with its components exchanged. *)
Definition same_or_swapped (size size' : Z * Z) : Prop :=
  size' = size \/ size' = (snd size, fst size).

(** Slots of one output sheet, as a count. *)
Definition slots_per_sheet (c : Converter) : nat :=
  Z.to_nat (get_pages_in_sheet c).

(** Both grid dimensions are at least one. *)
Definition valid_layout (c : Converter) : Prop :=
  (1 <= get_pages_in_width c)%Z /\ (1 <= get_pages_in_height c)%Z.

(** How many blanks bring [n] up to a multiple of [k]. *)
Definition blanks_to_multiple (k n : nat) : nat := (k - n mod k) mod k.

(** The pages [0 .. n-1] in their order. *)
Definition identity_order (n : nat) : list slot := map Some (seq 0 n).

(** The saddle-stitch order of [n] pages, four by four:
    [n-1, 0, 1, n-2], then [n-3, 2, 3, n-4], and so on. *)
Definition saddle_stitch_from (first n : nat) : list slot :=
  flat_map (fun k => [Some (first + n - 1 - 2 * k); Some (first + 2 * k);
                      Some (first + 2 * k + 1); Some (first + n - 2 - 2 * k)])
           (seq 0 (n / 4)).

Definition saddle_stitch (n : nat) : list slot := saddle_stitch_from 0 n.

(** Every page [0 .. n-1] in order, each [copies] times in a row. *)
Definition each_repeated (copies n : nat) : list slot :=
  flat_map (fun page => repeat (Some page) copies) (seq 0 n).

(** The number of blank entries of a sequence. *)
Definition count_blanks (sequence : list slot) : nat :=
  List.length (filter (fun s => match s with None => true | Some _ => false end)
                      sequence).

(** Four pages on a 3x1 grid, [copy_pages] off. *)
Definition four_pages_three_by_one : Converter :=
  construct (repeat portrait_A5 4) [3; 1]%Z "A4" SHORT_EDGE false.

(** Five pages on a 2x2 grid, [copy_pages] off. *)
Definition five_pages_two_by_two : Converter :=
  construct (repeat portrait_A5 5) [2; 2]%Z "A4" SHORT_EDGE false.

(** The states of the [while] loop of [__do_reduce] on [sequence]: the
    initial one, and those a completed turn leads to. *)
Inductive reached (c : Converter) (sequence : list slot) : Writer -> Prop :=
| reached_start :
    reached c sequence {| current_page := 0; output_page := 0; outpdf := [] |}
| reached_turn (w w' : Writer) :
    reached c sequence w ->
    current_page w < List.length sequence ->
    StreamConverter.do_reduce_turn c sequence w = Ok w' ->
    reached c sequence w'.

(** The rotation the sheet of index [i] (from 0) is to have. *)
Definition expected_rotation (flip : TwoSidedFlip) (i : nat) : Z :=
  match flip with
  | LONG_EDGE => if Nat.odd i then 180%Z else 0%Z
  | SHORT_EDGE => 0%Z
  end.

Definition rotations_follow (flip : TwoSidedFlip) (sheets : list Sheet) : Prop :=
  forall i sheet,
    nth_error sheets i = Some sheet ->
    sheet_rotation sheet = expected_rotation flip i.

(** Four pages on a 2x1 grid, flipped on the long edge. *)
Definition four_pages_long_edge : Converter :=
  construct (repeat portrait_A5 4) [2; 1]%Z "A4" LONG_EDGE false.

(** The cells of a sheet in the order the two [for] loops visit them: rows
    from the top, and each row from the left. *)
Definition cells (c : Converter) : list (nat * nat) :=
  list_prod (range (get_pages_in_height c)) (range (get_pages_in_width c)).

(** The page number merged in [cell]. *)
Definition merge_in (cell : nat * nat) (page : nat) : Merge :=
  {| merged_page := page;
     merged_vert_pos := fst cell;
     merged_horiz_pos := snd cell |}.

(** The sheet number [index] of a document, holding [pages] in its first
    cells. *)
Definition sheet_of (c : Converter) (index : nat) (pages : list nat) : Sheet :=
  {| sheet_width := get_output_width c;
     sheet_height := get_output_height c;
     sheet_merged :=
       map (fun x => merge_in (fst x) (snd x)) (combine (cells c) pages);
     sheet_rotation :=
       if flip_eqb (get_two_sided_flip c) LONG_EDGE && Nat.odd index
       then 180%Z else 0%Z |}.

(** The reader opened on a written document: one page for each sheet, of
    the size of the sheet. *)
Definition reader_of (sheets : list Sheet) : list MediaBox :=
  map (fun sheet => {| mediabox_width := sheet_width sheet;
                       mediabox_height := sheet_height sheet |})
      sheets.

(** The document a call has written; nothing if it did not return. *)
Definition written (r : outcome (list Sheet) * Converter) : list Sheet :=
  match fst r with
  | Ok sheets => sheets
  | _ => []
  end.

(** [reader] is set up to linearize what [writer] bookletizes: the same
    grid, [copy_pages] off, and for input the document [writer] wrote. *)
Definition linearizes_output_of (reader writer : Converter) (fuel : nat) : Prop :=
  get_pages_in_width reader = get_pages_in_width writer
  /\ get_pages_in_height reader = get_pages_in_height writer
  /\ get_copy_pages reader = false
  /\ _inpdf reader = reader_of (written (StreamConverter.bookletize fuel writer)).

(** The saddle-stitch order as page numbers. *)
Definition saddle_pages (n : nat) : list nat :=
  flat_map (fun k => [n - 1 - 2 * k; 2 * k; 2 * k + 1; n - 2 - 2 * k])
           (seq 0 (n / 4)).

(** Eight A5 pages bookletized on a 2x1 grid towards A4, and the converter
    that reads the result back towards A5. *)
Definition eight_pages_two_by_one : Converter :=
  construct (repeat portrait_A5 8) [2; 1]%Z "A4" SHORT_EDGE false.

Definition eight_pages_read_back : Converter :=
  construct
    (reader_of (written (StreamConverter.bookletize 4 eight_pages_two_by_one)))
    [2; 1]%Z "A5" SHORT_EDGE false.

(** The converter with the two grid dimensions exchanged. *)
Definition transpose_layout (c : Converter) : Converter :=
  {| __pages_in_width := __pages_in_height c;
     __pages_in_height := __pages_in_width c;
     __output_width := __output_width c;
     __output_height := __output_height c;
     __copy_pages := __copy_pages c;
     __two_sided_flip := __two_sided_flip c;
     _inpdf := _inpdf c |}.

(** A square input page. *)
Definition square_page : MediaBox :=
  {| mediabox_width := 500; mediabox_height := 500 |}.

(** The page of the reader for a sheet of the output size of [c]. *)
Definition page_of_output (c : Converter) : MediaBox :=
  {| mediabox_width := get_output_width c;
     mediabox_height := get_output_height c |}.

(** The size of a page turned upright: the smaller side first for a
    landscape page, the size as it is otherwise. *)
Definition upright (page : MediaBox) : Z * Z :=
  if (mediabox_height page <? mediabox_width page)%Z
  then (mediabox_height page, mediabox_width page)
  else (mediabox_width page, mediabox_height page).

(** The page numbers merged onto a sheet, in the order they were merged. *)
Definition pages_on (sheet : Sheet) : list nat :=
  map merged_page (sheet_merged sheet).

(** The cells a sheet has a page in, in the order they were filled. *)
Definition cells_on (sheet : Sheet) : list (nat * nat) :=
  map (fun m => (merged_vert_pos m, merged_horiz_pos m)) (sheet_merged sheet).

(** [n] divided by [k], rounded up. *)
Definition div_up (n k : nat) : nat := (n + k - 1) / k.

(** The call returns with enough fuel, or never returns. *)
Definition returns {A} (run : nat -> outcome A * Converter) : Prop :=
  exists fuel a, fst (run fuel) = Ok a.

Definition never_returns {A} (run : nat -> outcome A * Converter) : Prop :=
  forall fuel, fst (run fuel) = OutOfFuel.

(** How many times [append_and_copy] appends a pair of pages. *)
Definition booklet_copies (c : Converter) : nat :=
  if get_copy_pages c then Z.to_nat (Z.quot (get_pages_in_sheet c) 2) else 1.

(** Six A5 pages on a 2x1 grid, and four on a 1x1 grid with [copy_pages]. *)
Definition six_pages_two_by_one : Converter :=
  construct (repeat portrait_A5 6) [2; 1]%Z "A4" SHORT_EDGE false.

Definition six_pages_one_by_one_copies : Converter :=
  construct (repeat portrait_A5 6) [1; 1]%Z "A4" SHORT_EDGE true.

(** Five A5 pages on a 2x2 grid with [copy_pages], and eight without. *)
Definition five_pages_copies : Converter :=
  construct (repeat portrait_A5 5) [2; 2]%Z "A4" SHORT_EDGE true.

Definition eight_pages_two_by_two : Converter :=
  construct (repeat portrait_A5 8) [2; 2]%Z "A4" SHORT_EDGE false.

(** What holds of every sheet [__do_reduce] builds with the converter [c]:
    its cells are filled from the first on, in the order of the loops, so no
    cell holds two pages and every cell lies in the grid; its pages are pages
    of the input; its size is the output size. *)
Definition well_filled (c : Converter) (sheet : Sheet) : Prop :=
  (exists k, cells_on sheet = firstn k (cells c))
  /\ NoDup (cells_on sheet)
  /\ (forall vert_pos horiz_pos,
        In (vert_pos, horiz_pos) (cells_on sheet) ->
        (Z.of_nat vert_pos < get_pages_in_height c)%Z
        /\ (Z.of_nat horiz_pos < get_pages_in_width c)%Z)
  /\ (forall page, In page (pages_on sheet) ->
                   page < StreamConverter.get_page_count c)
  /\ (sheet_width sheet, sheet_height sheet) = output_size c.

(** The blanks [append_and_remove_copies] adds after a pair of entries. *)
Definition linearize_padding (c : Converter) : list slot :=
  if get_copy_pages c
  then repeat None (Z.to_nat (get_pages_in_sheet c - 2))
  else [].

(** How many times the loop of [__get_sequence_for_linearize] turns. *)
Definition linearize_blocks (c : Converter) : nat :=
  Z.to_nat ((Z.of_nat (StreamConverter.get_page_count c)
             * get_pages_in_sheet c + 3) / 4).

(** Two landscape A4 sheets read on a 2x2 grid with [copy_pages]. *)
Definition two_sheets_copies : Converter :=
  construct (repeat {| mediabox_width := 842; mediabox_height := 595 |} 2)
            [2; 2]%Z "A5" SHORT_EDGE true.

(** The booklet order of the pages [first .. first + n - 1] when every
    pair of pages is appended [copies] times in a row:
    [n-1, 0] repeated, then [1, n-2] repeated, then [n-3, 2], and so on. *)
Definition saddle_copies_from (first copies n : nat) : list nat :=
  flat_map (fun k =>
              List.concat (repeat [first + n - 1 - 2 * k; first + 2 * k] copies)
              ++ List.concat (repeat [first + 2 * k + 1; first + n - 2 - 2 * k]
                                copies))
           (seq 0 (n / 4)).

Definition saddle_copies (copies n : nat) : list nat :=
  saddle_copies_from 0 copies n.

(** Eight A5 pages on a 2x2 grid with [copy_pages]. *)
Definition eight_pages_copies : Converter :=
  construct (repeat portrait_A5 8) [2; 2]%Z "A4" SHORT_EDGE true.

Section LayoutString.
Import Ascii.

(** [layout.split("x")]: the pieces of [layout] between the occurrences of
    the letter x, one more than there are occurrences.  (The byte of the
    letter x is no part of the encoding of any other character.) *)
Fixpoint split_x (layout : string) : list string :=
  match layout with
  | EmptyString => [EmptyString]
  | String ch rest =>
      if Ascii.eqb ch "x"%char then EmptyString :: split_x rest
      else match split_x rest with
           | piece :: pieces => String ch piece :: pieces
           | [] => [String ch EmptyString]
           end
  end.

(** [set_layout] on a string.  [int] stands for Python's [int] on a string,
    which returns an integer or raises; the unpacking of the pieces raises
    [ValueError] unless there are two of them.  The width is converted and
    set before the height is converted. *)
Definition set_layout_str (int : string -> outcome Z) (layout : string)
  : M unit :=
  match split_x layout with
  | [pages_in_width; pages_in_height] =>
      w <- reads (fun _ => int pages_in_width) ;;
      set_pages_in_width w ;;
      h <- reads (fun _ => int pages_in_height) ;;
      set_pages_in_height h
  | _ => raise ValueError
  end.

(** How many times the letter x occurs in a string. *)
Fixpoint count_x (layout : string) : nat :=
  match layout with
  | EmptyString => 0
  | String ch rest => (if Ascii.eqb ch "x"%char then 1 else 0) + count_x rest
  end.

End LayoutString.

(** A reading of the decimal numerals [str] prints, on which Python's [int]
    returns the number printed; every other string is rejected here (Python's
    [int] also accepts a sign, spaces and underscores). *)
Definition int_of_numeral (numeral : string) : outcome Z :=
  if String.eqb numeral "" || String.eqb numeral "-" then Raise ValueError
  else match NilZero.int_of_string numeral with
       | Some d => Ok (Z.of_int d)
       | None => Raise ValueError
       end.

(* ================================================================== *)
(** * The format table *)

Lemma dict_get_page_formats (page_format : string) :
  dict_get PAGE_FORMATS page_format = None <-> ~ In page_format format_names.
Proof.
  unfold PAGE_FORMATS, format_names; simpl.
  repeat match goal with
         | |- context [String.eqb ?a ?b] =>
             destruct (String.eqb_spec a b); [subst; split; [discriminate | tauto] |]
         end.
  split; [intros _ | reflexivity].
  intros H; repeat (destruct H as [H | H]; [congruence |]); exact H.
Qed.

Lemma set_output_format_unfold (page_format : string) (c : Converter) :
  set_output_format page_format c =
  match dict_get PAGE_FORMATS page_format with
  | Some (width, height) => (set_output_height height ;; set_output_width width) c
  | None => (Raise (UnknownFormatError page_format), c)
  end.
Proof.
  unfold set_output_format, dict_contains, page_formats.
  destruct (dict_get PAGE_FORMATS page_format) as [[w h]|]; reflexivity.
Qed.

(** C7.  [set_output_format] raises [UnknownFormatError] exactly for the
    names outside the table, and then leaves the converter untouched; the
    constructor, which calls it before the input is opened, then fails with
    that error whatever the input holds, without having attached any page;
    for a name of the table it returns and the output width and height are
    those of the entry.  ["A2"] is such an unknown name. *)
Theorem set_output_format_unknown_iff (page_format : string) (c : Converter) :
  (fst (set_output_format page_format c) = Raise (UnknownFormatError page_format)
   <-> ~ In page_format format_names)
  /\ (~ In page_format format_names <->
      forall input_stream pages_in_width pages_in_height flip copy_pages,
        fst (StreamConverter.init input_stream [pages_in_width; pages_in_height]
               page_format flip copy_pages new_object)
          = Raise (UnknownFormatError page_format)
        /\ _inpdf (construct input_stream [pages_in_width; pages_in_height]
                     page_format flip copy_pages) = [])
  /\ (In page_format format_names <->
      exists width height,
        In (page_format, (width, height)) PAGE_FORMATS
        /\ fst (set_output_format page_format c) = Ok tt
        /\ output_size (snd (set_output_format page_format c)) = (width, height))
  /\ (~ In page_format format_names -> snd (set_output_format page_format c) = c)
  /\ fst (set_output_format "A2" c) = Raise (UnknownFormatError "A2").
Proof.
  pose proof (dict_get_page_formats page_format) as Hkeys.
  rewrite set_output_format_unfold.
  assert (Hinit : forall input_stream pw ph flip copy_pages,
             StreamConverter.init input_stream [pw; ph] page_format flip
               copy_pages new_object
             = match dict_get PAGE_FORMATS page_format with
               | Some (width, height) =>
                   (Ok tt,
                    {| __pages_in_width := pw; __pages_in_height := ph;
                       __output_width := width; __output_height := height;
                       __copy_pages := copy_pages; __two_sided_flip := flip;
                       _inpdf := input_stream |})
               | None =>
                   (Raise (UnknownFormatError page_format),
                    {| __pages_in_width := pw; __pages_in_height := ph;
                       __output_width := 0; __output_height := 0;
                       __copy_pages := false; __two_sided_flip := SHORT_EDGE;
                       _inpdf := [] |})
               end).
  { intros. unfold StreamConverter.init, init, set_layout, bind.
    unfold set_pages_in_width at 1. unfold set_pages_in_height at 1.
    rewrite set_output_format_unfold.
    destruct (dict_get PAGE_FORMATS page_format) as [[w h]|]; reflexivity. }
  destruct (dict_get PAGE_FORMATS page_format) as [[w h]|] eqn:Hget.
  - assert (Hin : In page_format format_names).
    { destruct (in_dec string_dec page_format format_names) as [Hi|Hn]; [exact Hi|].
      apply Hkeys in Hn. discriminate. }
    split; [|split; [|split; [|split]]].
    + split; [discriminate | tauto].
    + split; [tauto |].
      intros Hall. specialize (Hall [] 2%Z 1%Z SHORT_EDGE false).
      rewrite Hinit in Hall. destruct Hall as [Hall _]. discriminate.
    + split; [intros _ | tauto].
      exists w, h. split; [| split; reflexivity].
      clear - Hget. unfold PAGE_FORMATS in *. simpl in Hget.
      repeat match type of Hget with
             | context [String.eqb ?a ?b] =>
                 destruct (String.eqb_spec a b);
                 [subst; injection Hget as <- <-; simpl; tauto |]
             end.
      discriminate.
    + tauto.
    + reflexivity.
  - assert (Hnin : ~ In page_format format_names) by (apply Hkeys; reflexivity).
    split; [|split; [|split; [|split]]].
    + split; [tauto | reflexivity].
    + split; [intros _ | tauto].
      intros. unfold construct. rewrite Hinit. split; reflexivity.
    + split; [tauto |].
      intros [w [h [_ [Hok _]]]]. discriminate.
    + reflexivity.
    + reflexivity.
Qed.

(* ================================================================== *)
(** * The name of the output format *)

(** C9.  [get_output_format] compares every entry of the table with a pair
    of bound methods, so no entry is selected and the call raises
    [StopIteration] in every state of the converter, also when the output
    size is exactly the entry of a format; the sibling [get_input_format],
    which compares with the size, finds the name. *)
Theorem get_output_format_never_returns (c : Converter) :
  get_output_format c = Raise StopIteration
  /\ (let a4 := construct [portrait_A5] [2; 1]%Z "A4" SHORT_EDGE false in
      In ("A4"%string, output_size a4) PAGE_FORMATS
      /\ get_output_format a4 = Raise StopIteration)
  /\ StreamConverter.get_input_format
       (construct [portrait_A5] [2; 1]%Z "A5" SHORT_EDGE false) = Ok "A5"%string.
Proof.
  split; [reflexivity | split; [split; [simpl; tauto | reflexivity] | reflexivity]].
Qed.

(* ================================================================== *)
(** * Orientation of the output sheet *)

Import StreamConverter.

Lemma set_output_orientation_result (o : option bool) (c : Converter) :
  _set_output_orientation o c = (Ok tt, c)
  \/ _set_output_orientation o c = (Ok tt, swap_output c).
Proof.
  unfold _set_output_orientation.
  destruct (_ || _); [right | left]; reflexivity.
Qed.

(** Asking for landscape on a portrait sheet, or for portrait on a landscape
    one, exchanges width and height. *)
Lemma set_output_orientation_flips (c : Converter) (o : bool) :
  orientation_is (_get_output_orientation c) (negb o) = true ->
  _set_output_orientation (Some o) c = (Ok tt, swap_output c).
Proof.
  unfold _set_output_orientation, _get_output_orientation, orientation_is, to_bool.
  unfold PageOrientation.PORTRAIT, PageOrientation.LANDSCAPE.
  destruct (Z.gtb_spec (get_output_height c) (get_output_width c)) as [Hgt | Hle].
  - destruct o; cbn [negb Bool.eqb andb orb]; [intros _ | discriminate].
    reflexivity.
  - destruct (Z.ltb_spec (get_output_height c) (get_output_width c)) as [Hlt | Hge];
      [| discriminate].
    destruct o; cbn [negb Bool.eqb andb orb]; [discriminate | intros _].
    destruct (Z.gtb_spec (get_output_width c) (get_output_height c)); [| lia].
    reflexivity.
Qed.

(** The three ways [__fix_page_orientation] can end, whatever the
    comparator. *)
Lemma fix_page_orientation_result (cmp : Z -> Z -> bool) (c : Converter) :
  fix_page_orientation cmp c = (Raise IndexError, c)
  \/ fix_page_orientation cmp c
     = (Raise (MismatchingOrientationsError (get_layout c)), c)
  \/ fix_page_orientation cmp c = (Ok tt, c)
  \/ fix_page_orientation cmp c = (Ok tt, swap_output c).
Proof.
  unfold fix_page_orientation.
  assert (Hin : get_input_orientation c = Raise IndexError
                \/ exists o, get_input_orientation c = Ok o).
  { unfold get_input_orientation, AbstractConverter.get_input_orientation,
      get_input_height, get_input_width.
    destruct (_inpdf c) as [|page rest]; simpl; [left; reflexivity | right].
    repeat match goal with
           | |- context [if ?b then _ else _] => destruct b
           end; eexists; reflexivity. }
  destruct Hin as [Hin | [o Hin]]; rewrite Hin.
  - repeat match goal with
           | |- context [if ?b then _ else _] => destruct b
           end; tauto.
  - repeat match goal with
           | |- context [if ?b then _ else _] => destruct b
           end;
      try tauto;
      match goal with
      | |- context [_set_output_orientation ?x c] =>
          destruct (set_output_orientation_result x c) as [E | E];
          rewrite E; tauto
      end.
Qed.

Lemma do_reduce_state (fuel : nat) (sequence : list slot) (c : Converter) :
  snd (do_reduce fuel sequence c) = snd (fix_page_orientation_for_booklet c).
Proof.
  unfold do_reduce, bind, reads.
  destruct (fix_page_orientation_for_booklet c) as [[[]|e|] c']; simpl;
    try reflexivity.
Qed.

Lemma same_or_swapped_cases (c c' : Converter) :
  c' = c \/ c' = swap_output c ->
  same_or_swapped (output_size c) (output_size c')
  /\ output_area c' = output_area c.
Proof.
  unfold same_or_swapped, output_size, output_area, swap_output,
    get_output_width, get_output_height.
  intros [-> | ->]; simpl; split; auto; lia.
Qed.

Lemma fix_page_orientation_state (cmp : Z -> Z -> bool) (c : Converter) :
  snd (fix_page_orientation cmp c) = c
  \/ snd (fix_page_orientation cmp c) = swap_output c.
Proof.
  destruct (fix_page_orientation_result cmp c) as [E | [E | [E | E]]];
    rewrite E; simpl; auto.
Qed.

(** C10.  The orientation fix, in both directions, ends with
    [MismatchingOrientationsError] or with the output size unchanged or
    swapped; in every case, also the failing ones, the output size after it
    is the old one or its swap and the area of the sheet is the same.  The same
    holds of the state [bookletize], [reduce] and [linearize] leave, since
    nothing else in them assigns the output size. *)
Theorem orientation_fix_preserves_dimensions (c : Converter) (fuel : nat)
        (booklet : bool) :
  let after_booklet := fix_page_orientation_for_booklet c in
  let after_linearize := fix_page_orientation_for_linearize c in
  (is_mismatch (fst after_booklet)
   \/ same_or_swapped (output_size c) (output_size (snd after_booklet)))
  /\ (is_mismatch (fst after_linearize)
      \/ same_or_swapped (output_size c) (output_size (snd after_linearize)))
  /\ same_or_swapped (output_size c) (output_size (snd after_booklet))
  /\ same_or_swapped (output_size c) (output_size (snd after_linearize))
  /\ output_area (snd after_booklet) = output_area c
  /\ output_area (snd after_linearize) = output_area c
  /\ same_or_swapped (output_size c) (output_size (snd (bookletize fuel c)))
  /\ same_or_swapped (output_size c) (output_size (snd (reduce fuel c)))
  /\ same_or_swapped (output_size c) (output_size (snd (linearize booklet c)))
  /\ output_area (snd (bookletize fuel c)) = output_area c
  /\ output_area (snd (reduce fuel c)) = output_area c
  /\ output_area (snd (linearize booklet c)) = output_area c.
Proof.
  intros after_booklet after_linearize.
  pose proof (same_or_swapped_cases _ _
                (fix_page_orientation_state is_two_times c)) as [Hb Hba].
  pose proof (same_or_swapped_cases _ _
                (fix_page_orientation_state is_half c)) as [Hl Hla].
  assert (Hbook : snd (bookletize fuel c) = c
                  \/ snd (bookletize fuel c) = swap_output c).
  { unfold bookletize, bind, reads.
    destruct (get_sequence_for_booklet c); simpl; auto.
    rewrite do_reduce_state. apply fix_page_orientation_state. }
  assert (Hred : snd (reduce fuel c) = c \/ snd (reduce fuel c) = swap_output c).
  { unfold reduce, bind, reads.
    destruct (get_sequence_for_reduce c); simpl; auto.
    rewrite do_reduce_state. apply fix_page_orientation_state. }
  assert (Hlin : snd (linearize booklet c) = c
                 \/ snd (linearize booklet c) = swap_output c).
  { unfold linearize, bind, reads.
    pose proof (fix_page_orientation_state is_half c) as Hs.
    unfold fix_page_orientation_for_linearize.
    destruct (fix_page_orientation is_half c) as [[[]|e|] c']; simpl in *; auto. }
  apply same_or_swapped_cases in Hbook, Hred, Hlin.
  subst after_booklet after_linearize.
  unfold fix_page_orientation_for_booklet, fix_page_orientation_for_linearize.
  tauto.
Qed.

(* ================================================================== *)
(** * Python lists *)

Lemma pop_last_app {A} (l : list A) (x : A) : pop_last (l ++ [x]) = Ok (x, l).
Proof.
  unfold pop_last. rewrite rev_app_distr. simpl. rewrite rev_involutive.
  reflexivity.
Qed.

Lemma fold_append_repeat {A B} (x : A) (r : list B) (l : list A) :
  fold_left (fun acc _ => acc ++ [x]) r l = l ++ repeat x (List.length r).
Proof.
  revert l. induction r as [|b r IH]; intros l; simpl.
  - now rewrite app_nil_r.
  - rewrite IH, <- app_assoc. reflexivity.
Qed.

Lemma fold_append_length {A B} (p : list A) (r : list B) (l : list A) :
  List.length (fold_left (fun acc _ => acc ++ p) r l)
  = List.length l + List.length r * List.length p.
Proof.
  revert l. induction r as [|b r IH]; intros l; simpl.
  - lia.
  - rewrite IH, length_app. lia.
Qed.

Lemma range_length (n : Z) : List.length (range n) = Z.to_nat n.
Proof. unfold range. apply length_seq. Qed.

(** A list of [4 * (m + 1)] elements has two elements in front, two at the
    back and [4 * m] in between. *)
Lemma split_two_two {A} (m : nat) (l : list A) :
  List.length l = 4 * S m ->
  exists a b mid y z,
    l = a :: b :: mid ++ [y; z] /\ List.length mid = 4 * m.
Proof.
  intros Hlen.
  destruct l as [|a [|b r]]; simpl in Hlen; try lia.
  destruct (rev r) as [|z [|y rmid]] eqn:Hrev.
  - apply (f_equal (@List.length A)) in Hrev.
    rewrite length_rev in Hrev. simpl in Hrev. lia.
  - apply (f_equal (@List.length A)) in Hrev.
    rewrite length_rev in Hrev. simpl in Hrev. lia.
  - exists a, b, (rev rmid), y, z.
    assert (Hr : r = rev rmid ++ [y; z]).
    { rewrite <- (rev_involutive r), Hrev. simpl.
      rewrite <- app_assoc. reflexivity. }
    split; [now rewrite Hr |].
    rewrite Hr in Hlen. rewrite length_app in Hlen. simpl in Hlen. lia.
Qed.

(* ================================================================== *)
(** * The booklet sequence *)

(** How many times [append_and_copy] appends its pair. *)
Lemma append_and_copy_length (c : Converter) (lst pages : list slot) :
  List.length (append_and_copy c lst pages)
  = List.length lst
    + (if get_copy_pages c
       then Z.to_nat (Z.quot (get_pages_in_sheet c) 2) else 1)
      * List.length pages.
Proof.
  unfold append_and_copy. destruct (get_copy_pages c).
  - rewrite fold_append_length, range_length. reflexivity.
  - rewrite length_app. lia.
Qed.

Lemma booklet_turn_ends (c : Converter) (a b y z : slot)
      (mid sequence : list slot) :
  booklet_turn c (a :: b :: mid ++ [y; z]) sequence
  = Ok (mid, append_and_copy c (append_and_copy c sequence [z; a]) [b; y]).
Proof.
  unfold booklet_turn.
  replace (a :: b :: mid ++ [y; z]) with ((a :: b :: mid ++ [y]) ++ [z])
    by (simpl; rewrite <- app_assoc; reflexivity).
  rewrite pop_last_app. simpl. rewrite pop_last_app. reflexivity.
Qed.

Lemma booklet_while_turn (c : Converter) (pages sequence : list slot)
      (next : list slot * list slot) :
  pages <> [] ->
  booklet_turn c pages sequence = Ok next ->
  booklet_while c pages sequence = booklet_while c (fst next) (snd next).
Proof.
  intros Hne Hturn. destruct pages as [|p pages]; [congruence |].
  rewrite booklet_while_equation_2.
  destruct (inspect (booklet_turn c (p :: pages) sequence)) as [r Hr].
  assert (Hn : r = Ok next) by congruence.
  destruct r as [next' | e |]; try discriminate.
  injection Hn as ->. reflexivity.
Qed.

Lemma booklet_while_ends (c : Converter) (a b y z : slot)
      (mid sequence : list slot) :
  booklet_while c (a :: b :: mid ++ [y; z]) sequence
  = booklet_while c mid
      (append_and_copy c (append_and_copy c sequence [z; a]) [b; y]).
Proof.
  pose proof (booklet_turn_ends c a b y z mid sequence) as Hturn.
  apply booklet_while_turn in Hturn; [exact Hturn | discriminate].
Qed.

(** On a page list whose length is a multiple of four the loop returns, and
    the length of what it returns is known. *)
Lemma booklet_while_total (c : Converter) (m : nat) :
  forall pages sequence,
    List.length pages = 4 * m ->
    exists result,
      booklet_while c pages sequence = Ok result
      /\ List.length result
         = List.length sequence
           + (if get_copy_pages c
              then Z.to_nat (Z.quot (get_pages_in_sheet c) 2) else 1)
             * List.length pages
      /\ (get_copy_pages c = false -> Permutation (sequence ++ pages) result).
Proof.
  induction m as [|m IH]; intros pages sequence Hlen.
  - destruct pages; [| simpl in Hlen; lia].
    exists sequence. rewrite booklet_while_equation_1.
    split; [reflexivity | split; [simpl; lia |]].
    intros _. rewrite app_nil_r. apply Permutation_refl.
  - destruct (split_two_two m pages Hlen) as (a & b & mid & y & z & -> & Hmid).
    rewrite booklet_while_ends.
    destruct (IH mid (append_and_copy c (append_and_copy c sequence [z; a]) [b; y])
                Hmid) as (result & Hres & Hl & Hperm).
    exists result. split; [exact Hres | split].
    + rewrite Hl, !append_and_copy_length. simpl.
      rewrite length_app. simpl. lia.
    + intros Hcopy. specialize (Hperm Hcopy).
      eapply Permutation_trans; [| exact Hperm].
      unfold append_and_copy. rewrite Hcopy.
      rewrite <- !app_assoc. apply Permutation_app_head. simpl.
      apply Permutation_trans with (l' := a :: b :: [y; z] ++ mid).
      * do 2 apply perm_skip. apply Permutation_app_comm.
      * symmetry. apply (Permutation_middle [a; b; y] mid z).
Qed.

Lemma blanks_to_multiple_code (k n : nat) :
  0 < k ->
  (if n mod k =? 0 then 0 else k - n mod k) = blanks_to_multiple k n.
Proof.
  intros Hk. unfold blanks_to_multiple.
  pose proof (Nat.mod_upper_bound n k ltac:(lia)) as Hlt.
  destruct (Nat.eqb_spec (n mod k) 0) as [E | E].
  - rewrite E, Nat.sub_0_r, Nat.Div0.mod_same. reflexivity.
  - remember (n mod k) as r. rewrite Nat.mod_small; lia.
Qed.

Lemma blanks_to_multiple_spec (k n : nat) :
  0 < k ->
  blanks_to_multiple k n < k /\ (n + blanks_to_multiple k n) mod k = 0.
Proof.
  intros Hk. rewrite <- (blanks_to_multiple_code k n Hk).
  pose proof (Nat.mod_upper_bound n k ltac:(lia)) as Hlt.
  pose proof (Nat.div_mod_eq n k) as Hdm.
  destruct (Nat.eqb_spec (n mod k) 0) as [E | E].
  - split; [lia |]. rewrite Nat.add_0_r. exact E.
  - remember (n mod k) as r. remember (n / k) as q.
    split; [lia |].
    replace (n + (k - r)) with ((1 + q) * k) by nia.
    apply Nat.Div0.mod_mul.
Qed.

Lemma get_sequence_for_booklet_padded (c : Converter) :
  get_sequence_for_booklet c
  = booklet_while c
      (identity_order (get_page_count c)
       ++ repeat None (blanks_to_multiple 4 (get_page_count c)))
      [].
Proof.
  unfold get_sequence_for_booklet.
  rewrite fold_append_repeat, length_seq.
  rewrite (blanks_to_multiple_code 4 (get_page_count c)) by lia.
  reflexivity.
Qed.

Lemma padded_length (n : nat) :
  List.length (identity_order n ++ repeat None (blanks_to_multiple 4 n))
  = 4 * ((n + blanks_to_multiple 4 n) / 4).
Proof.
  unfold identity_order.
  rewrite length_app, length_map, length_seq, repeat_length.
  destruct (blanks_to_multiple_spec 4 n ltac:(lia)) as [_ Hmod].
  pose proof (Nat.div_mod_eq (n + blanks_to_multiple 4 n) 4). lia.
Qed.

(** With [copy_pages] off, the loop on the pages [first .. first + 4m - 1]
    appends their saddle-stitch order. *)
Lemma booklet_while_saddle_stitch (c : Converter) (m : nat) :
  get_copy_pages c = false ->
  forall first sequence,
    booklet_while c (map Some (seq first (4 * m))) sequence
    = Ok (sequence ++ saddle_stitch_from first (4 * m)).
Proof.
  intros Hcopy. unfold saddle_stitch_from.
  induction m as [|m IH]; intros first sequence.
  - simpl. rewrite booklet_while_equation_1, app_nil_r. reflexivity.
  - replace (4 * S m) with (2 + (4 * m + 2)) at 1 by lia.
    rewrite !seq_app, !map_app.
    change (seq first 2) with [first; S first].
    change (seq (first + 2 + 4 * m) 2)
      with [first + 2 + 4 * m; S (first + 2 + 4 * m)].
    cbn [map app].
    rewrite booklet_while_ends, IH.
    unfold append_and_copy. rewrite Hcopy. f_equal.
    rewrite <- !app_assoc. f_equal.
    replace (4 * S m / 4) with (S m)
      by (symmetry; rewrite Nat.mul_comm; apply Nat.div_mul; lia).
    replace (4 * m / 4) with m
      by (symmetry; rewrite Nat.mul_comm; apply Nat.div_mul; lia).
    rewrite <- cons_seq, <- seq_shift. cbn [flat_map].
    rewrite (flat_map_concat_map _ (map S _)), map_map, <- flat_map_concat_map.
    cbn [app].
    replace (first + 4 * S m - 1 - 2 * 0) with (S (first + 2 + 4 * m)) by lia.
    replace (first + 2 * 0) with first by lia.
    replace (first + 4 * S m - 2 - 2 * 0) with (first + 2 + 4 * m) by lia.
    replace (first + 1) with (S first) by lia.
    do 4 f_equal.
    apply flat_map_ext. intros k.
    repeat (f_equal; try lia).
Qed.

Lemma get_sequence_for_booklet_saddle_stitch (c : Converter) :
  get_page_count c mod 4 = 0 ->
  get_copy_pages c = false ->
  get_sequence_for_booklet c = Ok (saddle_stitch (get_page_count c)).
Proof.
  intros Hmod Hcopy.
  pose proof (Nat.div_mod_eq (get_page_count c) 4) as Hn.
  rewrite get_sequence_for_booklet_padded.
  replace (blanks_to_multiple 4 (get_page_count c)) with 0
    by (unfold blanks_to_multiple; rewrite Hmod; reflexivity).
  rewrite app_nil_r. unfold identity_order, saddle_stitch.
  replace (get_page_count c) with (4 * (get_page_count c / 4)) by lia.
  apply (booklet_while_saddle_stitch c (get_page_count c / 4) Hcopy 0 []).
Qed.

(** C1.  With [copy_pages] off and a page count that is a multiple of four,
    the booklet sequence is the saddle-stitch order: its group of four
    number [k] (counted from 0) is [N-1-2k, 2k, 2k+1, N-2-2k], so the
    sequence starts [N-1, 0, 1, N-2, N-3, 2, 3, N-4]; in 1-based page numbers
    the first sheet holds [N, 1, 2, N-1] and the second [N-2, 3, 4, N-3]. *)
Theorem booklet_sequence_saddle_stitch (c : Converter) :
  get_page_count c mod 4 = 0 ->
  get_copy_pages c = false ->
  let n := get_page_count c in
  get_sequence_for_booklet c = Ok (saddle_stitch n)
  /\ List.length (saddle_stitch n) = n
  /\ (forall k, k < n / 4 ->
        firstn 4 (skipn (4 * k) (saddle_stitch n))
        = [Some (n - 1 - 2 * k); Some (2 * k); Some (2 * k + 1);
           Some (n - 2 - 2 * k)])
  /\ (8 <= n ->
        firstn 8 (saddle_stitch n)
        = map Some [n - 1; 0; 1; n - 2; n - 3; 2; 3; n - 4]).
Proof.
  intros Hmod Hcopy n.
  assert (Hn : n = 4 * (n / 4)).
  { pose proof (Nat.div_mod_eq n 4). subst n. lia. }
  assert (Hblocks : forall (f : nat -> list slot) k l,
             (forall x, List.length (f x) = 4) ->
             skipn (4 * k) (flat_map f l) = flat_map f (skipn k l)).
  { intros f k. induction k as [|k IH]; intros l Hf; [reflexivity |].
    destruct l as [|x l]; [reflexivity |].
    cbn [flat_map skipn].
    replace (4 * S k) with (List.length (f x) + 4 * k) by (rewrite Hf; lia).
    rewrite skipn_app, skipn_all2 by lia.
    replace (List.length (f x) + 4 * k - List.length (f x)) with (4 * k) by lia.
    rewrite IH by exact Hf. reflexivity. }
  split; [| split; [| split]].
  - apply get_sequence_for_booklet_saddle_stitch; assumption.
  - unfold saddle_stitch, saddle_stitch_from.
    rewrite (flat_map_constant_length (c := 4)) by reflexivity.
    rewrite length_seq. lia.
  - intros k Hk. unfold saddle_stitch, saddle_stitch_from.
    rewrite Hblocks by reflexivity.
    rewrite skipn_seq.
    destruct (n / 4 - k) as [|r] eqn:Hr; [lia |].
    cbn [seq flat_map firstn app Nat.add]. reflexivity.
  - intros H8. unfold saddle_stitch, saddle_stitch_from.
    destruct (n / 4) as [|[|q]] eqn:Hq; try lia.
    cbn [seq flat_map firstn app map].
    repeat (f_equal; try lia).
Qed.

(** A 12-page document with layout 2x2: the hypotheses hold and the sequence
    is the saddle-stitch order of twelve pages. *)
Lemma booklet_sequence_saddle_stitch_witness :
  let c := construct (repeat portrait_A5 12) [2; 2]%Z "A4" SHORT_EDGE false in
  get_page_count c mod 4 = 0
  /\ get_copy_pages c = false
  /\ get_sequence_for_booklet c
     = Ok (map Some [11; 0; 1; 10; 9; 2; 3; 8; 7; 4; 5; 6]).
Proof.
  intros c.
  split; [reflexivity | split; [reflexivity |]].
  exact (proj1 (booklet_sequence_saddle_stitch c eq_refl eq_refl)).
Defined.

(* ================================================================== *)
(** * The reduce sequence *)

Lemma valid_layout_slots (c : Converter) :
  valid_layout c ->
  0 < slots_per_sheet c
  /\ get_pages_in_sheet c = Z.of_nat (slots_per_sheet c).
Proof.
  unfold valid_layout, slots_per_sheet, get_pages_in_sheet.
  intros [Hw Hh].
  assert (1 <= get_pages_in_width c * get_pages_in_height c)%Z by nia.
  split; [lia | rewrite Z2Nat.id; lia].
Qed.

Lemma reduce_copies_fold (n : Z) (pages : list nat) (sequence : list slot) :
  fold_left
    (fun sequence page =>
       fold_left (fun sequence _ => sequence ++ [Some page]) (range n) sequence)
    pages sequence
  = sequence ++ flat_map (fun page => repeat (Some page) (Z.to_nat n)) pages.
Proof.
  revert sequence. induction pages as [|page pages IH]; intros sequence.
  - simpl. now rewrite app_nil_r.
  - cbn [fold_left flat_map].
    rewrite IH, fold_append_repeat, range_length, <- app_assoc. reflexivity.
Qed.

Lemma get_sequence_for_reduce_shape (c : Converter) :
  valid_layout c ->
  get_sequence_for_reduce c
  = Ok (if get_copy_pages c
        then each_repeated (slots_per_sheet c) (get_page_count c)
        else identity_order (get_page_count c)
             ++ repeat None
                  (blanks_to_multiple (slots_per_sheet c) (get_page_count c))).
Proof.
  intros Hvalid. destruct (valid_layout_slots c Hvalid) as [Hpos Hs].
  unfold get_sequence_for_reduce.
  destruct (get_copy_pages c).
  - rewrite reduce_copies_fold. reflexivity.
  - rewrite Hs, length_map, length_seq, <- Nat2Z.inj_mod.
    destruct (Z.eqb_spec (Z.of_nat (slots_per_sheet c)) 0) as [E | _]; [lia |].
    rewrite <- (blanks_to_multiple_code _ (get_page_count c) Hpos).
    pose proof (Nat.mod_upper_bound (get_page_count c) (slots_per_sheet c)
                  ltac:(lia)) as Hlt.
    remember (get_page_count c mod slots_per_sheet c) as r.
    destruct (Nat.eqb_spec r 0) as [E | E].
    + subst r. rewrite E. simpl. rewrite app_nil_r. reflexivity.
    + destruct (Z.eqb_spec (Z.of_nat r) 0) as [E' | _]; [lia |]. simpl.
      rewrite fold_append_repeat, range_length.
      replace (Z.to_nat (Z.of_nat (slots_per_sheet c) - Z.of_nat r))
        with (slots_per_sheet c - r) by lia.
      reflexivity.
Qed.

Lemma each_repeated_length (copies n : nat) :
  List.length (each_repeated copies n) = n * copies.
Proof.
  unfold each_repeated.
  rewrite (flat_map_constant_length (c := copies)).
  - now rewrite length_seq.
  - intros x _. apply repeat_length.
Qed.

(** C5.  On a grid [W x H] the reduce sequence of [N] pages is, with
    [copy_pages] on, every page index [0 .. N-1] in order, each repeated
    [W * H] times in a row, [N * W * H] entries in all; with [copy_pages]
    off it is [0 .. N-1] followed by the fewest blanks that make the length
    a multiple of [W * H]. *)
Theorem reduce_sequence_shape (c : Converter) :
  valid_layout c ->
  let n := get_page_count c in
  let s := slots_per_sheet c in
  Z.of_nat s = (get_pages_in_width c * get_pages_in_height c)%Z
  /\ get_sequence_for_reduce c
     = Ok (if get_copy_pages c
           then each_repeated s n
           else identity_order n ++ repeat None (blanks_to_multiple s n))
  /\ List.length (each_repeated s n) = n * s
  /\ blanks_to_multiple s n < s
  /\ (n + blanks_to_multiple s n) mod s = 0.
Proof.
  intros Hvalid n s.
  destruct (valid_layout_slots c Hvalid) as [Hpos Hs].
  split; [symmetry; exact Hs |].
  split; [apply get_sequence_for_reduce_shape; exact Hvalid |].
  split; [apply each_repeated_length |].
  apply blanks_to_multiple_spec. exact Hpos.
Qed.

(** Two pages on a 2x2 grid with [copy_pages] on: four times page 0, then
    four times page 1. *)
Lemma reduce_sequence_shape_witness :
  let c := construct (repeat portrait_A5 2) [2; 2]%Z "A4" SHORT_EDGE true in
  valid_layout c
  /\ get_sequence_for_reduce c = Ok (map Some [0; 0; 0; 0; 1; 1; 1; 1]).
Proof.
  intros c.
  assert (Hvalid : valid_layout c) by (split; discriminate).
  split; [exact Hvalid |].
  exact (proj1 (proj2 (reduce_sequence_shape c Hvalid))).
Defined.

(* ================================================================== *)
(** * Lengths of the sequences *)

(** C3, as the code has it.  On a valid layout the reduce sequence has a
    length that is a multiple of the slots per sheet.  The booklet sequence
    is padded to a multiple of four, not of the slots per sheet: its length is
    the page count rounded up to a multiple of four, times one
    ([copy_pages] off) or times half the slots per sheet rounded down
    ([copy_pages] on); that is a multiple of the slots per sheet when these
    divide four ([copy_pages] off) or are even ([copy_pages] on). *)
Theorem sequence_length_multiples (c : Converter) :
  valid_layout c ->
  let n := get_page_count c in
  let s := slots_per_sheet c in
  (exists sequence,
     get_sequence_for_reduce c = Ok sequence
     /\ List.length sequence mod s = 0)
  /\ (exists sequence,
        get_sequence_for_booklet c = Ok sequence
        /\ List.length sequence
           = (if get_copy_pages c then s / 2 else 1)
             * (n + blanks_to_multiple 4 n)
        /\ (get_copy_pages c = false -> List.length sequence mod 4 = 0)
        /\ ((get_copy_pages c = false /\ 4 mod s = 0)
            \/ (get_copy_pages c = true /\ s mod 2 = 0) ->
            List.length sequence mod s = 0)).
Proof.
  intros Hvalid n s.
  destruct (valid_layout_slots c Hvalid) as [Hpos Hs]. fold s in Hpos, Hs.
  split.
  - eexists. split; [apply get_sequence_for_reduce_shape; exact Hvalid |].
    fold n s. destruct (get_copy_pages c).
    + rewrite each_repeated_length. apply Nat.Div0.mod_mul.
    + unfold identity_order.
      rewrite length_app, length_map, length_seq, repeat_length.
      apply blanks_to_multiple_spec. exact Hpos.
  - rewrite get_sequence_for_booklet_padded. fold n.
    destruct (booklet_while_total c ((n + blanks_to_multiple 4 n) / 4)
                (identity_order n ++ repeat None (blanks_to_multiple 4 n)) []
                (padded_length n)) as (result & Hres & Hlen & _).
    exists result. split; [exact Hres |].
    destruct (blanks_to_multiple_spec 4 n ltac:(lia)) as [_ Hmod4].
    pose proof (Nat.div_mod_eq (n + blanks_to_multiple 4 n) 4) as Hdm.
    remember (n + blanks_to_multiple 4 n) as padded.
    remember (padded / 4) as q.
    assert (Hcopies : Z.to_nat (get_pages_in_sheet c ÷ 2) = s / 2).
    { rewrite Hs, Z.quot_div_nonneg, Z2Nat.inj_div by lia.
      rewrite Nat2Z.id. reflexivity. }
    rewrite padded_length, <- Heqpadded, <- Heqq, Hcopies in Hlen.
    simpl List.length in Hlen.
    assert (Hl : List.length result
                 = (if get_copy_pages c then s / 2 else 1) * padded) by lia.
    split; [exact Hl | split].
    + intros Hc. rewrite Hl, Hc.
      replace (1 * padded) with (q * 4) by lia. apply Nat.Div0.mod_mul.
    + intros [[Hc Hdiv] | [Hc Heven]]; rewrite Hl, Hc.
      * apply Nat.Lcm0.mod_divide in Hdiv. destruct Hdiv as [t Ht].
        replace (1 * padded) with (q * t * s) by nia.
        apply Nat.Div0.mod_mul.
      * pose proof (Nat.div_mod_eq s 2) as Hs2.
        remember (s / 2) as u.
        replace (u * padded) with (2 * q * s) by nia.
        apply Nat.Div0.mod_mul.
Qed.

(** Five pages on a 2x2 grid: the layout is valid, and both lengths are 8. *)
Lemma sequence_length_multiples_witness :
  valid_layout five_pages_two_by_two
  /\ (exists sequence,
        get_sequence_for_reduce five_pages_two_by_two = Ok sequence
        /\ List.length sequence mod 4 = 0).
Proof.
  assert (Hvalid : valid_layout five_pages_two_by_two) by (split; discriminate).
  split; [exact Hvalid |].
  exact (proj1 (sequence_length_multiples five_pages_two_by_two Hvalid)).
Defined.

(** C3 as stated fails: four pages on the valid grid 3x1 give the booklet
    sequence [3, 0, 1, 2], whose length 4 is not a multiple of 3. *)
Lemma booklet_length_not_multiple_of_slots :
  valid_layout four_pages_three_by_one
  /\ slots_per_sheet four_pages_three_by_one = 3
  /\ get_sequence_for_booklet four_pages_three_by_one
     = Ok [Some 3; Some 0; Some 1; Some 2]
  /\ ~ (forall c sequence,
          valid_layout c ->
          get_sequence_for_booklet c = Ok sequence ->
          List.length sequence mod slots_per_sheet c = 0).
Proof.
  assert (Hvalid : valid_layout four_pages_three_by_one) by (split; discriminate).
  split; [exact Hvalid | split; [reflexivity | split; [reflexivity |]]].
  intros Hall.
  specialize (Hall four_pages_three_by_one _ Hvalid eq_refl).
  discriminate Hall.
Qed.

(* ================================================================== *)
(** * The imposition loop *)

Lemma fix_page_orientation_keeps (cmp : Z -> Z -> bool) (c : Converter) :
  let c' := snd (fix_page_orientation cmp c) in
  get_pages_in_width c' = get_pages_in_width c
  /\ get_pages_in_height c' = get_pages_in_height c
  /\ get_copy_pages c' = get_copy_pages c
  /\ get_two_sided_flip c' = get_two_sided_flip c
  /\ _inpdf c' = _inpdf c.
Proof.
  destruct (fix_page_orientation_state cmp c) as [E | E]; simpl; rewrite E;
    repeat split.
Qed.

Lemma reached_rotations (c : Converter) (sequence : list slot) (w : Writer) :
  reached c sequence w ->
  output_page w = List.length (outpdf w)
  /\ rotations_follow (get_two_sided_flip c) (outpdf w).
Proof.
  induction 1 as [| w w' Hreach [IHn IHr] Hlt Hturn].
  - split; [reflexivity |]. intros [|i] sheet Hnth; discriminate.
  - unfold do_reduce_turn in Hturn.
    destruct (get_pages_in_sheet c =? 0)%Z; [discriminate |].
    destruct (fill_sheet c sequence (current_page w)) as [filled | e |];
      try discriminate.
    injection Hturn as <-. simpl. split.
    + rewrite length_app. simpl. lia.
    + intros i sheet Hnth.
      destruct (Nat.lt_ge_cases i (List.length (outpdf w))) as [Hi | Hi].
      * rewrite nth_error_app1 in Hnth by exact Hi. apply IHr. exact Hnth.
      * rewrite nth_error_app2 in Hnth by exact Hi.
        destruct (i - List.length (outpdf w)) as [|d] eqn:Hd;
          [| destruct d; discriminate].
        injection Hnth as <-. simpl.
        replace i with (output_page w) by lia.
        unfold expected_rotation.
        destruct (get_two_sided_flip c); reflexivity.
Qed.

Lemma do_reduce_while_reached (c : Converter) (sequence : list slot) (fuel : nat) :
  forall w w',
    reached c sequence w ->
    do_reduce_while fuel c sequence w = Ok w' ->
    reached c sequence w'.
Proof.
  induction fuel as [|fuel IH]; intros w w' Hreach Hrun; simpl in Hrun.
  - destruct (Nat.ltb_spec (current_page w) (List.length sequence));
      [discriminate |].
    injection Hrun as <-. exact Hreach.
  - destruct (Nat.ltb_spec (current_page w) (List.length sequence)) as [Hlt | _].
    + destruct (do_reduce_turn c sequence w) as [w1 | e |] eqn:Hturn;
        try discriminate.
      simpl in Hrun. apply (IH w1 w'); [| exact Hrun].
      apply (reached_turn c sequence w w1 Hreach Hlt Hturn).
    + injection Hrun as <-. exact Hreach.
Qed.

(** C8.  Whatever the sequence, at every moment of the imposition loop the
    sheets built so far have the expected rotation: on a long-edge flip the
    sheets of odd index (from 0) are rotated by 180 degrees and those of even
    index are not, on a short-edge flip none is; so has every document
    [__do_reduce] returns.  Bookletizing four pages on a 2x1 grid with a
    long-edge flip returns two sheets, the first not rotated and the second
    rotated by 180 degrees. *)
Theorem long_edge_rotates_odd_sheets (c : Converter) (sequence : list slot) :
  (forall w, reached c sequence w ->
             rotations_follow (get_two_sided_flip c) (outpdf w))
  /\ (forall fuel sheets,
        fst (do_reduce fuel sequence c) = Ok sheets ->
        rotations_follow (get_two_sided_flip c) sheets)
  /\ (forall i, expected_rotation SHORT_EDGE i = 0%Z)
  /\ (forall i, expected_rotation LONG_EDGE i = if Nat.odd i then 180%Z else 0%Z)
  /\ (exists first second,
        fst (bookletize 2 four_pages_long_edge) = Ok [first; second]
        /\ sheet_rotation first = 0%Z
        /\ sheet_rotation second = 180%Z).
Proof.
  split; [| split; [| split; [| split]]].
  - intros w Hreach. apply (reached_rotations c sequence w Hreach).
  - intros fuel sheets Hrun.
    unfold do_reduce, bind, reads in Hrun.
    pose proof (fix_page_orientation_keeps is_two_times c) as Hkeep.
    unfold fix_page_orientation_for_booklet in Hrun.
    destruct (fix_page_orientation is_two_times c) as [[[]|e|] c'];
      try discriminate.
    simpl in Hkeep. destruct Hkeep as (_ & _ & _ & Hflip & _).
    simpl in Hrun.
    destruct (do_reduce_while fuel c' sequence
                {| current_page := 0; output_page := 0; outpdf := [] |})
      as [w | e |] eqn:Hwhile; try discriminate.
    injection Hrun as <-. rewrite <- Hflip.
    apply (reached_rotations c' sequence w).
    apply (do_reduce_while_reached c' sequence fuel _ w
             (reached_start c' sequence) Hwhile).
  - reflexivity.
  - reflexivity.
  - eexists. eexists. split; [reflexivity | split; reflexivity].
Qed.

(** On a blank the cell loop does nothing: [current_page] only advances
    past a page number. *)
Lemma fill_sheet_on_blank (c : Converter) (sequence : list slot) (current : nat) :
  nth_error sequence current = Some None ->
  fill_sheet c sequence current = Ok (current, []).
Proof.
  intros Hblank. unfold fill_sheet.
  assert (Hrow : forall vert_pos cols,
             fold_left
               (fun acc horiz_pos =>
                  st <-- acc ;;; place c sequence vert_pos horiz_pos st)
               cols (Ok (current, []))
             = Ok (current, [])).
  { intros vert_pos cols.
    induction cols as [|horiz_pos cols IHcols]; [reflexivity |].
    cbn [fold_left obind]. unfold place at 2. cbn [fst]. rewrite Hblank.
    exact IHcols. }
  induction (range (get_pages_in_height c)) as [|vert_pos rows IHrows];
    [reflexivity |].
  cbn [fold_left]. rewrite Hrow. exact IHrows.
Qed.

(** So the [while] loop never ends once [current_page] is on a blank. *)
Lemma blank_is_never_passed (c : Converter) (sequence : list slot) (fuel : nat) :
  get_pages_in_sheet c <> 0%Z ->
  forall w,
    nth_error sequence (current_page w) = Some None ->
    do_reduce_while fuel c sequence w = OutOfFuel.
Proof.
  intros Hsheet. induction fuel as [|fuel IH]; intros w Hblank.
  - simpl.
    assert (Hlt : current_page w < List.length sequence)
      by (apply nth_error_Some; congruence).
    apply Nat.ltb_lt in Hlt. rewrite Hlt. reflexivity.
  - simpl.
    assert (Hlt : current_page w < List.length sequence)
      by (apply nth_error_Some; congruence).
    apply Nat.ltb_lt in Hlt. rewrite Hlt.
    unfold do_reduce_turn.
    destruct (Z.eqb_spec (get_pages_in_sheet c) 0) as [E | _]; [congruence |].
    rewrite (fill_sheet_on_blank c sequence (current_page w) Hblank).
    cbn [obind fst snd]. apply IH. exact Hblank.
Qed.

(* ================================================================== *)
(** * Padding *)

(** C4.  The sequence generators return for every page count: the booklet
    one always, the reduce one on every valid layout; with no page both
    return the empty sequence; with [copy_pages] off the reduce sequence is
    the pages followed by blanks and the booklet sequence is a rearrangement
    of the pages followed by the blanks that bring their number to a multiple
    of four.  Five pages on a 2x2 grid give the booklet sequence
    [None, 0, 1, None, None, 2, 3, 4]: eight slots, three of them blank, which
    is two sheets of four slots.  Those two sheets are not produced, though:
    the sequence starts with a blank, [__do_reduce] never moves past a blank,
    and [bookletize] is still adding empty sheets whatever fuel it is given.
    [reduce] on the same document stalls likewise, on its first padding
    blank. *)
Theorem sequence_generators_pad (c : Converter) :
  valid_layout c ->
  let n := get_page_count c in
  (exists sequence,
     get_sequence_for_booklet c = Ok sequence
     /\ (get_copy_pages c = false ->
         Permutation (identity_order n ++ repeat None (blanks_to_multiple 4 n))
                     sequence))
  /\ (exists sequence,
        get_sequence_for_reduce c = Ok sequence
        /\ (get_copy_pages c = false ->
            sequence
            = identity_order n
              ++ repeat None (blanks_to_multiple (slots_per_sheet c) n)))
  /\ (n = 0 ->
      get_sequence_for_booklet c = Ok []
      /\ get_sequence_for_reduce c = Ok [])
  /\ get_sequence_for_booklet five_pages_two_by_two
     = Ok [None; Some 0; Some 1; None; None; Some 2; Some 3; Some 4]
  /\ (forall sequence,
        get_sequence_for_booklet five_pages_two_by_two = Ok sequence ->
        List.length sequence = 8
        /\ count_blanks sequence = 3
        /\ List.length sequence = 2 * slots_per_sheet five_pages_two_by_two)
  /\ (forall fuel,
        fst (bookletize fuel five_pages_two_by_two) = OutOfFuel)
  /\ (forall fuel,
        fst (reduce fuel five_pages_two_by_two) = OutOfFuel).
Proof.
  intros Hvalid n.
  split; [| split; [| split; [| split; [| split; [| split]]]]].
  - rewrite get_sequence_for_booklet_padded. fold n.
    destruct (booklet_while_total c ((n + blanks_to_multiple 4 n) / 4)
                (identity_order n ++ repeat None (blanks_to_multiple 4 n)) []
                (padded_length n)) as (result & Hres & _ & Hperm).
    exists result. split; [exact Hres | exact Hperm].
  - eexists. split; [apply get_sequence_for_reduce_shape; exact Hvalid |].
    intros ->. reflexivity.
  - intros Hn. split.
    + rewrite get_sequence_for_booklet_padded. fold n. rewrite Hn.
      apply booklet_while_equation_1.
    + rewrite get_sequence_for_reduce_shape by exact Hvalid. fold n.
      rewrite Hn. destruct (get_copy_pages c); [reflexivity |].
      unfold blanks_to_multiple.
      rewrite Nat.Div0.mod_0_l, Nat.sub_0_r, Nat.Div0.mod_same. reflexivity.
  - reflexivity.
  - intros sequence Hseq.
    assert (Hfive : get_sequence_for_booklet five_pages_two_by_two
                    = Ok [None; Some 0; Some 1; None; None; Some 2; Some 3; Some 4])
      by reflexivity.
    rewrite Hfive in Hseq. injection Hseq as <-.
    split; [reflexivity | split; reflexivity].
  - intros fuel.
    unfold bookletize, bind, reads.
    replace (get_sequence_for_booklet five_pages_two_by_two)
      with (@Ok (list slot)
              [None; Some 0; Some 1; None; None; Some 2; Some 3; Some 4])
      by reflexivity.
    unfold do_reduce, bind, reads.
    destruct (fix_page_orientation_for_booklet five_pages_two_by_two)
      as [[[]|e|] c'] eqn:Hfix; try discriminate.
    assert (Hc' : c' = five_pages_two_by_two) by (injection Hfix; auto).
    subst c'. cbn [fst].
    rewrite blank_is_never_passed; [reflexivity | discriminate | reflexivity].
  - intros fuel.
    unfold reduce, bind, reads.
    replace (get_sequence_for_reduce five_pages_two_by_two)
      with (@Ok (list slot)
              [Some 0; Some 1; Some 2; Some 3; Some 4; None; None; None])
      by reflexivity.
    unfold do_reduce, bind, reads.
    destruct (fix_page_orientation_for_booklet five_pages_two_by_two)
      as [[[]|e|] c'] eqn:Hfix; try discriminate.
    assert (Hc' : c' = five_pages_two_by_two) by (injection Hfix; auto).
    subst c'. cbn [fst].
    destruct fuel as [|[|fuel]]; [reflexivity | reflexivity |].
    cbn [do_reduce_while].
    change (0 <? 8) with true. cbv iota.
    match goal with
    | |- context [do_reduce_turn ?c ?q ?w] =>
        let r := eval vm_compute in (do_reduce_turn c q w) in
        change (do_reduce_turn c q w) with r
    end.
    cbn [obind current_page]. change (4 <? 8) with true. cbv iota.
    match goal with
    | |- context [do_reduce_turn ?c ?q ?w] =>
        let r := eval vm_compute in (do_reduce_turn c q w) in
        change (do_reduce_turn c q w) with r
    end.
    cbn [obind].
    rewrite blank_is_never_passed; [reflexivity | discriminate | reflexivity].
Qed.

(** Zero pages on a 2x1 grid: the layout is valid and both sequences are
    empty. *)
Lemma sequence_generators_pad_witness :
  let c := construct [] [2; 1]%Z "A4" SHORT_EDGE false in
  valid_layout c
  /\ get_sequence_for_booklet c = Ok []
  /\ get_sequence_for_reduce c = Ok [].
Proof.
  intros c.
  assert (Hvalid : valid_layout c) by (split; discriminate).
  split; [exact Hvalid |].
  exact (proj1 (proj2 (proj2 (sequence_generators_pad c Hvalid))) eq_refl).
Defined.

(* ================================================================== *)
(** * Two pages side by side *)

Lemma get_sequence_for_booklet_returns (c : Converter) :
  exists sequence, get_sequence_for_booklet c = Ok sequence.
Proof.
  rewrite get_sequence_for_booklet_padded.
  destruct (booklet_while_total c _ _ [] (padded_length (get_page_count c)))
    as (result & Hres & _).
  exists result. exact Hres.
Qed.

(** C6.  On a grid twice as wide as high (2x1 is one), in the direction of
    [bookletize] and [reduce]: with a portrait input page and a portrait
    output sheet the fix returns, having exchanged the output width and
    height, and the sheet is then landscape; with a landscape input page it
    raises [MismatchingOrientationsError], and so do [bookletize] and
    [reduce], which call it before they build any sheet.  A first page of
    420 by 595 is a portrait one. *)
Theorem two_by_one_orientation (c : Converter) :
  get_pages_in_width c = (2 * get_pages_in_height c)%Z ->
  (1 <= get_pages_in_height c)%Z ->
  (get_input_orientation c = Ok (Some PageOrientation.PORTRAIT) ->
   _get_output_orientation c = Some PageOrientation.PORTRAIT ->
   fix_page_orientation_for_booklet c = (Ok tt, swap_output c)
   /\ output_size (swap_output c) = (get_output_height c, get_output_width c)
   /\ _get_output_orientation (swap_output c) = Some PageOrientation.LANDSCAPE)
  /\ (get_input_orientation c = Ok (Some PageOrientation.LANDSCAPE) ->
      forall fuel,
        fix_page_orientation_for_booklet c
        = (Raise (MismatchingOrientationsError (get_layout c)), c)
        /\ bookletize fuel c
           = (Raise (MismatchingOrientationsError (get_layout c)), c)
        /\ reduce fuel c
           = (Raise (MismatchingOrientationsError (get_layout c)), c))
  /\ (forall rest,
        _inpdf c = portrait_A5 :: rest ->
        get_input_orientation c = Ok (Some PageOrientation.PORTRAIT)).
Proof.
  intros Hgrid Hheight.
  assert (Hcmp : is_two_times (get_pages_in_width c) (get_pages_in_height c)
                 = true).
  { unfold is_two_times. rewrite Hgrid. apply Z.eqb_refl. }
  split; [| split].
  - intros Hin Hout.
    split; [| split].
    + unfold fix_page_orientation_for_booklet, fix_page_orientation.
      rewrite Hcmp, Hin, Hout. cbn [orientation_is Bool.eqb PageOrientation.PORTRAIT].
      apply set_output_orientation_flips. rewrite Hout. reflexivity.
    + reflexivity.
    + unfold _get_output_orientation in *.
      unfold swap_output, get_output_height, get_output_width in *. simpl.
      destruct (Z.gtb_spec (__output_height c) (__output_width c)) as [Hgt | Hle].
      * destruct (Z.gtb_spec (__output_width c) (__output_height c)); [lia |].
        destruct (Z.ltb_spec (__output_width c) (__output_height c)); [| lia].
        reflexivity.
      * destruct (__output_height c <? __output_width c)%Z; discriminate.
  - intros Hin fuel.
    assert (Hfix : fix_page_orientation_for_booklet c
                   = (Raise (MismatchingOrientationsError (get_layout c)), c)).
    { unfold fix_page_orientation_for_booklet, fix_page_orientation.
      rewrite Hcmp, Hin. reflexivity. }
    split; [exact Hfix | split].
    + destruct (get_sequence_for_booklet_returns c) as [sequence Hseq].
      unfold bookletize, bind, reads. rewrite Hseq.
      unfold do_reduce, bind. rewrite Hfix. reflexivity.
    + assert (Hvalid : valid_layout c) by (unfold valid_layout; lia).
      unfold reduce, bind, reads.
      rewrite (get_sequence_for_reduce_shape c Hvalid).
      unfold do_reduce, bind. rewrite Hfix. reflexivity.
  - intros rest Hpages.
    unfold get_input_orientation, AbstractConverter.get_input_orientation,
      get_input_height, get_input_width.
    rewrite Hpages. reflexivity.
Qed.

(** A5 portrait pages towards a portrait A4 sheet on a 2x1 grid: the sheet
    becomes 842 by 595.  A5 landscape pages on the same grid: the error, and
    no sheet. *)
Lemma two_by_one_orientation_witness :
  let portrait := construct (repeat portrait_A5 4) [2; 1]%Z "A4" SHORT_EDGE false in
  let landscape := construct (repeat landscape_A5 4) [2; 1]%Z "A4" SHORT_EDGE false in
  (get_pages_in_width portrait = (2 * get_pages_in_height portrait)%Z
   /\ (1 <= get_pages_in_height portrait)%Z
   /\ get_input_orientation portrait = Ok (Some PageOrientation.PORTRAIT)
   /\ _get_output_orientation portrait = Some PageOrientation.PORTRAIT
   /\ fst (fix_page_orientation_for_booklet portrait) = Ok tt
   /\ output_size (snd (fix_page_orientation_for_booklet portrait))
      = (842%Z, 595%Z))
  /\ (get_pages_in_width landscape = (2 * get_pages_in_height landscape)%Z
      /\ (1 <= get_pages_in_height landscape)%Z
      /\ get_input_orientation landscape = Ok (Some PageOrientation.LANDSCAPE)
      /\ fst (bookletize 4 landscape)
         = Raise (MismatchingOrientationsError "2x1")).
Proof.
  intros portrait landscape.
  assert (Hp : (1 <= get_pages_in_height portrait)%Z) by discriminate.
  assert (Hl : (1 <= get_pages_in_height landscape)%Z) by discriminate.
  split.
  - split; [reflexivity | split; [exact Hp | split; [reflexivity |]]].
    split; [reflexivity |].
    destruct (proj1 (two_by_one_orientation portrait eq_refl Hp)
                eq_refl eq_refl) as (Hfix & _ & _).
    rewrite Hfix. split; reflexivity.
  - split; [reflexivity | split; [exact Hl | split; [reflexivity |]]].
    destruct (proj1 (proj2 (two_by_one_orientation landscape eq_refl Hl))
                eq_refl 4) as (_ & Hbook & _).
    rewrite Hbook. reflexivity.
Defined.

(* ================================================================== *)
(** * Imposition of a sequence without blanks *)

Lemma fold_left_map_list {A B C} (f : A -> C -> A) (h : B -> C) (l : list B) :
  forall a, fold_left f (map h l) a = fold_left (fun a y => f a (h y)) l a.
Proof.
  induction l as [|y l IH]; intros a; simpl; [reflexivity | apply IH].
Qed.

(** Two nested [for] loops are one loop over the pairs. *)
Lemma fold_left_nested {A B C} (g : A -> B -> C -> A) (xs : list B) (ys : list C) :
  forall a,
    fold_left (fun acc x => fold_left (fun acc y => g acc x y) ys acc) xs a
    = fold_left (fun acc xy => g acc (fst xy) (snd xy)) (list_prod xs ys) a.
Proof.
  induction xs as [|x xs IH]; intros a; [reflexivity |].
  cbn [fold_left list_prod].
  rewrite fold_left_app, fold_left_map_list. cbn [fst snd].
  apply IH.
Qed.

Lemma fill_sheet_cells (c : Converter) (sequence : list slot) (current : nat) :
  fill_sheet c sequence current
  = fold_left
      (fun acc cell => st <-- acc ;;; place c sequence (fst cell) (snd cell) st)
      (cells c) (Ok (current, [])).
Proof.
  unfold fill_sheet, cells.
  apply (fold_left_nested
           (fun acc vert_pos horiz_pos =>
              st <-- acc ;;; place c sequence vert_pos horiz_pos st)).
Qed.

Lemma skipn_at {A} (n : nat) :
  forall (l : list A) (x : A),
    nth_error l n = Some x -> skipn n l = x :: skipn (S n) l.
Proof.
  induction n as [|n IH]; intros [|y l] x Hnth; try discriminate.
  - injection Hnth as ->. reflexivity.
  - simpl in Hnth. cbn [skipn]. apply IH in Hnth. exact Hnth.
Qed.

Section BlankFree.
Variable c : Converter.
Variable pages : list nat.
Variable input_width : Z.
Hypothesis Hinput : get_input_width c = Ok input_width.
Hypothesis Hscale : (get_pages_in_width c * input_width)%Z <> 0%Z.
Hypothesis Hrange : forall page, In page pages -> page < get_page_count c.

(** Each cell takes the next page of the sequence, as long as there is
    one. *)
Lemma place_over_cells (cs : list (nat * nat)) :
  forall current merged,
    fold_left
      (fun acc cell =>
         st <-- acc ;;; place c (map Some pages) (fst cell) (snd cell) st)
      cs (Ok (current, merged))
    = Ok (current + List.length (combine cs (skipn current pages)),
          merged ++ map (fun x => merge_in (fst x) (snd x))
                        (combine cs (skipn current pages))).
Proof.
  induction cs as [|cell cs IH]; intros current merged.
  - simpl. rewrite Nat.add_0_r, app_nil_r. reflexivity.
  - cbn [fold_left obind]. unfold place at 2. cbn [fst snd].
    rewrite nth_error_map.
    destruct (nth_error pages current) as [page |] eqn:Hnth.
    + cbn [option_map].
      pose proof (skipn_at current pages page Hnth) as Hskip.
      assert (Hlt : page < get_page_count c)
        by (apply Hrange; eapply nth_error_In; exact Hnth).
      apply Nat.ltb_lt in Hlt. rewrite Hlt, Hinput. cbn [obind].
      destruct (Z.eqb_spec (get_pages_in_width c * input_width) 0);
        [contradiction |].
      rewrite IH, Hskip. cbn [combine map List.length].
      rewrite <- app_assoc. f_equal. f_equal. lia.
    + cbn [option_map].
      assert (Hskip : skipn current pages = []).
      { apply skipn_all2, nth_error_None. exact Hnth. }
      rewrite IH, Hskip, !combine_nil. reflexivity.
Qed.

End BlankFree.

(* ================================================================== *)
(** * The loops of [linearize] *)

Lemma fold_left_ext_eq {A B} (f g : A -> B -> A) (l : list B) :
  (forall a x, f a x = g a x) ->
  forall a, fold_left f l a = fold_left g l a.
Proof.
  intros Hfg. induction l as [|x l IH]; intros a; simpl; [reflexivity |].
  rewrite Hfg. apply IH.
Qed.

Lemma fold_left_append_blocks {A B} (f : B -> list A) (l : list B) :
  forall a, fold_left (fun acc x => acc ++ f x) l a = a ++ flat_map f l.
Proof.
  induction l as [|x l IH]; intros a; simpl.
  - now rewrite app_nil_r.
  - rewrite IH, app_assoc. reflexivity.
Qed.

Lemma map_flat_map_list {A B C} (h : B -> C) (f : A -> list B) (l : list A) :
  map h (flat_map f l) = flat_map (fun x => map h (f x)) l.
Proof.
  induction l as [|x l IH]; simpl; [reflexivity |].
  rewrite map_app, IH. reflexivity.
Qed.

Lemma linearize_cells (c : Converter) (sequence : list slot) :
  fold_left
    (fun acc input_page =>
       fold_left
         (fun acc vert_pos =>
            fold_left
              (fun acc horiz_pos =>
                 st <-- acc ;;;
                 extract c sequence input_page vert_pos horiz_pos st)
              (range (get_pages_in_width c)) acc)
         (range (get_pages_in_height c)) acc)
    (seq 0 (get_page_count c))
    (Ok (0, []))
  = fold_left
      (fun acc x =>
         st <-- acc ;;;
         extract c sequence (fst x) (fst (snd x)) (snd (snd x)) st)
      (list_prod (seq 0 (get_page_count c)) (cells c))
      (Ok (0, [])).
Proof.
  rewrite <- (fold_left_nested
                (fun acc input_page cell =>
                   st <-- acc ;;;
                   extract c sequence input_page (fst cell) (snd cell) st)).
  apply fold_left_ext_eq. intros a input_page.
  unfold cells.
  apply (fold_left_nested
           (fun acc vert_pos horiz_pos =>
              st <-- acc ;;;
              extract c sequence input_page vert_pos horiz_pos st)).
Qed.

(* ================================================================== *)
(** * The cells of the grid *)

Lemma NoDup_list_prod {A B} (l : list A) (l' : list B) :
  NoDup l -> NoDup l' -> NoDup (list_prod l l').
Proof.
  intros Hl Hl'. induction Hl as [|x l Hx Hl IH]; [constructor |].
  cbn [list_prod]. apply NoDup_app.
  - clear - Hl'. induction Hl' as [|y l' Hy Hl' IH]; [constructor |].
    cbn [map]. constructor; [| exact IH].
    intros Hin. apply in_map_iff in Hin. destruct Hin as (y' & Heq & Hin).
    injection Heq as ->. contradiction.
  - exact IH.
  - intros [a b] Hin Hin'. apply in_map_iff in Hin.
    destruct Hin as (y & Heq & _). injection Heq as -> ->.
    apply in_prod_iff in Hin'. destruct Hin' as [Hin' _]. contradiction.
Qed.

Lemma cells_NoDup (c : Converter) : NoDup (cells c).
Proof.
  unfold cells, range. apply NoDup_list_prod; apply seq_NoDup.
Qed.

Lemma cells_length (c : Converter) :
  valid_layout c -> List.length (cells c) = slots_per_sheet c.
Proof.
  intros [Hw Hh]. unfold cells, slots_per_sheet, get_pages_in_sheet.
  rewrite length_prod, !range_length, Z2Nat.inj_mul by lia. lia.
Qed.

(* ================================================================== *)
(** * The saddle-stitch order as page numbers *)

Lemma saddle_stitch_pages (n : nat) :
  saddle_stitch n = map Some (saddle_pages n).
Proof.
  unfold saddle_stitch, saddle_stitch_from, saddle_pages.
  rewrite map_flat_map_list. reflexivity.
Qed.

Lemma saddle_pages_length (n : nat) :
  n mod 4 = 0 -> List.length (saddle_pages n) = n.
Proof.
  intros Hmod. unfold saddle_pages.
  rewrite (flat_map_constant_length (c := 4)) by reflexivity.
  rewrite length_seq. pose proof (Nat.div_mod_eq n 4). lia.
Qed.

Lemma saddle_pages_range (n page : nat) :
  In page (saddle_pages n) -> page < n.
Proof.
  unfold saddle_pages. intros Hin. apply in_flat_map in Hin.
  destruct Hin as (k & Hk & Hin). apply in_seq in Hk.
  pose proof (Nat.div_mod_eq n 4).
  simpl in Hin. lia.
Qed.

(** When the orientation fix returns, the input has a first page. *)
Lemma fix_page_orientation_input (cmp : Z -> Z -> bool) (c : Converter) :
  fst (fix_page_orientation cmp c) = Ok tt ->
  exists width, get_input_width c = Ok width.
Proof.
  unfold fix_page_orientation, get_input_orientation,
    AbstractConverter.get_input_orientation, get_input_height, get_input_width.
  destruct (_inpdf c) as [|page rest]; [| intros _; eexists; reflexivity].
  cbn [obind].
  repeat match goal with
         | |- context [if ?b then _ else _] => destruct b
         end; discriminate.
Qed.

Lemma cells_same_layout (c c' : Converter) :
  get_pages_in_width c' = get_pages_in_width c ->
  get_pages_in_height c' = get_pages_in_height c ->
  cells c' = cells c.
Proof. unfold cells. intros -> ->. reflexivity. Qed.

(* ================================================================== *)
(** * More on the orientation of the output sheet *)

Lemma get_input_orientation_cases (c : Converter) :
  (_inpdf c = [] /\ get_input_orientation c = Raise IndexError)
  \/ (exists page rest,
        _inpdf c = page :: rest
        /\ get_input_orientation c
           = Ok (if (mediabox_height page >? mediabox_width page)%Z
                 then Some PageOrientation.PORTRAIT
                 else if (mediabox_height page <? mediabox_width page)%Z
                      then Some PageOrientation.LANDSCAPE
                      else None)).
Proof.
  unfold get_input_orientation, AbstractConverter.get_input_orientation,
    get_input_height, get_input_width.
  destruct (_inpdf c) as [|page rest]; [left; split; reflexivity | right].
  exists page, rest. split; [reflexivity |]. cbn [obind].
  destruct (mediabox_height page >? mediabox_width page)%Z; [reflexivity |].
  destruct (mediabox_height page <? mediabox_width page)%Z; reflexivity.
Qed.

Lemma get_output_orientation_swap (c : Converter) :
  _get_output_orientation (swap_output c)
  = option_map negb (_get_output_orientation c).
Proof.
  unfold _get_output_orientation, swap_output, get_output_height,
    get_output_width, PageOrientation.PORTRAIT, PageOrientation.LANDSCAPE.
  cbn [__output_height __output_width].
  destruct (Z.gtb_spec (__output_height c) (__output_width c));
    destruct (Z.gtb_spec (__output_width c) (__output_height c));
    destruct (Z.ltb_spec (__output_height c) (__output_width c));
    destruct (Z.ltb_spec (__output_width c) (__output_height c));
    try lia; reflexivity.
Qed.

(** [_set_output_orientation] on the two constants: it exchanges width and
    height exactly when the sheet has the other orientation. *)
Lemma set_output_orientation_cases (c : Converter) (o : bool) :
  _set_output_orientation (Some o) c
  = (Ok tt,
     if orientation_is (_get_output_orientation c) (negb o)
     then swap_output c else c).
Proof.
  destruct (orientation_is (_get_output_orientation c) (negb o)) eqn:Hother.
  - apply set_output_orientation_flips. exact Hother.
  - revert Hother.
    unfold _set_output_orientation, _get_output_orientation, orientation_is,
      to_bool, PageOrientation.PORTRAIT, PageOrientation.LANDSCAPE.
    destruct (Z.gtb_spec (get_output_height c) (get_output_width c));
      destruct (Z.gtb_spec (get_output_width c) (get_output_height c));
      destruct (Z.ltb_spec (get_output_height c) (get_output_width c));
      destruct o; cbn [negb Bool.eqb andb orb]; intros Hother;
      try lia; try discriminate; reflexivity.
Qed.

(** The fix, by cases on the grid and the two orientations. *)
Lemma fix_page_orientation_unfold (cmp : Z -> Z -> bool) (c : Converter) :
  fix_page_orientation cmp c
  = match get_input_orientation c with
    | Ok o =>
        let wanted :=
          if cmp (get_pages_in_width c) (get_pages_in_height c)
          then if orientation_is o PageOrientation.PORTRAIT
               then Some PageOrientation.LANDSCAPE else None
          else if cmp (get_pages_in_height c) (get_pages_in_width c)
               then if orientation_is o PageOrientation.LANDSCAPE
                    then Some PageOrientation.PORTRAIT else None
               else if orientation_is o PageOrientation.LANDSCAPE
                    then Some PageOrientation.LANDSCAPE
                    else Some PageOrientation.PORTRAIT in
        match wanted with
        | Some target =>
            (Ok tt,
             if orientation_is (_get_output_orientation c) (negb target)
             then swap_output c else c)
        | None => (Raise (MismatchingOrientationsError (get_layout c)), c)
        end
    | Raise e => (Raise e, c)
    | OutOfFuel => (OutOfFuel, c)
    end.
Proof.
  unfold fix_page_orientation.
  destruct (cmp (get_pages_in_width c) (get_pages_in_height c));
    [| destruct (cmp (get_pages_in_height c) (get_pages_in_width c))];
    destruct (get_input_orientation c) as [o | e |]; try reflexivity;
    cbv zeta;
    repeat match goal with
           | |- context [orientation_is o ?x] =>
               destruct (orientation_is o x)
           end;
    try reflexivity;
    rewrite set_output_orientation_cases;
    unfold PageOrientation.PORTRAIT, PageOrientation.LANDSCAPE;
    cbn [negb];
    repeat match goal with
           | |- context [orientation_is (_get_output_orientation c) ?x] =>
               destruct (orientation_is (_get_output_orientation c) x)
           end;
    reflexivity.
Qed.

Lemma orientation_is_swapped (x : option bool) (o : bool) :
  orientation_is (option_map negb x) (negb o) = orientation_is x o.
Proof. destruct x as [[|]|]; destruct o; reflexivity. Qed.

Lemma orientation_is_exclusive (x : option bool) (o : bool) :
  orientation_is x o = true -> orientation_is x (negb o) = false.
Proof. destruct x as [[|]|]; destruct o; simpl; congruence. Qed.

(** X1.  Running the orientation fix a second time changes nothing: on the
    state the first run leaves, it ends the same way and leaves that state. *)
Theorem fix_page_orientation_idempotent (cmp : Z -> Z -> bool) (c : Converter) :
  fix_page_orientation cmp (snd (fix_page_orientation cmp c))
  = fix_page_orientation cmp c.
Proof.
  rewrite (fix_page_orientation_unfold cmp c).
  destruct (get_input_orientation c) as [o | e |] eqn:Hin; cbn [snd];
    try (rewrite fix_page_orientation_unfold, Hin; reflexivity).
  cbv zeta.
  match goal with
  | |- context [match ?w with Some _ => _ | None => _ end] =>
      destruct w as [target |] eqn:Hwanted
  end; cbn [snd];
    [| rewrite fix_page_orientation_unfold, Hin; cbv zeta;
       rewrite Hwanted; reflexivity].
  destruct (orientation_is (_get_output_orientation c) (negb target)) eqn:Hout.
  - rewrite fix_page_orientation_unfold.
    change (get_input_orientation (swap_output c))
      with (get_input_orientation c).
    change (get_pages_in_width (swap_output c)) with (get_pages_in_width c).
    change (get_pages_in_height (swap_output c)) with (get_pages_in_height c).
    rewrite Hin. cbv zeta. rewrite Hwanted.
    rewrite get_output_orientation_swap, orientation_is_swapped.
    pose proof (orientation_is_exclusive _ _ Hout) as Hnow.
    rewrite negb_involutive in Hnow. rewrite Hnow. reflexivity.
  - rewrite fix_page_orientation_unfold, Hin. cbv zeta.
    rewrite Hwanted, Hout. reflexivity.
Qed.

(** X2.  What a fix that returns guarantees.  On a grid the comparator
    accepts as given (for [bookletize]: twice as wide as high) the input page
    is portrait and the output sheet is not portrait afterwards; on a grid it
    accepts the other way round the input page is landscape and the sheet is
    not landscape afterwards; on any other grid the fix always returns when
    there is an input page, and afterwards the sheet is not portrait for a
    landscape page and not landscape for any other page. *)
Theorem fix_page_orientation_postcondition (cmp : Z -> Z -> bool) (c : Converter) :
  fst (fix_page_orientation cmp c) = Ok tt ->
  exists o,
    get_input_orientation c = Ok o
    /\ let after := _get_output_orientation (snd (fix_page_orientation cmp c)) in
       let first := cmp (get_pages_in_width c) (get_pages_in_height c) in
       let second := cmp (get_pages_in_height c) (get_pages_in_width c) in
       (first = true ->
        o = Some PageOrientation.PORTRAIT
        /\ after <> Some PageOrientation.PORTRAIT)
       /\ (first = false -> second = true ->
           o = Some PageOrientation.LANDSCAPE
           /\ after <> Some PageOrientation.LANDSCAPE)
       /\ (first = false -> second = false ->
           (o = Some PageOrientation.LANDSCAPE ->
            after <> Some PageOrientation.PORTRAIT)
           /\ (o <> Some PageOrientation.LANDSCAPE ->
               after <> Some PageOrientation.LANDSCAPE)).
Proof.
  rewrite fix_page_orientation_unfold.
  destruct (get_input_orientation c) as [o | e |]; try discriminate.
  cbv zeta. intros Hok. exists o. split; [reflexivity |].
  assert (Hafter : forall target,
             _get_output_orientation
               (if orientation_is (_get_output_orientation c) (negb target)
                then swap_output c else c)
             <> Some (negb target)).
  { intros target.
    destruct (orientation_is (_get_output_orientation c) (negb target)) eqn:Hout.
    - rewrite get_output_orientation_swap.
      destruct (_get_output_orientation c) as [[|]|]; destruct target;
        simpl in *; congruence.
    - destruct (_get_output_orientation c) as [[|]|]; destruct target;
        simpl in *; congruence. }
  unfold PageOrientation.PORTRAIT, PageOrientation.LANDSCAPE in *.
  destruct (cmp (get_pages_in_width c) (get_pages_in_height c));
    [| destruct (cmp (get_pages_in_height c) (get_pages_in_width c))];
    destruct o as [[|]|]; cbn [orientation_is Bool.eqb] in *;
    try discriminate; cbn [snd];
    repeat split; intros; try discriminate; try congruence;
    try (apply (Hafter true)); try (apply (Hafter false)).
Qed.

(** Portrait A5 pages on a 2x1 grid towards portrait A4: the fix returns
    and the sheet is landscape afterwards. *)
Lemma fix_page_orientation_postcondition_witness :
  let c := construct [portrait_A5] [2; 1]%Z "A4" SHORT_EDGE false in
  fst (fix_page_orientation is_two_times c) = Ok tt
  /\ _get_output_orientation (snd (fix_page_orientation is_two_times c))
     <> Some PageOrientation.PORTRAIT.
Proof.
  intros c. split; [reflexivity |].
  destruct (fix_page_orientation_postcondition is_two_times c eq_refl)
    as (o & _ & Hfirst & _).
  exact (proj2 (Hfirst eq_refl)).
Defined.

(** X3.  A square input page has no orientation.  Whenever one grid
    dimension is accepted by the comparator against the other (for
    [bookletize] and [reduce]: one is twice the other; likewise for
    [linearize]) the fix raises [MismatchingOrientationsError] and leaves the
    converter as it was; on every other grid it returns and the sheet is not
    landscape afterwards. *)
Theorem square_input_orientation (cmp : Z -> Z -> bool) (c : Converter) :
  get_input_orientation c = Ok None ->
  let first := cmp (get_pages_in_width c) (get_pages_in_height c) in
  let second := cmp (get_pages_in_height c) (get_pages_in_width c) in
  (first || second = true ->
   fix_page_orientation cmp c
   = (Raise (MismatchingOrientationsError (get_layout c)), c))
  /\ (first || second = false ->
      fst (fix_page_orientation cmp c) = Ok tt
      /\ _get_output_orientation (snd (fix_page_orientation cmp c))
         <> Some PageOrientation.LANDSCAPE).
Proof.
  intros Hin first second. subst first second.
  rewrite fix_page_orientation_unfold, Hin. cbv zeta.
  destruct (cmp (get_pages_in_width c) (get_pages_in_height c));
    [| destruct (cmp (get_pages_in_height c) (get_pages_in_width c))];
    cbn [orientation_is orb]; split; intros H; try discriminate;
    try reflexivity.
  split; [reflexivity |]. cbn [snd].
  unfold PageOrientation.PORTRAIT, PageOrientation.LANDSCAPE. cbn [negb].
  destruct (orientation_is (_get_output_orientation c) true) eqn:Hout.
  - rewrite get_output_orientation_swap.
    destruct (_get_output_orientation c) as [[|]|]; simpl in *; congruence.
  - destruct (_get_output_orientation c) as [[|]|]; simpl in *; congruence.
Qed.

(** A square page on a 2x1 grid, in the direction of [bookletize]. *)
Lemma square_input_orientation_witness :
  let c := construct [square_page] [2; 1]%Z "A4" SHORT_EDGE false in
  get_input_orientation c = Ok None
  /\ fix_page_orientation_for_booklet c
     = (Raise (MismatchingOrientationsError "2x1"), c).
Proof.
  intros c. split; [reflexivity |].
  exact (proj1 (square_input_orientation is_two_times c eq_refl) eq_refl).
Defined.

(** X4.  The fix in the direction of [linearize] on a grid [W x H] is the
    fix in the direction of [bookletize] on the grid [H x W]: they end the
    same way (returning, no input page, or mismatching orientations) and leave
    the same output size. *)
Theorem linearize_fix_is_booklet_fix_transposed (c : Converter) :
  let linear := fix_page_orientation_for_linearize c in
  let booklet := fix_page_orientation_for_booklet (transpose_layout c) in
  snd booklet = transpose_layout (snd linear)
  /\ (fst linear = Ok tt <-> fst booklet = Ok tt)
  /\ (fst linear = Raise IndexError <-> fst booklet = Raise IndexError)
  /\ (fst linear = Raise (MismatchingOrientationsError (get_layout c))
      <-> fst booklet
          = Raise (MismatchingOrientationsError
                     (get_layout (transpose_layout c)))).
Proof.
  unfold fix_page_orientation_for_linearize, fix_page_orientation_for_booklet.
  rewrite !fix_page_orientation_unfold.
  change (get_input_orientation (transpose_layout c))
    with (get_input_orientation c).
  change (get_pages_in_width (transpose_layout c)) with (get_pages_in_height c).
  change (get_pages_in_height (transpose_layout c)) with (get_pages_in_width c).
  change (_get_output_orientation (transpose_layout c))
    with (_get_output_orientation c).
  change (swap_output (transpose_layout c))
    with (transpose_layout (swap_output c)).
  unfold is_half, is_two_times.
  destruct (get_input_orientation_cases c)
    as [[_ Hin] | (page & rest & _ & Hin)]; rewrite Hin.
  - cbn [fst snd]. repeat split; intros; discriminate.
  - match type of Hin with
    | _ = Ok ?x => generalize x; clear Hin; intros o
    end.
    destruct (get_pages_in_height c =? 2 * get_pages_in_width c)%Z;
      [| destruct (get_pages_in_width c =? 2 * get_pages_in_height c)%Z];
      destruct o as [[|]|]; cbn [orientation_is Bool.eqb fst snd];
      unfold PageOrientation.PORTRAIT, PageOrientation.LANDSCAPE;
      cbn [orientation_is Bool.eqb fst snd negb];
      repeat match goal with
             | |- context [orientation_is (_get_output_orientation c) ?x] =>
                 destruct (orientation_is (_get_output_orientation c) x)
             end;
      repeat split; intros; try reflexivity; try discriminate.
Qed.

(** X5.  What [bookletize] writes can be read back by [linearize] with the
    same layout, as far as the orientation goes: if the fix of [bookletize]
    returns on a valid layout, the orientation check of [linearize] on a
    document whose first page has the size of the written sheets returns too,
    unless the sheets are square and one grid dimension is twice the other,
    in which case it raises [MismatchingOrientationsError]. *)
Theorem written_sheets_pass_linearize_fix
        (c reader : Converter) (rest : list MediaBox) :
  valid_layout c ->
  fst (fix_page_orientation_for_booklet c) = Ok tt ->
  get_pages_in_width reader = get_pages_in_width c ->
  get_pages_in_height reader = get_pages_in_height c ->
  _inpdf reader
  = page_of_output (snd (fix_page_orientation_for_booklet c)) :: rest ->
  let doubled :=
    (get_pages_in_width c =? 2 * get_pages_in_height c)%Z
    || (get_pages_in_height c =? 2 * get_pages_in_width c)%Z in
  (get_output_width c <> get_output_height c \/ doubled = false ->
   fst (fix_page_orientation_for_linearize reader) = Ok tt)
  /\ (get_output_width c = get_output_height c -> doubled = true ->
      fix_page_orientation_for_linearize reader
      = (Raise (MismatchingOrientationsError (get_layout reader)), reader)).
Proof.
  intros [Hw Hh] Hfix Hrw Hrh Hpages doubled. subst doubled.
  unfold fix_page_orientation_for_linearize, fix_page_orientation_for_booklet
    in *.
  rewrite fix_page_orientation_unfold.
  destruct (get_input_orientation_cases reader)
    as [[Hnil _] | (page & rest' & Hp & Hino)]; [congruence |].
  rewrite Hp in Hpages. injection Hpages as -> ->. rewrite Hino.
  clear Hino Hp. cbv zeta. rewrite Hrw, Hrh.
  revert Hfix. rewrite fix_page_orientation_unfold.
  destruct (get_input_orientation c) as [o | e |]; try discriminate.
  cbv zeta. unfold is_half, is_two_times, page_of_output.
  cbn [mediabox_height mediabox_width].
  unfold PageOrientation.PORTRAIT, PageOrientation.LANDSCAPE.
  destruct (Z.eqb_spec (get_pages_in_width c) (2 * get_pages_in_height c))
    as [E1 | E1];
    destruct (Z.eqb_spec (get_pages_in_height c) (2 * get_pages_in_width c))
    as [E2 | E2]; try lia;
    destruct o as [[|]|]; cbn [orientation_is Bool.eqb negb];
    try discriminate; intros _;
    unfold _get_output_orientation, orientation_is, swap_output,
      get_output_height, get_output_width,
      PageOrientation.PORTRAIT, PageOrientation.LANDSCAPE;
    cbn [fst snd orb];
    destruct (Z.gtb_spec (__output_height c) (__output_width c));
    destruct (Z.ltb_spec (__output_height c) (__output_width c));
    try lia;
    cbn [Bool.eqb fst snd __output_height __output_width];
    repeat match goal with
           | |- context [(?a >? ?b)%Z] => destruct (Z.gtb_spec a b)
           | |- context [(?a <? ?b)%Z] => destruct (Z.ltb_spec a b)
           end;
    try lia;
    cbn [orientation_is Bool.eqb fst snd];
    (split; [intros [Hne | Hd] | intros He Hd]);
    try reflexivity; try discriminate; try lia.
Qed.

(** Portrait A5 pages bookletized on 2x1 towards A4: the written sheets are
    842 by 595, and a reader of them passes the check of [linearize]. *)
Lemma written_sheets_pass_linearize_fix_witness :
  let c := construct [portrait_A5] [2; 1]%Z "A4" SHORT_EDGE false in
  let reader :=
    construct [ {| mediabox_width := 842; mediabox_height := 595 |} ]
              [2; 1]%Z "A5" SHORT_EDGE false in
  valid_layout c
  /\ fst (fix_page_orientation_for_booklet c) = Ok tt
  /\ fst (fix_page_orientation_for_linearize reader) = Ok tt.
Proof.
  intros c reader.
  assert (Hvalid : valid_layout c) by (split; discriminate).
  split; [exact Hvalid | split; [reflexivity |]].
  apply (proj1 (written_sheets_pass_linearize_fix c reader []
                  Hvalid eq_refl eq_refl eq_refl eq_refl)).
  left. discriminate.
Defined.

(** X6.  [_set_output_orientation] always returns.  On a sheet that is not
    square, [_get_output_orientation] afterwards gives the orientation that
    was asked for ([None] counting as portrait); a square sheet is left as it
    is and keeps having no orientation. *)
Theorem set_output_orientation_round_trip (o : option bool) (c : Converter) :
  let after := snd (_set_output_orientation o c) in
  fst (_set_output_orientation o c) = Ok tt
  /\ (get_output_width c <> get_output_height c ->
      _get_output_orientation after = Some (to_bool o))
  /\ (get_output_width c = get_output_height c ->
      after = c /\ _get_output_orientation after = None)
  /\ _set_output_orientation None c
     = _set_output_orientation (Some PageOrientation.PORTRAIT) c.
Proof.
  assert (Hnone : _set_output_orientation o c
                  = _set_output_orientation (Some (to_bool o)) c)
    by (destruct o; reflexivity).
  cbv zeta. rewrite Hnone, set_output_orientation_cases. cbn [fst snd].
  split; [reflexivity | split; [| split; [| reflexivity]]].
  - intros Hne.
    destruct (orientation_is (_get_output_orientation c) (negb (to_bool o)))
      eqn:Hout.
    + rewrite get_output_orientation_swap.
      destruct (_get_output_orientation c) as [[|]|]; destruct (to_bool o);
        simpl in *; congruence.
    + revert Hout.
      unfold _get_output_orientation, PageOrientation.PORTRAIT,
        PageOrientation.LANDSCAPE.
      destruct (Z.gtb_spec (get_output_height c) (get_output_width c));
        [| destruct (Z.ltb_spec (get_output_height c) (get_output_width c));
           [| lia]];
        destruct (to_bool o); cbn [orientation_is negb Bool.eqb];
        intros Hout; try discriminate; reflexivity.
  - intros Heq.
    assert (Hsq : _get_output_orientation c = None).
    { unfold _get_output_orientation.
      destruct (Z.gtb_spec (get_output_height c) (get_output_width c)); [lia |].
      destruct (Z.ltb_spec (get_output_height c) (get_output_width c)); [lia |].
      reflexivity. }
    rewrite Hsq. cbn [orientation_is]. split; [reflexivity | exact Hsq].
Qed.

(* ================================================================== *)
(** * The name of the input format *)

Lemma find_ext_eq {A} (f g : A -> bool) (l : list A) :
  (forall x, f x = g x) -> find f l = find g l.
Proof.
  intros Hfg. induction l as [|x l IH]; [reflexivity |].
  simpl. rewrite Hfg, IH. reflexivity.
Qed.

Lemma get_input_format_unfold (c : Converter) (page : MediaBox)
      (rest : list MediaBox) :
  _inpdf c = page :: rest ->
  get_input_format c
  = match
      find (fun entry : string * (Z * Z) =>
              (fst (snd entry) =? fst (upright page))%Z
              && (snd (snd entry) =? snd (upright page))%Z)
           PAGE_FORMATS
    with
    | Some (page_format, _) => Ok page_format
    | None => Raise StopIteration
    end.
Proof.
  intros Hpages.
  unfold get_input_format, AbstractConverter.get_input_format,
    AbstractConverter.get_input_size, AbstractConverter.get_input_orientation,
    get_input_height, get_input_width, upright, page_formats.
  rewrite Hpages. cbn [obind].
  unfold PageOrientation.PORTRAIT, PageOrientation.LANDSCAPE.
  destruct (Z.gtb_spec (mediabox_height page) (mediabox_width page));
    destruct (Z.ltb_spec (mediabox_height page) (mediabox_width page));
    try lia; cbn [obind orientation_is Bool.eqb fst snd];
    (erewrite find_ext_eq; [reflexivity |]); intros [name [w h]]; reflexivity.
Qed.

(** X7.  [get_input_format] looks the first page up in the format table
    whichever way round the page lies: a page with the size of an entry of the
    table, or with that size turned by a quarter, gets the name of the entry;
    a name it returns is that of the entry for the upright size of the page;
    a page of any other size raises [StopIteration], and a document without
    pages raises [IndexError]. *)
Theorem get_input_format_either_way (c : Converter) :
  (forall name width height rest,
      In (name, (width, height)) PAGE_FORMATS ->
      _inpdf c = {| mediabox_width := width; mediabox_height := height |} :: rest
      \/ _inpdf c
         = {| mediabox_width := height; mediabox_height := width |} :: rest ->
      get_input_format c = Ok name)
  /\ (forall name,
        get_input_format c = Ok name ->
        exists page rest,
          _inpdf c = page :: rest /\ In (name, upright page) PAGE_FORMATS)
  /\ (forall page rest,
        _inpdf c = page :: rest ->
        (forall name, ~ In (name, upright page) PAGE_FORMATS) ->
        get_input_format c = Raise StopIteration)
  /\ (_inpdf c = [] -> get_input_format c = Raise IndexError).
Proof.
  split; [| split; [| split]].
  - intros name width height rest Hin Hpages.
    unfold PAGE_FORMATS in Hin. simpl in Hin.
    destruct Hpages as [Hpages | Hpages];
      rewrite (get_input_format_unfold c _ rest Hpages);
      destruct Hin as [Hin | [Hin | [Hin | [Hin | [Hin | [Hin | []]]]]]];
      inversion Hin; subst; reflexivity.
  - intros name Hname.
    destruct (_inpdf c) as [|page rest] eqn:Hpages.
    { unfold get_input_format, AbstractConverter.get_input_format,
        AbstractConverter.get_input_size, get_input_width in Hname.
      rewrite Hpages in Hname. discriminate. }
    exists page, rest. split; [reflexivity |].
    rewrite (get_input_format_unfold c page rest Hpages) in Hname.
    destruct (find _ PAGE_FORMATS) as [[found [w h]] |] eqn:Hfind;
      [| discriminate].
    injection Hname as ->.
    apply find_some in Hfind. destruct Hfind as [Hin Heq].
    cbn [fst snd] in Heq. apply andb_prop in Heq. destruct Heq as [Hw Hh].
    apply Z.eqb_eq in Hw, Hh.
    rewrite (surjective_pairing (upright page)), <- Hw, <- Hh. exact Hin.
  - intros page rest Hpages Hnone.
    rewrite (get_input_format_unfold c page rest Hpages).
    destruct (find _ PAGE_FORMATS) as [[found [w h]] |] eqn:Hfind;
      [| reflexivity].
    apply find_some in Hfind. destruct Hfind as [Hin Heq].
    cbn [fst snd] in Heq. apply andb_prop in Heq. destruct Heq as [Hw Hh].
    apply Z.eqb_eq in Hw, Hh. exfalso. apply (Hnone found).
    rewrite (surjective_pairing (upright page)), <- Hw, <- Hh. exact Hin.
  - intros Hpages.
    unfold get_input_format, AbstractConverter.get_input_format,
      AbstractConverter.get_input_size, get_input_width.
    rewrite Hpages. reflexivity.
Qed.

(* ================================================================== *)
(** * Imposition of any sequence *)

Section PlacePrefix.
Variable c : Converter.
Variable pages : list nat.
Variable tail : list slot.
Variable input_width : Z.
Hypothesis Hinput : get_input_width c = Ok input_width.
Hypothesis Hscale : (get_pages_in_width c * input_width)%Z <> 0%Z.
Hypothesis Hrange : forall page, In page pages -> page < get_page_count c.
Hypothesis Htail : forall page, hd_error tail <> Some (Some page).

(** Up to the first blank, or the end, each cell takes the next page; from
    there on the cells take nothing. *)
Lemma place_over_prefix (cs : list (nat * nat)) :
  forall current merged,
    current <= List.length pages ->
    fold_left
      (fun acc cell =>
         st <-- acc ;;;
         place c (map Some pages ++ tail) (fst cell) (snd cell) st)
      cs (Ok (current, merged))
    = Ok (current + List.length (combine cs (skipn current pages)),
          merged ++ map (fun x => merge_in (fst x) (snd x))
                        (combine cs (skipn current pages))).
Proof.
  induction cs as [|cell cs IH]; intros current merged Hcur.
  - simpl. rewrite Nat.add_0_r, app_nil_r. reflexivity.
  - cbn [fold_left obind]. unfold place at 2. cbn [fst snd].
    destruct (nth_error pages current) as [page |] eqn:Hnth.
    + assert (Hlt : current < List.length pages)
        by (apply nth_error_Some; congruence).
      rewrite nth_error_app1 by (rewrite length_map; exact Hlt).
      rewrite nth_error_map, Hnth. cbn [option_map].
      pose proof (skipn_at current pages page Hnth) as Hskip.
      assert (Hin : page < get_page_count c)
        by (apply Hrange; eapply nth_error_In; exact Hnth).
      apply Nat.ltb_lt in Hin. rewrite Hin, Hinput. cbn [obind].
      destruct (Z.eqb_spec (get_pages_in_width c * input_width) 0);
        [contradiction |].
      rewrite IH by lia. rewrite Hskip. cbn [combine map List.length].
      rewrite <- app_assoc. f_equal. f_equal. lia.
    + apply nth_error_None in Hnth.
      rewrite nth_error_app2 by (rewrite length_map; lia).
      rewrite length_map.
      replace (current - List.length pages) with 0 by lia.
      assert (Hskip : skipn current pages = [])
        by (apply skipn_all2; lia).
      destruct tail as [|[page |] rest]; cbn [nth_error];
        [| exfalso; apply (Htail page); reflexivity |];
        rewrite IH by lia; rewrite Hskip, !combine_nil; reflexivity.
Qed.

End PlacePrefix.

Lemma split_at_first_blank (sequence : list slot) :
  In None sequence ->
  exists pages rest, sequence = map Some pages ++ None :: rest.
Proof.
  induction sequence as [|[page |] sequence IH]; intros Hin.
  - contradiction.
  - destruct Hin as [Hin | Hin]; [discriminate |].
    destruct (IH Hin) as (pages & rest & ->).
    exists (page :: pages), rest. reflexivity.
  - exists [], sequence. reflexivity.
Qed.

(** With a blank in the sequence the loop stays at or before it for ever. *)
Lemma do_reduce_while_before_blank
      (c : Converter) (pages : list nat) (rest : list slot) (input_width : Z) :
  get_input_width c = Ok input_width ->
  (get_pages_in_width c * input_width)%Z <> 0%Z ->
  (forall page, In page pages -> page < get_page_count c) ->
  get_pages_in_sheet c <> 0%Z ->
  forall fuel w,
    current_page w <= List.length pages ->
    do_reduce_while fuel c (map Some pages ++ None :: rest) w = OutOfFuel.
Proof.
  intros Hinput Hscale Hrange Hsheet.
  induction fuel as [|fuel IH]; intros w Hcur; cbn [do_reduce_while];
    rewrite length_app, length_map;
    match goal with
    | |- context [?a <? ?b] => destruct (Nat.ltb_spec a b) as [Hlt | Hge]
    end;
    try (simpl in Hge; lia); [reflexivity |].
  unfold do_reduce_turn.
  destruct (Z.eqb_spec (get_pages_in_sheet c) 0); [contradiction |].
  rewrite fill_sheet_cells.
  rewrite (place_over_prefix c pages (None :: rest) input_width Hinput Hscale
             Hrange ltac:(intros page; discriminate) (cells c) _ [] Hcur).
  cbn [obind fst snd]. apply IH. cbn [current_page].
  rewrite length_combine, length_skipn. lia.
Qed.

(** Without a blank the loop ends after as many turns as there are sheets,
    the last of which may be filled in part. *)
Lemma do_reduce_while_sheets
      (c : Converter) (pages : list nat) (input_width : Z) (slots : nat) :
  get_input_width c = Ok input_width ->
  (get_pages_in_width c * input_width)%Z <> 0%Z ->
  (forall page, In page pages -> page < get_page_count c) ->
  List.length (cells c) = slots ->
  get_pages_in_sheet c <> 0%Z ->
  0 < slots ->
  forall left fuel w,
    left <= fuel ->
    current_page w <= List.length pages ->
    List.length pages <= current_page w + left * slots ->
    (0 < left -> current_page w + (left - 1) * slots < List.length pages) ->
    do_reduce_while fuel c (map Some pages) w
    = Ok {| current_page := List.length pages;
            output_page := output_page w + left;
            outpdf :=
              outpdf w
              ++ map (fun j =>
                        sheet_of c (output_page w + j)
                          (skipn (current_page w + j * slots) pages))
                     (seq 0 left) |}.
Proof.
  intros Hinput Hscale Hrange Hslots Hsheet Hpositive.
  induction left as [|left IH]; intros fuel w Hfuel Hle Hcover Hlast.
  - destruct fuel; cbn [do_reduce_while]; rewrite length_map;
      (destruct (Nat.ltb_spec (current_page w) (List.length pages));
       [lia |]);
      destruct w; cbn [current_page output_page outpdf map seq] in *;
      rewrite Nat.add_0_r, app_nil_r; f_equal; f_equal; lia.
  - destruct fuel as [|fuel]; [lia |].
    cbn [do_reduce_while]. rewrite length_map.
    destruct (Nat.ltb_spec (current_page w) (List.length pages));
      [| specialize (Hlast ltac:(lia)); lia].
    unfold do_reduce_turn.
    destruct (Z.eqb_spec (get_pages_in_sheet c) 0); [contradiction |].
    rewrite fill_sheet_cells.
    rewrite (place_over_cells c pages input_width Hinput Hscale Hrange).
    cbn [obind fst snd app].
    assert (Hstep : List.length (combine (cells c) (skipn (current_page w) pages))
                    = Nat.min slots (List.length pages - current_page w)).
    { rewrite length_combine, length_skipn, Hslots. reflexivity. }
    rewrite IH; cbn [current_page output_page outpdf].
    + f_equal. f_equal; [lia |].
      rewrite <- app_assoc. f_equal.
      rewrite <- cons_seq, <- seq_shift. cbn [map app]. rewrite map_map.
      f_equal.
      * unfold sheet_of.
        replace (current_page w + 0 * slots) with (current_page w) by lia.
        replace (output_page w + 0) with (output_page w) by lia.
        reflexivity.
      * apply map_ext_in. intros j Hj. apply in_seq in Hj.
        rewrite Hstep. f_equal; [lia |].
        destruct left as [|left']; [lia |].
        specialize (Hlast ltac:(lia)).
        replace (S left' - 1) with left' in Hlast by lia.
        f_equal. nia.
    + lia.
    + rewrite Hstep. lia.
    + rewrite Hstep.
      destruct left as [|left']; [lia |].
      specialize (Hlast ltac:(lia)).
      replace (S left' - 1) with left' in Hlast by lia. nia.
    + intros Hleft. rewrite Hstep.
      destruct left as [|left']; [lia |].
      specialize (Hlast ltac:(lia)).
      replace (S left' - 1) with left' in *by lia. nia.
Qed.

Lemma map_snd_combine_firstn {A B} (l : list A) :
  forall l' : list B, map snd (combine l l') = firstn (List.length l) l'.
Proof.
  induction l as [|x l IH]; intros [|y l']; simpl; try reflexivity.
  rewrite IH. reflexivity.
Qed.

Lemma map_fst_combine_firstn {A B} (l : list A) :
  forall l' : list B, map fst (combine l l') = firstn (List.length l') l.
Proof.
  induction l as [|x l IH]; intros [|y l']; simpl; try reflexivity.
  rewrite IH. reflexivity.
Qed.

Lemma pages_on_sheet_of (c : Converter) (index : nat) (pages : list nat) :
  pages_on (sheet_of c index pages) = firstn (List.length (cells c)) pages.
Proof.
  unfold pages_on, sheet_of. cbn [sheet_merged].
  rewrite map_map. cbn [merge_in merged_page].
  apply map_snd_combine_firstn.
Qed.

Lemma cells_on_sheet_of (c : Converter) (index : nat) (pages : list nat) :
  cells_on (sheet_of c index pages) = firstn (List.length pages) (cells c).
Proof.
  unfold cells_on, sheet_of. cbn [sheet_merged].
  rewrite map_map. cbn [merge_in merged_vert_pos merged_horiz_pos].
  rewrite <- map_fst_combine_firstn. apply map_ext.
  intros [[v h] page]. reflexivity.
Qed.

Lemma chunks_concat_up {A} (size : nat) (count : nat) :
  forall l : list A,
    List.length l <= count * size ->
    flat_map (fun p => firstn size (skipn (p * size) l)) (seq 0 count) = l.
Proof.
  induction count as [|count IH]; intros l Hlen.
  - destruct l; [reflexivity | simpl in Hlen; lia].
  - rewrite <- cons_seq, <- seq_shift. cbn [flat_map].
    rewrite flat_map_concat_map, map_map, <- flat_map_concat_map.
    rewrite (flat_map_ext _ (fun p => firstn size (skipn (p * size) (skipn size l)))).
    + rewrite IH by (rewrite length_skipn; lia).
      cbn [Nat.mul skipn]. apply firstn_skipn.
    + intros p. rewrite skipn_skipn. do 2 f_equal. lia.
Qed.

Lemma div_up_spec (n k : nat) :
  0 < k ->
  n <= div_up n k * k
  /\ (0 < div_up n k -> (div_up n k - 1) * k < n)
  /\ div_up n k <= n.
Proof.
  intros Hk. unfold div_up.
  pose proof (Nat.div_mod_eq (n + k - 1) k) as Hdm.
  pose proof (Nat.mod_upper_bound (n + k - 1) k ltac:(lia)) as Hlt.
  remember ((n + k - 1) / k) as q. remember ((n + k - 1) mod k) as r.
  split; [nia | split; [intros Hq; nia |]].
  destruct n as [|n].
  - destruct q; [lia | nia].
  - nia.
Qed.

Lemma no_blank_pages (sequence : list slot) :
  ~ In None sequence -> exists pages, sequence = map Some pages.
Proof.
  induction sequence as [|[page |] sequence IH]; intros Hno.
  - exists []. reflexivity.
  - destruct IH as [pages ->]; [intros Hin; apply Hno; right; exact Hin |].
    exists (page :: pages). reflexivity.
  - exfalso. apply Hno. left. reflexivity.
Qed.

(** The state the loop of [__do_reduce] runs in. *)
Lemma fix_page_orientation_for_booklet_run (c : Converter) :
  valid_layout c ->
  fst (fix_page_orientation_for_booklet c) = Ok tt ->
  get_input_width c <> Ok 0%Z ->
  let c' := snd (fix_page_orientation_for_booklet c) in
  fix_page_orientation_for_booklet c = (Ok tt, c')
  /\ (exists input_width,
        get_input_width c' = Ok input_width
        /\ (get_pages_in_width c' * input_width)%Z <> 0%Z)
  /\ get_page_count c' = get_page_count c
  /\ cells c' = cells c
  /\ get_pages_in_sheet c' <> 0%Z.
Proof.
  intros Hvalid Hfix Hwidth c'.
  destruct (valid_layout_slots c Hvalid) as [Hpos Hs].
  destruct (fix_page_orientation_input is_two_times c Hfix) as [width Hin].
  pose proof (fix_page_orientation_keeps is_two_times c)
    as (Hkw & Hkh & _ & _ & Hkp).
  fold fix_page_orientation_for_booklet in Hkw, Hkh, Hkp. fold c' in Hkw, Hkh, Hkp.
  split; [| split; [| split; [| split]]].
  - subst c'. destruct (fix_page_orientation_for_booklet c) as [r c0].
    cbn [fst snd] in *. subst r. reflexivity.
  - exists width. split.
    + unfold get_input_width in *. rewrite Hkp. exact Hin.
    + assert (width <> 0%Z) by congruence.
      destruct Hvalid as [Hw _]. rewrite Hkw. nia.
  - unfold get_page_count. rewrite Hkp. reflexivity.
  - apply cells_same_layout; assumption.
  - unfold get_pages_in_sheet in *. rewrite Hkw, Hkh. lia.
Qed.

(** [__do_reduce] on a sequence of page numbers: the sheets it writes. *)
Lemma do_reduce_blank_free (c : Converter) (pages : list nat) (fuel : nat) :
  valid_layout c ->
  fst (fix_page_orientation_for_booklet c) = Ok tt ->
  get_input_width c <> Ok 0%Z ->
  (forall page, In page pages -> page < get_page_count c) ->
  List.length pages <= fuel ->
  let c' := snd (fix_page_orientation_for_booklet c) in
  do_reduce fuel (map Some pages) c
  = (Ok (map (fun j => sheet_of c' j (skipn (j * slots_per_sheet c) pages))
             (seq 0 (div_up (List.length pages) (slots_per_sheet c)))),
     c').
Proof.
  intros Hvalid Hfix Hwidth Hrange Hfuel c'.
  destruct (valid_layout_slots c Hvalid) as [Hpos _].
  destruct (fix_page_orientation_for_booklet_run c Hvalid Hfix Hwidth)
    as (Hrun & (width & Hin & Hscale) & Hcount & Hcells & Hsheet).
  fold c' in Hrun, Hin, Hscale, Hcount, Hcells, Hsheet.
  destruct (div_up_spec (List.length pages) (slots_per_sheet c) Hpos)
    as (Hcover & Hlast & Hbound).
  unfold do_reduce, bind, reads. rewrite Hrun.
  rewrite (do_reduce_while_sheets c' pages width (slots_per_sheet c)
             Hin Hscale
             ltac:(intros page Hp; rewrite Hcount; apply Hrange; exact Hp)
             ltac:(rewrite Hcells; apply cells_length; exact Hvalid)
             Hsheet Hpos
             (div_up (List.length pages) (slots_per_sheet c)) fuel);
    cbn [current_page output_page outpdf obind app Nat.add];
    try lia; try reflexivity; try exact Hlast.
Qed.

(** [__do_reduce] on a sequence with a blank. *)
Lemma do_reduce_blank (c : Converter) (sequence : list slot) (fuel : nat) :
  valid_layout c ->
  fst (fix_page_orientation_for_booklet c) = Ok tt ->
  get_input_width c <> Ok 0%Z ->
  (forall page, In (Some page) sequence -> page < get_page_count c) ->
  In None sequence ->
  fst (do_reduce fuel sequence c) = OutOfFuel.
Proof.
  intros Hvalid Hfix Hwidth Hrange Hblank.
  destruct (fix_page_orientation_for_booklet_run c Hvalid Hfix Hwidth)
    as (Hrun & (width & Hin & Hscale) & Hcount & _ & Hsheet).
  destruct (split_at_first_blank sequence Hblank) as (pages & rest & ->).
  unfold do_reduce, bind, reads. rewrite Hrun. cbn [fst].
  rewrite (do_reduce_while_before_blank _ pages rest width Hin Hscale);
    [reflexivity | | exact Hsheet | cbn [current_page]; lia].
  intros page Hp. rewrite Hcount. apply Hrange.
  apply in_or_app. left. apply in_map. exact Hp.
Qed.

(** X8.  [__do_reduce], for a valid layout, an orientation the layout
    accepts, input pages of non-zero width and a sequence of page numbers of
    the input and blanks.  If the sequence holds a blank, the call never
    returns.  If it holds none, the call returns (the length of the sequence
    is fuel enough), having written the length of the sequence divided by the
    slots per sheet, rounded up, sheets; read sheet after sheet and cell after
    cell, the sheets hold the pages of the sequence, each once and in order. *)
Theorem do_reduce_returns_iff_no_blank (c : Converter) (sequence : list slot) :
  valid_layout c ->
  fst (fix_page_orientation_for_booklet c) = Ok tt ->
  get_input_width c <> Ok 0%Z ->
  (forall page, In (Some page) sequence -> page < get_page_count c) ->
  (In None sequence ->
   never_returns (fun fuel => do_reduce fuel sequence c))
  /\ (~ In None sequence ->
      forall fuel,
        List.length sequence <= fuel ->
        exists sheets,
          fst (do_reduce fuel sequence c) = Ok sheets
          /\ List.length sheets
             = div_up (List.length sequence) (slots_per_sheet c)
          /\ map Some (flat_map pages_on sheets) = sequence).
Proof.
  intros Hvalid Hfix Hwidth Hrange. split.
  - intros Hblank fuel.
    apply do_reduce_blank; assumption.
  - intros Hno fuel Hfuel.
    destruct (no_blank_pages sequence Hno) as [pages ->].
    rewrite length_map in *.
    rewrite (do_reduce_blank_free c pages fuel Hvalid Hfix Hwidth) by
      (try exact Hfuel; intros page Hp; apply Hrange, in_map; exact Hp).
    eexists. split; [reflexivity |].
    split; [rewrite length_map, length_seq; reflexivity |].
    f_equal. rewrite flat_map_concat_map, map_map, <- flat_map_concat_map.
    rewrite (flat_map_ext _
               (fun j => firstn (slots_per_sheet c)
                           (skipn (j * slots_per_sheet c) pages))).
    + apply chunks_concat_up.
      apply (div_up_spec (List.length pages) (slots_per_sheet c)).
      apply (valid_layout_slots c Hvalid).
    + intros j. rewrite pages_on_sheet_of.
      destruct (fix_page_orientation_for_booklet_run c Hvalid Hfix Hwidth)
        as (_ & _ & _ & Hcells & _).
      rewrite Hcells, (cells_length c Hvalid). reflexivity.
Qed.

(** Four pages on the 3x1 grid, imposed in the order 3, 0, 1, 2: two
    sheets, the second with one page. *)
Lemma do_reduce_returns_iff_no_blank_witness :
  exists sheets,
    fst (do_reduce 4 [Some 3; Some 0; Some 1; Some 2] four_pages_three_by_one)
    = Ok sheets
    /\ List.length sheets = 2
    /\ map Some (flat_map pages_on sheets) = [Some 3; Some 0; Some 1; Some 2].
Proof.
  assert (Hvalid : valid_layout four_pages_three_by_one)
    by (split; discriminate).
  assert (Hrange : forall page,
             In (Some page) [Some 3; Some 0; Some 1; Some 2] ->
             page < get_page_count four_pages_three_by_one).
  { intros page [H | [H | [H | [H | []]]]]; injection H as <-;
      unfold four_pages_three_by_one, get_page_count; simpl; lia. }
  assert (Hno : ~ In None [Some 3; Some 0; Some 1; Some 2]).
  { intros [H | [H | [H | [H | []]]]]; discriminate. }
  exact (proj2 (do_reduce_returns_iff_no_blank four_pages_three_by_one
                  [Some 3; Some 0; Some 1; Some 2]
                  Hvalid eq_refl ltac:(discriminate) Hrange)
               Hno 4 (le_n 4)).
Defined.

(* ================================================================== *)
(** * When [bookletize] and [reduce] return *)

Lemma append_and_copy_members (c : Converter) (lst pages : list slot) (x : slot) :
  In x (append_and_copy c lst pages)
  <-> In x lst \/ (0 < booklet_copies c /\ In x pages).
Proof.
  unfold append_and_copy, booklet_copies.
  destruct (get_copy_pages c).
  - rewrite <- range_length.
    generalize (range (get_pages_in_sheet c ÷ 2)). intros r. revert lst.
    induction r as [|y r IH]; intros lst; cbn [fold_left List.length].
    + split; [auto | intros [H | [H _]]; [exact H | lia]].
    + rewrite IH, in_app_iff. split.
      * intros [[H | H] | [_ H]]; auto; right; split; auto; lia.
      * intros [H | [_ H]]; auto.
  - rewrite in_app_iff. split.
    + intros [H | H]; auto.
    + intros [H | [_ H]]; auto.
Qed.

(** What the booklet loop returns holds what the sequence held, what the
    page list held (when pairs are appended at all), and nothing else. *)
Lemma booklet_while_members (c : Converter) (m : nat) :
  forall pages sequence,
    List.length pages = 4 * m ->
    exists result,
      booklet_while c pages sequence = Ok result
      /\ forall x,
           In x result
           <-> In x sequence \/ (0 < booklet_copies c /\ In x pages).
Proof.
  induction m as [|m IH]; intros pages sequence Hlen.
  - destruct pages; [| simpl in Hlen; lia].
    exists sequence. rewrite booklet_while_equation_1.
    split; [reflexivity |]. intros x. simpl. tauto.
  - destruct (split_two_two m pages Hlen) as (a & b & mid & y & z & -> & Hmid).
    rewrite booklet_while_ends.
    destruct (IH mid (append_and_copy c (append_and_copy c sequence [z; a]) [b; y])
                Hmid) as (result & Hres & Hmem).
    exists result. split; [exact Hres |].
    intros x. rewrite Hmem, !append_and_copy_members.
    cbn [In]. rewrite in_app_iff. cbn [In]. tauto.
Qed.

Lemma booklet_copies_slots (c : Converter) :
  valid_layout c ->
  booklet_copies c = if get_copy_pages c then slots_per_sheet c / 2 else 1.
Proof.
  intros Hvalid. destruct (valid_layout_slots c Hvalid) as [Hpos Hs].
  unfold booklet_copies. destruct (get_copy_pages c); [| reflexivity].
  rewrite Hs, Z.quot_div_nonneg, Z2Nat.inj_div by lia.
  rewrite Nat2Z.id. reflexivity.
Qed.

(** The booklet sequence: its length, and what it holds. *)
Lemma get_sequence_for_booklet_members (c : Converter) :
  let n := get_page_count c in
  exists sequence,
    get_sequence_for_booklet c = Ok sequence
    /\ List.length sequence
       = booklet_copies c * (n + blanks_to_multiple 4 n)
    /\ (forall page, In (Some page) sequence -> page < n)
    /\ (In None sequence <-> 0 < booklet_copies c /\ n mod 4 <> 0).
Proof.
  intros n. rewrite get_sequence_for_booklet_padded. fold n.
  destruct (booklet_while_members c ((n + blanks_to_multiple 4 n) / 4)
              (identity_order n ++ repeat None (blanks_to_multiple 4 n)) []
              (padded_length n)) as (result & Hres & Hmem).
  destruct (booklet_while_total c ((n + blanks_to_multiple 4 n) / 4)
              (identity_order n ++ repeat None (blanks_to_multiple 4 n)) []
              (padded_length n)) as (result' & Hres' & Hlen & _).
  rewrite Hres in Hres'. injection Hres' as <-.
  exists result. split; [exact Hres |].
  fold (booklet_copies c) in Hlen.
  split; [| split].
  - rewrite Hlen, padded_length.
    destruct (blanks_to_multiple_spec 4 n ltac:(lia)) as [_ Hmod].
    pose proof (Nat.div_mod_eq (n + blanks_to_multiple 4 n) 4) as Hdm.
    rewrite Hmod, Nat.add_0_r in Hdm.
    cbn [List.length Nat.add]. f_equal. symmetry. exact Hdm.
  - intros page Hin. apply Hmem in Hin.
    destruct Hin as [[] | [_ Hin]].
    apply in_app_or in Hin. destruct Hin as [Hin | Hin].
    + unfold identity_order in Hin. apply in_map_iff in Hin.
      destruct Hin as (k & Hk & Hin). injection Hk as <-.
      apply in_seq in Hin. lia.
    + apply repeat_spec in Hin. discriminate.
  - rewrite Hmem. cbn [In]. rewrite in_app_iff.
    unfold blanks_to_multiple.
    pose proof (Nat.mod_upper_bound n 4 ltac:(lia)) as Hlt.
    remember (n mod 4) as r.
    split.
    + intros [[] | [Hc [Hin | Hin]]].
      * unfold identity_order in Hin. apply in_map_iff in Hin.
        destruct Hin as (k & Hk & _). discriminate.
      * split; [exact Hc |]. intros ->.
        change ((4 - 0) mod 4) with 0 in Hin. exact Hin.
    + intros [Hc Hne]. right. split; [exact Hc |]. right.
      rewrite Nat.mod_small by lia.
      destruct (4 - r) as [|k] eqn:Hk; [lia |]. left. reflexivity.
Qed.

(** X9.  [bookletize], for a valid layout, an orientation the layout
    accepts and input pages of non-zero width.  It returns exactly when the
    page count is a multiple of four, or when [copy_pages] is on with a single
    slot per sheet (then no pair is appended at all and no sheet is written);
    in every other case it never returns.  With [copy_pages] off and a
    multiple of four pages it writes the page count divided by the slots per
    sheet, rounded up, sheets, which hold the pages in saddle-stitch order. *)
Theorem bookletize_returns_iff (c : Converter) :
  valid_layout c ->
  fst (fix_page_orientation_for_booklet c) = Ok tt ->
  get_input_width c <> Ok 0%Z ->
  let n := get_page_count c in
  (n mod 4 = 0 \/ booklet_copies c = 0 ->
   returns (fun fuel => bookletize fuel c))
  /\ (n mod 4 <> 0 -> 0 < booklet_copies c ->
      never_returns (fun fuel => bookletize fuel c))
  /\ (n mod 4 = 0 -> get_copy_pages c = false ->
      forall fuel,
        n <= fuel ->
        exists sheets,
          fst (bookletize fuel c) = Ok sheets
          /\ List.length sheets = div_up n (slots_per_sheet c)
          /\ flat_map pages_on sheets = saddle_pages n)
  /\ (booklet_copies c = 0 -> forall fuel, fst (bookletize fuel c) = Ok []).
Proof.
  intros Hvalid Hfix Hwidth n.
  destruct (get_sequence_for_booklet_members c)
    as (sequence & Hseq & Hlen & Hrange & Hblank).
  fold n in Hlen, Hrange, Hblank.
  assert (Hrun : forall fuel,
             bookletize fuel c = do_reduce fuel sequence c).
  { intros fuel. unfold bookletize, bind, reads. rewrite Hseq. reflexivity. }
  assert (Hreturn : ~ In None sequence ->
                    forall fuel, List.length sequence <= fuel ->
                    exists sheets,
                      fst (bookletize fuel c) = Ok sheets
                      /\ List.length sheets
                         = div_up (List.length sequence) (slots_per_sheet c)
                      /\ sequence = map Some (flat_map pages_on sheets)).
  { intros Hno fuel Hfuel. rewrite Hrun.
    destruct (no_blank_pages sequence Hno) as [pages ->].
    rewrite length_map in *.
    rewrite (do_reduce_blank_free c pages fuel Hvalid Hfix Hwidth) by
      (try exact Hfuel; intros page Hp; apply Hrange, in_map; exact Hp).
    eexists. split; [reflexivity |].
    split; [rewrite length_map, length_seq; reflexivity |].
    f_equal. rewrite flat_map_concat_map, map_map, <- flat_map_concat_map.
    rewrite (flat_map_ext _
               (fun j => firstn (slots_per_sheet c)
                           (skipn (j * slots_per_sheet c) pages))).
    + symmetry. apply chunks_concat_up.
      apply (div_up_spec (List.length pages) (slots_per_sheet c)).
      apply (valid_layout_slots c Hvalid).
    + intros j. rewrite pages_on_sheet_of.
      destruct (fix_page_orientation_for_booklet_run c Hvalid Hfix Hwidth)
        as (_ & _ & _ & Hcells & _).
      rewrite Hcells, (cells_length c Hvalid). reflexivity. }
  split; [| split; [| split]].
  - intros Hcase.
    assert (Hno : ~ In None sequence).
    { rewrite Hblank. intros [Hc Hne]. destruct Hcase; lia. }
    destruct (Hreturn Hno (List.length sequence) (le_n _))
      as (sheets & Hok & _).
    exists (List.length sequence), sheets. exact Hok.
  - intros Hne Hc fuel. rewrite Hrun.
    apply do_reduce_blank; try assumption.
    apply Hblank. split; assumption.
  - intros Hmod Hcopy fuel Hfuel.
    pose proof (get_sequence_for_booklet_saddle_stitch c Hmod Hcopy) as Hsaddle.
    fold n in Hsaddle. rewrite Hseq in Hsaddle. injection Hsaddle as Hsaddle.
    assert (Hn : List.length sequence = n).
    { rewrite Hsaddle, saddle_stitch_pages, length_map.
      apply saddle_pages_length. exact Hmod. }
    assert (Hno : ~ In None sequence).
    { rewrite Hblank. intros [_ Hne]. contradiction. }
    destruct (Hreturn Hno fuel ltac:(lia)) as (sheets & Hok & Hcount & Hpages).
    exists sheets. split; [exact Hok | split; [rewrite Hcount, Hn; reflexivity |]].
    rewrite Hsaddle, saddle_stitch_pages in Hpages.
    clear - Hpages.
    revert Hpages. generalize (saddle_pages n) (flat_map pages_on sheets).
    induction l as [|x l IH]; intros [|y l'] H; try discriminate;
      [reflexivity |].
    injection H as -> H. rewrite (IH l' H). reflexivity.
  - intros Hc fuel.
    assert (Hempty : sequence = []).
    { destruct sequence; [reflexivity |]. rewrite Hc in Hlen. discriminate. }
    rewrite Hrun, Hempty.
    change (@nil slot) with (map (@Some nat) []).
    rewrite (do_reduce_blank_free c [] fuel Hvalid Hfix Hwidth)
      by (try (intros page []); simpl; lia).
    destruct (div_up_spec 0 (slots_per_sheet c)
                (proj1 (valid_layout_slots c Hvalid))) as (_ & _ & Hzero).
    cbn [List.length fst].
    replace (div_up 0 (slots_per_sheet c)) with 0 by lia.
    reflexivity.
Qed.

(** Six pages on a 2x1 grid: [bookletize] never returns.  Six pages on a 1x1
    grid with [copy_pages]: it returns. *)
Lemma bookletize_returns_iff_witness :
  never_returns (fun fuel => bookletize fuel six_pages_two_by_one)
  /\ returns (fun fuel => bookletize fuel six_pages_one_by_one_copies).
Proof.
  split.
  - assert (Hvalid : valid_layout six_pages_two_by_one)
      by (split; discriminate).
    apply (proj1 (proj2 (bookletize_returns_iff six_pages_two_by_one
                           Hvalid eq_refl ltac:(discriminate))));
      [discriminate | unfold booklet_copies; simpl; lia].
  - assert (Hvalid : valid_layout six_pages_one_by_one_copies)
      by (split; discriminate).
    apply (proj1 (bookletize_returns_iff six_pages_one_by_one_copies
                    Hvalid eq_refl ltac:(discriminate))).
    right. reflexivity.
Defined.

Lemma skipn_flat_map_blocks {A B} (f : A -> list B) (size : nat) :
  (forall x, List.length (f x) = size) ->
  forall k l, skipn (k * size) (flat_map f l) = flat_map f (skipn k l).
Proof.
  intros Hf. induction k as [|k IH]; intros l; [reflexivity |].
  destruct l as [|x l]; [rewrite skipn_nil; reflexivity |].
  cbn [flat_map skipn].
  replace (S k * size) with (List.length (f x) + k * size)
    by (rewrite Hf; lia).
  rewrite skipn_app, skipn_all2 by lia.
  replace (List.length (f x) + k * size - List.length (f x)) with (k * size)
    by lia.
  apply IH.
Qed.

Lemma each_repeated_pages (copies n : nat) :
  each_repeated copies n
  = map Some (flat_map (fun page => repeat page copies) (seq 0 n)).
Proof.
  unfold each_repeated. rewrite map_flat_map_list.
  apply flat_map_ext. intros page. rewrite map_repeat. reflexivity.
Qed.

(** X10.  [reduce], for a valid layout, an orientation the layout accepts
    and input pages of non-zero width.  With [copy_pages] on it returns with
    one sheet for each input page, the sheet of page [p] showing page [p] in
    every cell.  With [copy_pages] off it returns exactly when the page count
    is a multiple of the slots per sheet, and then the sheets hold the pages
    in their order; otherwise the sequence ends in blanks and [reduce] never
    returns. *)
Theorem reduce_returns_iff (c : Converter) :
  valid_layout c ->
  fst (fix_page_orientation_for_booklet c) = Ok tt ->
  get_input_width c <> Ok 0%Z ->
  let n := get_page_count c in
  let s := slots_per_sheet c in
  (get_copy_pages c = true ->
   forall fuel,
     n * s <= fuel ->
     exists sheets,
       fst (reduce fuel c) = Ok sheets
       /\ List.length sheets = n
       /\ forall page sheet,
            nth_error sheets page = Some sheet ->
            pages_on sheet = repeat page s /\ cells_on sheet = cells c)
  /\ (get_copy_pages c = false -> n mod s = 0 ->
      forall fuel,
        n <= fuel ->
        exists sheets,
          fst (reduce fuel c) = Ok sheets
          /\ List.length sheets = n / s
          /\ flat_map pages_on sheets = seq 0 n)
  /\ (get_copy_pages c = false -> n mod s <> 0 ->
      never_returns (fun fuel => reduce fuel c)).
Proof.
  intros Hvalid Hfix Hwidth n s.
  destruct (valid_layout_slots c Hvalid) as [Hpos Hs]. fold s in Hpos, Hs.
  pose proof (get_sequence_for_reduce_shape c Hvalid) as Hseq.
  fold n s in Hseq.
  destruct (fix_page_orientation_for_booklet_run c Hvalid Hfix Hwidth)
    as (_ & _ & _ & Hcells & _).
  pose proof (cells_length c Hvalid) as Hcl. fold s in Hcl.
  split; [| split].
  - intros Hcopy fuel Hfuel. rewrite Hcopy in Hseq.
    unfold reduce, bind, reads. rewrite Hseq, each_repeated_pages.
    set (pages := flat_map (fun page => repeat page s) (seq 0 n)).
    assert (Hlen : List.length pages = n * s).
    { unfold pages. rewrite (flat_map_constant_length (c := s)).
      - rewrite length_seq. reflexivity.
      - intros x _. apply repeat_length. }
    rewrite (do_reduce_blank_free c pages fuel Hvalid Hfix Hwidth).
    + fold s. rewrite Hlen.
      assert (Hcount : div_up (n * s) s = n).
      { destruct (div_up_spec (n * s) s Hpos) as (Hcover & Hlast & _).
        destruct (div_up (n * s) s) as [|k]; [nia |].
        specialize (Hlast ltac:(lia)).
        replace (S k - 1) with k in Hlast by lia. nia. }
      rewrite Hcount. eexists. split; [reflexivity |].
      split; [rewrite length_map, length_seq; reflexivity |].
      intros page sheet Hnth.
      assert (Hp : page < n).
      { apply nth_error_Some_lt in Hnth ||
          (assert (Hs' : nth_error
                           (map (fun j => sheet_of
                                   (snd (fix_page_orientation_for_booklet c)) j
                                   (skipn (j * s) pages)) (seq 0 n)) page
                         <> None) by congruence;
           apply nth_error_Some in Hs';
           rewrite length_map, length_seq in Hs'; exact Hs'). }
      rewrite nth_error_map in Hnth.
      rewrite nth_error_nth' with (d := 0) in Hnth by (rewrite length_seq; lia).
      rewrite seq_nth in Hnth by lia. cbn [option_map Nat.add] in Hnth.
      injection Hnth as <-.
      assert (Hchunk : skipn (page * s) pages
                       = repeat page s
                         ++ flat_map (fun q => repeat q s) (seq (S page) (n - S page))).
      { unfold pages.
        rewrite (skipn_flat_map_blocks (fun q => repeat q s) s)
          by (intros x; apply repeat_length).
        rewrite skipn_seq.
        replace (n - page) with (S (n - S page)) by lia.
        reflexivity. }
      rewrite pages_on_sheet_of, cells_on_sheet_of, Hcells, Hcl, Hchunk.
      split.
      * rewrite firstn_app, repeat_length, Nat.sub_diag, firstn_O, app_nil_r.
        rewrite <- (repeat_length page s) at 1. apply firstn_all.
      * rewrite firstn_all2; [reflexivity |].
        rewrite length_app, repeat_length, Hcl. lia.
    + intros page Hin. unfold pages in Hin. apply in_flat_map in Hin.
      destruct Hin as (q & Hq & Hin). apply repeat_spec in Hin. subst page.
      apply in_seq in Hq. fold n. lia.
    + lia.
  - intros Hcopy Hmod fuel Hfuel. rewrite Hcopy in Hseq.
    assert (Hb : blanks_to_multiple s n = 0).
    { unfold blanks_to_multiple. rewrite Hmod, Nat.sub_0_r.
      apply Nat.Div0.mod_same. }
    rewrite Hb in Hseq. cbn [repeat] in Hseq. rewrite app_nil_r in Hseq.
    unfold reduce, bind, reads. rewrite Hseq. unfold identity_order.
    rewrite (do_reduce_blank_free c (seq 0 n) fuel Hvalid Hfix Hwidth).
    + fold s. rewrite length_seq.
      pose proof (Nat.div_mod_eq n s) as Hdm.
      assert (Hcount : div_up n s = n / s).
      { destruct (div_up_spec n s Hpos) as (Hcover & Hlast & _).
        remember (n / s) as q.
        destruct (div_up n s) as [|k]; [nia |].
        specialize (Hlast ltac:(lia)).
        replace (S k - 1) with k in Hlast by lia. nia. }
      rewrite Hcount. eexists. split; [reflexivity |].
      split; [rewrite length_map, length_seq; reflexivity |].
      rewrite flat_map_concat_map, map_map, <- flat_map_concat_map.
      rewrite (flat_map_ext _ (fun j => firstn s (skipn (j * s) (seq 0 n)))).
      * apply chunks_concat_up. rewrite length_seq. nia.
      * intros j. rewrite pages_on_sheet_of, Hcells, Hcl. reflexivity.
    + intros page Hin. apply in_seq in Hin. fold n. lia.
    + rewrite length_seq. exact Hfuel.
  - intros Hcopy Hmod fuel. rewrite Hcopy in Hseq.
    unfold reduce, bind, reads. rewrite Hseq.
    apply do_reduce_blank; try assumption.
    + intros page Hin. fold n. apply in_app_or in Hin.
      destruct Hin as [Hin | Hin].
      * unfold identity_order in Hin. apply in_map_iff in Hin.
        destruct Hin as (k & Hk & Hin). injection Hk as <-.
        apply in_seq in Hin. lia.
      * apply repeat_spec in Hin. discriminate.
    + apply in_or_app. right.
      rewrite <- (blanks_to_multiple_code s n Hpos).
      destruct (Nat.eqb_spec (n mod s) 0) as [E | _]; [contradiction |].
      pose proof (Nat.mod_upper_bound n s ltac:(lia)) as Hlt.
      destruct (s - n mod s) as [|k] eqn:Hk; [lia |]. left. reflexivity.
Qed.

(** Five pages on a 2x2 grid: with [copy_pages] five sheets; without, no
    return.  Eight pages: two sheets. *)
Lemma reduce_returns_iff_witness :
  (exists sheets,
      fst (reduce 20 five_pages_copies) = Ok sheets
      /\ List.length sheets = 5)
  /\ never_returns (fun fuel => reduce fuel five_pages_two_by_two)
  /\ (exists sheets,
        fst (reduce 8 eight_pages_two_by_two) = Ok sheets
        /\ List.length sheets = 2
        /\ flat_map pages_on sheets = [0; 1; 2; 3; 4; 5; 6; 7]).
Proof.
  split; [| split].
  - assert (Hvalid : valid_layout five_pages_copies) by (split; discriminate).
    destruct (proj1 (reduce_returns_iff five_pages_copies
                       Hvalid eq_refl ltac:(discriminate))
                eq_refl 20 (le_n 20)) as (sheets & Hok & Hlen & _).
    exists sheets. split; [exact Hok | exact Hlen].
  - assert (Hvalid : valid_layout five_pages_two_by_two)
      by (split; discriminate).
    apply (proj2 (proj2 (reduce_returns_iff five_pages_two_by_two
                           Hvalid eq_refl ltac:(discriminate))));
      [reflexivity | discriminate].
  - assert (Hvalid : valid_layout eight_pages_two_by_two)
      by (split; discriminate).
    exact (proj1 (proj2 (reduce_returns_iff eight_pages_two_by_two
                           Hvalid eq_refl ltac:(discriminate)))
                 eq_refl eq_refl 8 (le_n 8)).
Defined.

(* ================================================================== *)
(** * The cells of a sheet *)

Lemma fold_place_raised (c : Converter) (sequence : list slot)
      (cs : list (nat * nat)) (r : outcome (nat * list Merge)) :
  (forall st, r <> Ok st) ->
  fold_left
    (fun acc cell => st <-- acc ;;; place c sequence (fst cell) (snd cell) st)
    cs r = r.
Proof.
  intros Hr. induction cs as [|cell cs IH]; [reflexivity |].
  cbn [fold_left]. destruct r as [st | e |]; [exfalso; apply (Hr st); reflexivity | |];
    exact IH.
Qed.

Lemma fold_place_stuck (c : Converter) (sequence : list slot)
      (cs : list (nat * nat)) (st : nat * list Merge) :
  (forall page, nth_error sequence (fst st) <> Some (Some page)) ->
  fold_left
    (fun acc cell => st <-- acc ;;; place c sequence (fst cell) (snd cell) st)
    cs (Ok st) = Ok st.
Proof.
  intros Hstuck. induction cs as [|cell cs IH]; [reflexivity |].
  cbn [fold_left obind]. unfold place at 2.
  destruct (nth_error sequence (fst st)) as [[page |] |] eqn:Hnth;
    [exfalso; apply (Hstuck page); reflexivity | exact IH | exact IH].
Qed.

(** The cells filled by the cell loop are the first ones of the list it
    walks, and the pages put there are pages of the input. *)
Lemma fold_place_prefix (c : Converter) (sequence : list slot)
      (cs : list (nat * nat)) :
  forall current merged current' merged',
    fold_left
      (fun acc cell => st <-- acc ;;; place c sequence (fst cell) (snd cell) st)
      cs (Ok (current, merged))
    = Ok (current', merged') ->
    exists added,
      merged' = merged ++ added
      /\ map (fun m => (merged_vert_pos m, merged_horiz_pos m)) added
         = firstn (List.length added) cs
      /\ (forall m, In m added -> merged_page m < get_page_count c).
Proof.
  induction cs as [|[v h] cs IH]; intros current merged current' merged' Hrun.
  - injection Hrun as <- <-. exists []. rewrite app_nil_r.
    split; [reflexivity | split; [reflexivity | intros m []]].
  - cbn [fold_left obind] in Hrun. unfold place at 2 in Hrun.
    cbn [fst snd] in Hrun.
    destruct (nth_error sequence current) as [[page |] |] eqn:Hnth.
    + destruct (Nat.ltb_spec page (get_page_count c)) as [Hlt | Hge].
      * destruct (get_input_width c) as [width | e |]; cbn [obind] in Hrun;
          try (rewrite fold_place_raised in Hrun by (intros st; discriminate);
               discriminate).
        destruct (get_pages_in_width c * width =? 0)%Z;
          [rewrite fold_place_raised in Hrun by (intros st; discriminate);
           discriminate |].
        destruct (IH _ _ _ _ Hrun) as (added & -> & Hcells & Hpages).
        exists ({| merged_page := page; merged_vert_pos := v;
                   merged_horiz_pos := h |} :: added).
        split; [rewrite <- app_assoc; reflexivity |].
        split.
        -- cbn [map List.length firstn merged_vert_pos merged_horiz_pos].
           rewrite Hcells. reflexivity.
        -- intros m [<- | Hin]; [exact Hlt | apply Hpages; exact Hin].
      * rewrite fold_place_raised in Hrun by (intros st; discriminate).
        discriminate.
    + rewrite fold_place_stuck in Hrun
        by (cbn [fst]; intros page; rewrite Hnth; discriminate).
      injection Hrun as <- <-. exists []. rewrite app_nil_r.
      split; [reflexivity | split; [reflexivity | intros m []]].
    + rewrite fold_place_stuck in Hrun
        by (cbn [fst]; intros page; rewrite Hnth; discriminate).
      injection Hrun as <- <-. exists []. rewrite app_nil_r.
      split; [reflexivity | split; [reflexivity | intros m []]].
Qed.

Lemma firstn_NoDup {A} (k : nat) (l : list A) : NoDup l -> NoDup (firstn k l).
Proof.
  intros Hl. rewrite <- (firstn_skipn k l) in Hl.
  apply NoDup_app_remove_r in Hl. exact Hl.
Qed.

Lemma firstn_In {A} (k : nat) (l : list A) (x : A) : In x (firstn k l) -> In x l.
Proof.
  intros Hin. rewrite <- (firstn_skipn k l). apply in_or_app. left. exact Hin.
Qed.

Lemma cells_in_grid (c : Converter) (vert_pos horiz_pos : nat) :
  In (vert_pos, horiz_pos) (cells c) ->
  (Z.of_nat vert_pos < get_pages_in_height c)%Z
  /\ (Z.of_nat horiz_pos < get_pages_in_width c)%Z.
Proof.
  unfold cells, range. intros Hin. apply in_prod_iff in Hin.
  destruct Hin as [Hv Hh]. apply in_seq in Hv, Hh. lia.
Qed.

Lemma do_reduce_turn_well_filled (c : Converter) (sequence : list slot)
      (w w' : Writer) :
  do_reduce_turn c sequence w = Ok w' ->
  exists sheet, outpdf w' = outpdf w ++ [sheet] /\ well_filled c sheet.
Proof.
  unfold do_reduce_turn. intros Hturn.
  destruct (get_pages_in_sheet c =? 0)%Z; [discriminate |].
  destruct (fill_sheet c sequence (current_page w)) as [[current' merged] | e |]
    eqn:Hfill; try discriminate.
  injection Hturn as <-. cbn [outpdf fst snd].
  eexists. split; [reflexivity |].
  rewrite fill_sheet_cells in Hfill.
  destruct (fold_place_prefix c sequence (cells c) _ _ _ _ Hfill)
    as (added & Hmerged & Hcells & Hpages).
  cbn [app] in Hmerged. subst merged.
  unfold well_filled, cells_on, pages_on. cbn [sheet_merged sheet_width sheet_height].
  rewrite Hcells.
  split; [eexists; reflexivity |].
  split; [apply firstn_NoDup, cells_NoDup |].
  split; [intros v h Hin; apply cells_in_grid; eapply firstn_In; exact Hin |].
  split; [| reflexivity].
  intros page Hin. apply in_map_iff in Hin. destruct Hin as (m & <- & Hin).
  apply Hpages. exact Hin.
Qed.

Lemma reached_well_filled (c : Converter) (sequence : list slot) (w : Writer) :
  reached c sequence w -> Forall (well_filled c) (outpdf w).
Proof.
  induction 1 as [| w w' Hreach IH Hlt Hturn].
  - constructor.
  - destruct (do_reduce_turn_well_filled c sequence w w' Hturn)
      as (sheet & -> & Hsheet).
    apply Forall_app. split; [exact IH | constructor; [exact Hsheet | constructor]].
Qed.

(** X11.  Whatever the sequence, every sheet [__do_reduce] has built at any
    moment of its loop, and every sheet of a document it returns, is well
    filled: the cells holding a page are the first ones in the order of the
    loops (rows from the top, each from the left), so no cell holds two pages
    and none lies outside the grid; the pages are pages of the input; and the
    sheet has the output size the converter has after the orientation fix. *)
Theorem do_reduce_sheets_well_filled (c : Converter) (sequence : list slot) :
  (forall w, reached c sequence w -> Forall (well_filled c) (outpdf w))
  /\ (forall fuel sheets,
        fst (do_reduce fuel sequence c) = Ok sheets ->
        Forall (well_filled (snd (fix_page_orientation_for_booklet c))) sheets).
Proof.
  split.
  - apply reached_well_filled.
  - intros fuel sheets Hrun.
    unfold do_reduce, bind, reads in Hrun.
    destruct (fix_page_orientation_for_booklet c) as [[[]|e|] c'];
      try discriminate.
    cbn [fst snd] in *.
    destruct (do_reduce_while fuel c' sequence
                {| current_page := 0; output_page := 0; outpdf := [] |})
      as [w | e |] eqn:Hwhile; try discriminate.
    injection Hrun as <-.
    apply (reached_well_filled c' sequence w).
    apply (do_reduce_while_reached c' sequence fuel _ w
             (reached_start c' sequence) Hwhile).
Qed.

(* ================================================================== *)
(** * The linearize sequence, and where [linearize] stops *)

Lemma append_and_remove_copies_pair (c : Converter) (sequence : list slot)
      (a b : slot) :
  append_and_remove_copies c sequence [a; b]
  = sequence ++ [a; b] ++ linearize_padding c.
Proof.
  unfold append_and_remove_copies, linearize_padding.
  destruct (get_copy_pages c).
  - rewrite fold_append_repeat, range_length, <- app_assoc. reflexivity.
  - rewrite app_nil_r. reflexivity.
Qed.

Lemma get_sequence_for_linearize_blocks (c : Converter) :
  get_sequence_for_linearize c true
  = flat_map (fun k => [Some (2 * k); Some (2 * k)] ++ linearize_padding c
                       ++ [Some (2 * k + 1); Some (2 * k + 2)]
                       ++ linearize_padding c)
             (seq 0 (linearize_blocks c)).
Proof.
  unfold get_sequence_for_linearize, range_step4, linearize_blocks.
  rewrite fold_left_map_list.
  rewrite (fold_left_ext_eq _
             (fun acc k => acc ++ ([Some (2 * k); Some (2 * k)]
                                   ++ linearize_padding c
                                   ++ [Some (2 * k + 1); Some (2 * k + 2)]
                                   ++ linearize_padding c))).
  - rewrite fold_left_append_blocks. reflexivity.
  - intros a k. rewrite !append_and_remove_copies_pair.
    replace (4 * k / 2) with (2 * k)
      by (replace (4 * k) with (2 * k * 2) by lia;
          symmetry; apply Nat.div_mul; lia).
    rewrite <- !app_assoc. reflexivity.
Qed.

Lemma linearize_blocks_cover (c : Converter) :
  valid_layout c ->
  get_page_count c * slots_per_sheet c <= 4 * linearize_blocks c
  /\ 4 * linearize_blocks c < get_page_count c * slots_per_sheet c + 4.
Proof.
  intros Hvalid. destruct (valid_layout_slots c Hvalid) as [Hpos Hs].
  unfold linearize_blocks. rewrite Hs, <- Nat2Z.inj_mul.
  remember (get_page_count c * slots_per_sheet c) as total.
  pose proof (Z.div_mod (Z.of_nat total + 3) 4 ltac:(lia)) as Hdm.
  pose proof (Z.mod_pos_bound (Z.of_nat total + 3) 4 ltac:(lia)) as Hb.
  assert (0 <= (Z.of_nat total + 3) / 4)%Z by (apply Z.div_pos; lia).
  lia.
Qed.

(** X12.  The linearize sequence.  For every group of four slots of the
    input (the count of slots divided by four, rounded up) it holds the
    positions [2k, 2k], then [2k+1, 2k+2], each pair followed, when
    [copy_pages] is on, by as many blanks as a sheet has slots beyond two.  On
    a valid layout it is at least as long as there are cells to extract, so
    the look-up [sequence[output_page]] in [linearize] cannot fail. *)
Theorem linearize_sequence_shape (c : Converter) :
  let sequence := get_sequence_for_linearize c true in
  let padding := linearize_padding c in
  sequence
  = flat_map (fun k => [Some (2 * k); Some (2 * k)] ++ padding
                       ++ [Some (2 * k + 1); Some (2 * k + 2)] ++ padding)
             (seq 0 (linearize_blocks c))
  /\ List.length sequence
     = linearize_blocks c * (4 + 2 * List.length padding)
  /\ (get_copy_pages c = false -> ~ In None sequence)
  /\ (valid_layout c ->
      get_page_count c * slots_per_sheet c <= List.length sequence
      /\ 4 * linearize_blocks c < get_page_count c * slots_per_sheet c + 4).
Proof.
  cbv zeta. rewrite get_sequence_for_linearize_blocks.
  assert (Hlen : List.length
                   (flat_map
                      (fun k => [Some (2 * k); Some (2 * k)]
                                ++ linearize_padding c
                                ++ [Some (2 * k + 1); Some (2 * k + 2)]
                                ++ linearize_padding c)
                      (seq 0 (linearize_blocks c)))
                 = linearize_blocks c * (4 + 2 * List.length (linearize_padding c))).
  { rewrite (flat_map_constant_length
               (c := 4 + 2 * List.length (linearize_padding c))).
    - rewrite length_seq. reflexivity.
    - intros k _. rewrite !length_app. unfold slot. simpl. lia. }
  split; [reflexivity | split; [exact Hlen | split]].
  - intros Hcopy Hin. apply in_flat_map in Hin.
    destruct Hin as (k & _ & Hin). unfold linearize_padding in Hin.
    rewrite Hcopy in Hin. simpl in Hin.
    destruct Hin as [H | [H | [H | [H | []]]]]; discriminate.
  - intros Hvalid.
    pose proof (linearize_blocks_cover c Hvalid) as [Hcover Hclose].
    split; [| exact Hclose].
    eapply Nat.le_trans; [| apply Nat.eq_le_incl; symmetry; exact Hlen].
    nia.
Qed.

(** Once a cell has raised, the remaining cells are not visited. *)
Lemma fold_obind_raised {A B} (f : B -> A -> outcome A) (e : exn) (l : list B) :
  fold_left (fun acc x => st <-- acc ;;; f x st) l (Raise e) = Raise e.
Proof.
  induction l as [|x l IH]; [reflexivity | exact IH].
Qed.

Lemma cells_first (c : Converter) :
  valid_layout c -> exists rest, cells c = (0, 0) :: rest.
Proof.
  intros [Hw Hh]. unfold cells, range.
  destruct (Z.to_nat (get_pages_in_height c)) as [|h] eqn:Eh; [lia |].
  destruct (Z.to_nat (get_pages_in_width c)) as [|w] eqn:Ew; [lia |].
  cbn [seq list_prod map app]. eexists. reflexivity.
Qed.

(** With a page to read on a valid layout, the linearize sequence starts
    with the position 0. *)
Lemma linearize_sequence_first (c : Converter) :
  valid_layout c ->
  0 < get_page_count c ->
  exists rest, get_sequence_for_linearize c true = Some 0 :: rest.
Proof.
  intros Hvalid Hcount.
  pose proof (linearize_blocks_cover c Hvalid) as [Hcover _].
  destruct (valid_layout_slots c Hvalid) as [Hpos _].
  rewrite get_sequence_for_linearize_blocks.
  destruct (linearize_blocks c) as [|blocks]; [nia |].
  cbn [seq flat_map app Nat.mul]. eexists. reflexivity.
Qed.

(** When its orientation fix returns on a valid layout, [linearize] stops
    at the first cell of the first input page: the sequence has a position
    for it, a blank page is inserted, and the look-up of the merge method on
    that page raises. *)
Lemma linearize_raises (c : Converter) (booklet : bool) :
  valid_layout c ->
  fst (fix_page_orientation_for_linearize c) = Ok tt ->
  linearize booklet c
  = (Raise AttributeError, snd (fix_page_orientation_for_linearize c)).
Proof.
  intros Hvalid Hfix.
  destruct (fix_page_orientation_input is_half c Hfix) as [width Hin].
  pose proof (fix_page_orientation_keeps is_half c)
    as (Hkw & Hkh & _ & _ & Hkp).
  fold fix_page_orientation_for_linearize in Hkw, Hkh, Hkp.
  unfold linearize, bind, reads.
  destruct (fix_page_orientation_for_linearize c) as [r c0].
  cbn [fst snd] in *. subst r.
  assert (Hvalid0 : valid_layout c0).
  { unfold valid_layout. rewrite Hkw, Hkh. exact Hvalid. }
  assert (Hcount : 0 < get_page_count c0).
  { unfold get_page_count. rewrite Hkp. unfold get_input_width in Hin.
    destruct (_inpdf c); [discriminate | simpl; lia]. }
  destruct (cells_first c0 Hvalid0) as [cs Hcells].
  destruct (linearize_sequence_first c0 Hvalid0 Hcount) as [rest Hseq].
  rewrite linearize_cells, Hseq, Hcells.
  destruct (get_page_count c0) as [|count]; [lia |].
  cbn [seq list_prod map app fold_left obind fst snd].
  unfold extract at 2. cbn [fst nth_error].
  unfold mergeScaledTranslatedPage. cbn [obind].
  rewrite fold_obind_raised. reflexivity.
Qed.

(** X13.  [linearize] on a valid layout never returns a document.  When
    its orientation fix returns, it raises [AttributeError] at the first cell
    of the first input page, where it looks up [mergeScaledTranslatedPage] on
    the page it has just inserted, and the converter is left as the fix left
    it; when the fix raises, that exception is the outcome and the converter
    is unchanged.  The argument [booklet] makes no difference. *)
Theorem linearize_never_returns (c : Converter) (booklet : bool) :
  valid_layout c ->
  (fst (fix_page_orientation_for_linearize c) = Ok tt ->
   linearize booklet c
   = (Raise AttributeError, snd (fix_page_orientation_for_linearize c)))
  /\ (forall e,
        fst (fix_page_orientation_for_linearize c) = Raise e ->
        linearize booklet c = (Raise e, c))
  /\ (forall pages, fst (linearize booklet c) <> Ok pages)
  /\ linearize (negb booklet) c = linearize booklet c.
Proof.
  intros Hvalid.
  assert (Hraise : forall b e,
             fst (fix_page_orientation_for_linearize c) = Raise e ->
             linearize b c = (Raise e, c)).
  { intros b e He. unfold linearize, bind.
    unfold fix_page_orientation_for_linearize in *.
    destruct (fix_page_orientation_result is_half c)
      as [H | [H | [H | H]]]; rewrite H in *; cbn [fst] in He;
      try discriminate; injection He as <-; reflexivity. }
  split; [apply linearize_raises; exact Hvalid |].
  split; [apply Hraise |].
  split.
  - intros pages.
    destruct (fst (fix_page_orientation_for_linearize c))
      as [[] | e |] eqn:Hfix.
    + rewrite (linearize_raises c booklet Hvalid Hfix). discriminate.
    + rewrite (Hraise booklet e eq_refl). discriminate.
    + exfalso. unfold fix_page_orientation_for_linearize in Hfix.
      destruct (fix_page_orientation_result is_half c)
        as [H | [H | [H | H]]]; rewrite H in Hfix; discriminate.
  - reflexivity.
Qed.

(** Two landscape sheets on a 2x2 grid: the fix returns, and [linearize]
    raises. *)
Lemma linearize_never_returns_witness :
  valid_layout two_sheets_copies
  /\ fst (linearize true two_sheets_copies) = Raise AttributeError.
Proof.
  assert (Hvalid : valid_layout two_sheets_copies) by (split; discriminate).
  split; [exact Hvalid |].
  destruct (linearize_never_returns two_sheets_copies true Hvalid)
    as (Hrun & _).
  rewrite (Hrun eq_refl). reflexivity.
Defined.

(* ================================================================== *)
(** * Bookletize, then linearize *)

(** What [bookletize] writes for a multiple of four pages with
    [copy_pages] off: the saddle-stitch order, cut into sheets. *)
Lemma bookletize_saddle_sheets (c : Converter) (fuel : nat) :
  let n := get_page_count c in
  let c' := snd (fix_page_orientation_for_booklet c) in
  valid_layout c ->
  fst (fix_page_orientation_for_booklet c) = Ok tt ->
  get_input_width c <> Ok 0%Z ->
  n mod 4 = 0 ->
  get_copy_pages c = false ->
  n <= fuel ->
  bookletize fuel c
  = (Ok (map (fun j => sheet_of c' j
                         (skipn (j * slots_per_sheet c) (saddle_pages n)))
             (seq 0 (div_up n (slots_per_sheet c)))),
     c').
Proof.
  intros n c' Hvalid Hfix Hwidth Hmod Hcopy Hfuel.
  unfold bookletize, bind, reads.
  rewrite (get_sequence_for_booklet_saddle_stitch c Hmod Hcopy). fold n.
  rewrite saddle_stitch_pages.
  rewrite (do_reduce_blank_free c (saddle_pages n) fuel Hvalid Hfix Hwidth)
    by (try (intros page Hp; apply (saddle_pages_range n); exact Hp);
        rewrite saddle_pages_length by exact Hmod; exact Hfuel).
  rewrite saddle_pages_length by exact Hmod. reflexivity.
Qed.

(** C2.  The round trip the claim describes does not take place.  Take a
    document whose page count [N] is a multiple of four, with [copy_pages]
    off, a valid layout, input pages of non-zero width and an orientation the
    layout accepts.  [bookletize] returns, having written the saddle-stitch
    order on [N / slots] sheets (rounded up).  A converter with the same
    layout that reads those sheets, and whose own orientation check passes,
    does not return from [linearize]: it raises [AttributeError] at the first
    cell, so no page of the original is given back. *)
Theorem linearize_of_booklet_raises (c reader : Converter) (fuel : nat)
        (booklet : bool) :
  let n := get_page_count c in
  n mod 4 = 0 ->
  get_copy_pages c = false ->
  valid_layout c ->
  n <= fuel ->
  fst (fix_page_orientation_for_booklet c) = Ok tt ->
  get_input_width c <> Ok 0%Z ->
  linearizes_output_of reader c fuel ->
  fst (fix_page_orientation_for_linearize reader) = Ok tt ->
  exists sheets,
    fst (bookletize fuel c) = Ok sheets
    /\ List.length sheets = div_up n (slots_per_sheet c)
    /\ _inpdf reader = reader_of sheets
    /\ fst (linearize booklet reader) = Raise AttributeError
    /\ forall pages, fst (linearize booklet reader) <> Ok pages.
Proof.
  intros n Hmod Hcopy Hvalid Hfuel Hfix Hwidth
         (Hrw & Hrh & _ & Hread) Hfixr.
  pose proof (bookletize_saddle_sheets c fuel Hvalid Hfix Hwidth Hmod Hcopy
                Hfuel) as Hbook.
  fold n in Hbook.
  rewrite Hbook in Hread. unfold written in Hread. cbn [fst] in Hread.
  rewrite Hbook. cbn [fst].
  eexists. split; [reflexivity |].
  split; [rewrite length_map, length_seq; reflexivity |].
  split; [exact Hread |].
  assert (Hvalidr : valid_layout reader).
  { unfold valid_layout. rewrite Hrw, Hrh. exact Hvalid. }
  rewrite (linearize_raises reader booklet Hvalidr Hfixr). cbn [fst].
  split; [reflexivity | intros pages; discriminate].
Qed.

(** Eight A5 pages on a 2x1 grid: [bookletize] writes four sheets, and
    [linearize] on those sheets raises. *)
Lemma linearize_of_booklet_raises_witness :
  get_page_count eight_pages_two_by_one mod 4 = 0
  /\ get_copy_pages eight_pages_two_by_one = false
  /\ valid_layout eight_pages_two_by_one
  /\ linearizes_output_of eight_pages_read_back eight_pages_two_by_one 8
  /\ exists sheets,
       fst (bookletize 8 eight_pages_two_by_one) = Ok sheets
       /\ List.length sheets = 4
       /\ fst (linearize true eight_pages_read_back) = Raise AttributeError.
Proof.
  assert (Hvalid : valid_layout eight_pages_two_by_one) by (split; discriminate).
  assert (Hreads : linearizes_output_of eight_pages_read_back
                     eight_pages_two_by_one 8).
  { split; [reflexivity | split; [reflexivity | split; reflexivity]]. }
  split; [reflexivity | split; [reflexivity | split; [exact Hvalid |]]].
  split; [exact Hreads |].
  destruct (linearize_of_booklet_raises eight_pages_two_by_one
              eight_pages_read_back 8 true
              eq_refl eq_refl Hvalid (le_n 8) eq_refl
              ltac:(discriminate) Hreads eq_refl)
    as (sheets & Hbook & Hlen & _ & Hraise & _).
  exists sheets. split; [exact Hbook | split; [exact Hlen | exact Hraise]].
Defined.

(* ================================================================== *)
(** * The booklet sequence with copies *)

Lemma append_and_copy_copies (c : Converter) (lst pages : list slot) :
  append_and_copy c lst pages
  = lst ++ List.concat (repeat pages (booklet_copies c)).
Proof.
  unfold append_and_copy, booklet_copies.
  destruct (get_copy_pages c).
  - rewrite <- range_length.
    generalize (range (get_pages_in_sheet c ÷ 2)). intros r. revert lst.
    induction r as [|y r IH]; intros lst;
      cbn [fold_left List.length repeat List.concat].
    + rewrite app_nil_r. reflexivity.
    + rewrite IH, <- app_assoc. reflexivity.
  - cbn [repeat List.concat]. rewrite app_nil_r. reflexivity.
Qed.

Lemma map_concat_repeat {A B} (f : A -> B) (l : list A) (r : nat) :
  map f (List.concat (repeat l r)) = List.concat (repeat (map f l) r).
Proof.
  induction r as [|r IH]; cbn [repeat List.concat]; [reflexivity |].
  rewrite map_app, IH. reflexivity.
Qed.

Lemma length_concat_repeat {A} (l : list A) (r : nat) :
  List.length (List.concat (repeat l r)) = r * List.length l.
Proof.
  induction r as [|r IH]; cbn [repeat List.concat]; [reflexivity |].
  rewrite length_app, IH. lia.
Qed.

Lemma saddle_copies_from_step (first copies m : nat) :
  saddle_copies_from first copies (4 * S m)
  = List.concat (repeat [S (first + 2 + 4 * m); first] copies)
    ++ List.concat (repeat [S first; first + 2 + 4 * m] copies)
    ++ saddle_copies_from (first + 2) copies (4 * m).
Proof.
  unfold saddle_copies_from.
  replace (4 * S m / 4) with (S m)
    by (symmetry; rewrite Nat.mul_comm; apply Nat.div_mul; lia).
  replace (4 * m / 4) with m
    by (symmetry; rewrite Nat.mul_comm; apply Nat.div_mul; lia).
  rewrite <- cons_seq, <- seq_shift. cbn [flat_map].
  rewrite (flat_map_concat_map _ (map S _)), map_map, <- flat_map_concat_map.
  rewrite <- app_assoc.
  replace (first + 4 * S m - 1 - 2 * 0) with (S (first + 2 + 4 * m)) by lia.
  replace (first + 2 * 0) with first by lia.
  replace (first + 4 * S m - 2 - 2 * 0) with (first + 2 + 4 * m) by lia.
  replace (first + 1) with (S first) by lia.
  do 2 f_equal.
  apply flat_map_ext. intros k.
  repeat (f_equal; try lia).
Qed.

(** The loop on the pages [first .. first + 4m - 1] appends their booklet
    order, each pair as often as [append_and_copy] repeats it. *)
Lemma booklet_while_copies (c : Converter) (m : nat) :
  forall first sequence,
    booklet_while c (map Some (seq first (4 * m))) sequence
    = Ok (sequence
          ++ map Some (saddle_copies_from first (booklet_copies c) (4 * m))).
Proof.
  induction m as [|m IH]; intros first sequence.
  - simpl. rewrite booklet_while_equation_1, app_nil_r. reflexivity.
  - replace (4 * S m) with (2 + (4 * m + 2)) at 1 by lia.
    rewrite !seq_app, !map_app.
    change (seq first 2) with [first; S first].
    change (seq (first + 2 + 4 * m) 2)
      with [first + 2 + 4 * m; S (first + 2 + 4 * m)].
    cbn [map app].
    rewrite booklet_while_ends, IH, !append_and_copy_copies.
    rewrite saddle_copies_from_step, !map_app, !map_concat_repeat.
    cbn [map]. rewrite <- !app_assoc. reflexivity.
Qed.

Lemma get_sequence_for_booklet_copies (c : Converter) :
  get_page_count c mod 4 = 0 ->
  get_sequence_for_booklet c
  = Ok (map Some (saddle_copies (booklet_copies c) (get_page_count c))).
Proof.
  intros Hmod.
  pose proof (Nat.div_mod_eq (get_page_count c) 4) as Hn.
  rewrite get_sequence_for_booklet_padded.
  replace (blanks_to_multiple 4 (get_page_count c)) with 0
    by (unfold blanks_to_multiple; rewrite Hmod; reflexivity).
  rewrite app_nil_r. unfold identity_order, saddle_copies.
  replace (get_page_count c) with (4 * (get_page_count c / 4)) by lia.
  apply (booklet_while_copies c (get_page_count c / 4) 0 []).
Qed.

Lemma saddle_copies_length (copies n : nat) :
  List.length (saddle_copies copies n) = n / 4 * (4 * copies).
Proof.
  unfold saddle_copies, saddle_copies_from.
  rewrite (flat_map_constant_length (c := 4 * copies)).
  - rewrite length_seq. reflexivity.
  - intros k _. rewrite length_app, !length_concat_repeat. simpl. lia.
Qed.

Lemma firstn_app_exact {A} (n : nat) (a b : list A) :
  List.length a = n -> firstn n (a ++ b) = a.
Proof.
  intros <-. rewrite firstn_app, Nat.sub_diag, firstn_all.
  cbn [firstn]. apply app_nil_r.
Qed.

Lemma skipn_app_exact {A} (n : nat) (a b : list A) :
  List.length a = n -> skipn n (a ++ b) = b.
Proof.
  intros <-. rewrite skipn_app, Nat.sub_diag, skipn_all. reflexivity.
Qed.

(** Cut into runs of [2 * copies] pages, the booklet order with copies has
    one pair of pages in each run. *)
Lemma saddle_copies_runs (copies n k : nat) :
  k < n / 4 ->
  firstn (2 * copies) (skipn (2 * k * (2 * copies)) (saddle_copies copies n))
  = List.concat (repeat [n - 1 - 2 * k; 2 * k] copies)
  /\ firstn (2 * copies)
       (skipn ((2 * k + 1) * (2 * copies)) (saddle_copies copies n))
     = List.concat (repeat [2 * k + 1; n - 2 - 2 * k] copies).
Proof.
  intros Hk.
  assert (Hskip : skipn (k * (4 * copies)) (saddle_copies copies n)
                  = (List.concat (repeat [n - 1 - 2 * k; 2 * k] copies)
                     ++ List.concat (repeat [2 * k + 1; n - 2 - 2 * k] copies))
                    ++ flat_map
                         (fun k =>
                            List.concat (repeat [0 + n - 1 - 2 * k; 0 + 2 * k] copies)
                            ++ List.concat (repeat [0 + 2 * k + 1; 0 + n - 2 - 2 * k]
                                              copies))
                         (seq (S k) (n / 4 - S k))).
  { unfold saddle_copies, saddle_copies_from.
    rewrite skipn_flat_map_blocks
      by (intros x; rewrite length_app, !length_concat_repeat; simpl; lia).
    rewrite skipn_seq.
    replace (n / 4 - k) with (S (n / 4 - S k)) by lia.
    cbn [seq flat_map Nat.add]. reflexivity. }
  assert (Hfront : List.length (List.concat (repeat [n - 1 - 2 * k; 2 * k] copies))
                   = 2 * copies)
    by (rewrite length_concat_repeat; simpl; lia).
  assert (Hback : List.length
                    (List.concat (repeat [2 * k + 1; n - 2 - 2 * k] copies))
                  = 2 * copies)
    by (rewrite length_concat_repeat; simpl; lia).
  split.
  - replace (2 * k * (2 * copies)) with (k * (4 * copies)) by lia.
    rewrite Hskip, <- app_assoc.
    apply firstn_app_exact. exact Hfront.
  - replace ((2 * k + 1) * (2 * copies))
      with (2 * copies + k * (4 * copies)) by lia.
    rewrite <- skipn_skipn, Hskip, <- app_assoc.
    rewrite (skipn_app_exact _ _ _ Hfront).
    apply firstn_app_exact. exact Hback.
Qed.

(** X14.  [bookletize] on a page count that is a multiple of four, for a
    valid layout, an orientation the layout accepts and input pages of
    non-zero width, whatever [copy_pages].  The sequence is the booklet order
    with each pair of pages appended as often as [append_and_copy] repeats it
    (once, or half the slots per sheet rounded down with [copy_pages]); the
    sheets written hold that sequence in its order.  With [copy_pages] on and
    an even number of slots per sheet there is one sheet for each pair of
    pages: sheet [2k] shows copies of the pages [n-1-2k, 2k] only, sheet
    [2k+1] copies of the pages [2k+1, n-2-2k] only. *)
Theorem bookletize_copies_sheets (c : Converter) :
  valid_layout c ->
  fst (fix_page_orientation_for_booklet c) = Ok tt ->
  get_input_width c <> Ok 0%Z ->
  get_page_count c mod 4 = 0 ->
  let n := get_page_count c in
  let s := slots_per_sheet c in
  let copies := booklet_copies c in
  get_sequence_for_booklet c = Ok (map Some (saddle_copies copies n))
  /\ forall fuel,
       n * copies <= fuel ->
       exists sheets,
         fst (bookletize fuel c) = Ok sheets
         /\ List.length sheets = div_up (n * copies) s
         /\ flat_map pages_on sheets = saddle_copies copies n
         /\ (get_copy_pages c = true -> s mod 2 = 0 ->
             List.length sheets = n / 2
             /\ forall k,
                  k < n / 4 ->
                  exists front back,
                    nth_error sheets (2 * k) = Some front
                    /\ nth_error sheets (2 * k + 1) = Some back
                    /\ pages_on front
                       = List.concat (repeat [n - 1 - 2 * k; 2 * k] (s / 2))
                    /\ pages_on back
                       = List.concat (repeat [2 * k + 1; n - 2 - 2 * k] (s / 2))).
Proof.
  intros Hvalid Hfix Hwidth Hmod n s copies.
  pose proof (get_sequence_for_booklet_copies c Hmod) as Hseq.
  fold n copies in Hseq.
  split; [exact Hseq |].
  intros fuel Hfuel.
  destruct (valid_layout_slots c Hvalid) as [Hpos Hs]. fold s in Hpos.
  pose proof (Nat.div_mod_eq n 4) as Hn. fold n in Hmod.
  assert (Hlen : List.length (saddle_copies copies n) = n * copies)
    by (rewrite saddle_copies_length; nia).
  assert (Hrange : forall page,
             In page (saddle_copies copies n) -> page < n).
  { destruct (get_sequence_for_booklet_members c)
      as (sequence & Hseq' & _ & Hin & _).
    rewrite Hseq in Hseq'. injection Hseq' as <-.
    intros page Hp. apply Hin, in_map. exact Hp. }
  destruct (fix_page_orientation_for_booklet_run c Hvalid Hfix Hwidth)
    as (_ & _ & _ & Hcells & _).
  assert (Hrun : bookletize fuel c
                 = do_reduce fuel (map Some (saddle_copies copies n)) c).
  { unfold bookletize, bind, reads. rewrite Hseq. reflexivity. }
  rewrite Hrun.
  rewrite (do_reduce_blank_free c (saddle_copies copies n) fuel
             Hvalid Hfix Hwidth Hrange) by (rewrite Hlen; exact Hfuel).
  cbn [fst]. fold s. rewrite Hlen.
  eexists. split; [reflexivity |].
  assert (Hon : forall j,
             pages_on (sheet_of (snd (fix_page_orientation_for_booklet c)) j
                         (skipn (j * s) (saddle_copies copies n)))
             = firstn s (skipn (j * s) (saddle_copies copies n))).
  { intros j. rewrite pages_on_sheet_of, Hcells, (cells_length c Hvalid).
    reflexivity. }
  split; [rewrite length_map, length_seq; reflexivity |].
  split.
  - rewrite flat_map_concat_map, map_map, <- flat_map_concat_map.
    rewrite (flat_map_ext _
               (fun j => firstn s (skipn (j * s) (saddle_copies copies n))))
      by exact Hon.
    apply chunks_concat_up. rewrite Hlen.
    apply (div_up_spec (n * copies) s Hpos).
  - intros Hcopy Heven.
    assert (Hcopies : copies = s / 2).
    { unfold copies. rewrite (booklet_copies_slots c Hvalid), Hcopy.
      reflexivity. }
    pose proof (Nat.div_mod_eq s 2) as Hs2.
    assert (Htwice : s = 2 * copies) by lia.
    assert (Hcount : div_up (n * copies) s = n / 2).
    { destruct (div_up_spec (n * copies) s Hpos) as (Hup & Hdown & _).
      pose proof (Nat.div_mod_eq n 2) as Hn2.
      assert (Hn2' : n mod 2 = 0).
      { replace n with (2 * (n / 4) * 2) by lia. apply Nat.Div0.mod_mul. }
      remember (div_up (n * copies) s) as d.
      remember (n / 2) as h.
      assert (Hc : 0 < copies) by lia.
      assert (d * (2 * copies) >= 2 * h * copies) by (rewrite Htwice in Hup; lia).
      assert (0 < d -> (d - 1) * (2 * copies) < 2 * h * copies)
        by (rewrite Htwice in Hdown; intros Hd; specialize (Hdown Hd); lia).
      nia. }
    split; [rewrite length_map, length_seq; exact Hcount |].
    intros k Hk.
    destruct (saddle_copies_runs copies n k Hk) as [Hfront Hback].
    assert (Hquarter : n / 2 = 2 * (n / 4)).
    { replace n with (2 * (n / 4) * 2) at 1 by lia.
      rewrite Nat.div_mul by lia. reflexivity. }
    eexists. eexists.
    rewrite Hcount.
    split; [| split; [| split]].
    + apply map_nth_error. rewrite nth_error_seq.
      destruct (Nat.ltb_spec (2 * k) (n / 2)); [reflexivity | lia].
    + apply map_nth_error. rewrite nth_error_seq.
      destruct (Nat.ltb_spec (2 * k + 1) (n / 2)); [reflexivity | lia].
    + cbn [Nat.add]. rewrite Hon, <- Hcopies, Htwice. exact Hfront.
    + cbn [Nat.add]. rewrite Hon, <- Hcopies, Htwice. exact Hback.
Qed.

(** Eight pages on a 2x2 grid with [copy_pages]: four sheets, the first
    showing the pages 7 and 0 twice. *)
Lemma bookletize_copies_sheets_witness :
  valid_layout eight_pages_copies
  /\ get_page_count eight_pages_copies mod 4 = 0
  /\ exists sheets,
       fst (bookletize 16 eight_pages_copies) = Ok sheets
       /\ flat_map pages_on sheets = saddle_copies 2 8.
Proof.
  assert (Hvalid : valid_layout eight_pages_copies) by (split; discriminate).
  split; [exact Hvalid | split; [reflexivity |]].
  destruct (bookletize_copies_sheets eight_pages_copies
              Hvalid eq_refl ltac:(discriminate) eq_refl)
    as [_ Hsheets].
  destruct (Hsheets 16 ltac:(vm_compute; lia))
    as (sheets & Hrun & _ & Hpages & _).
  exists sheets. split; [exact Hrun | exact Hpages].
Defined.

(* ================================================================== *)
(** * [set_layout] on a string *)

Lemma split_x_length (layout : string) :
  List.length (split_x layout) = S (count_x layout).
Proof.
  induction layout as [|ch rest IH]; [reflexivity |].
  cbn [split_x count_x]. destruct (Ascii.eqb ch _).
  - cbn [List.length]. rewrite IH. reflexivity.
  - destruct (split_x rest) as [|piece pieces]; [discriminate |].
    cbn [List.length] in *. lia.
Qed.

Lemma split_x_whole (layout : string) :
  count_x layout = 0 -> split_x layout = [layout].
Proof.
  induction layout as [|ch rest IH]; [reflexivity |].
  cbn [split_x count_x]. destruct (Ascii.eqb ch _); [discriminate |].
  intros Hrest. rewrite (IH Hrest). reflexivity.
Qed.

Lemma split_x_app (w h : string) :
  count_x w = 0 ->
  split_x (w ++ "x" ++ h) = w :: split_x h.
Proof.
  induction w as [|ch rest IH]; [reflexivity |].
  change ((String ch rest ++ "x" ++ h)%string)
    with (String ch (rest ++ "x" ++ h)).
  cbn [split_x count_x]. destruct (Ascii.eqb ch _); [discriminate |].
  intros Hrest. rewrite (IH Hrest). reflexivity.
Qed.

Lemma string_of_digits_no_x (d : Decimal.uint) :
  count_x (NilEmpty.string_of_uint d) = 0.
Proof.
  induction d; cbn [NilEmpty.string_of_uint count_x]; [reflexivity | ..];
    exact IHd.
Qed.

Lemma string_of_uint_no_x (d : Decimal.uint) :
  count_x (NilZero.string_of_uint d) = 0.
Proof.
  destruct d; try reflexivity;
    apply (string_of_digits_no_x (_ d)).
Qed.

Lemma str_no_x (n : Z) : count_x (str n) = 0.
Proof.
  unfold str. destruct (Z.to_int n) as [d | d];
    cbn [NilZero.string_of_int count_x]; apply string_of_uint_no_x.
Qed.

(** X15.  [set_layout] on a string that does not hold the letter x exactly
    once raises [ValueError] and leaves the converter as it was: the split
    gives one piece, or more than two. *)
Theorem set_layout_str_rejects
        (int : string -> outcome Z) (layout : string) (c : Converter) :
  count_x layout <> 1 ->
  set_layout_str int layout c = (Raise ValueError, c).
Proof.
  intros Hcount. unfold set_layout_str.
  pose proof (split_x_length layout) as Hlen.
  destruct (split_x layout) as [|w [|h [|extra pieces]]];
    try reflexivity.
  cbn [List.length] in Hlen. lia.
Qed.

(** A flip constant given where a layout is expected is rejected. *)
Lemma set_layout_str_rejects_witness :
  count_x "short-edge flip" <> 1
  /\ set_layout_str int_of_numeral "short-edge flip" six_pages_two_by_one
     = (Raise ValueError, six_pages_two_by_one).
Proof.
  split; [vm_compute; lia |].
  apply (set_layout_str_rejects int_of_numeral "short-edge flip"
           six_pages_two_by_one).
  vm_compute; lia.
Defined.

(** X16.  [set_layout] on a string [w ++ "x" ++ h] with no other letter x.
    If [int] rejects [w] the call raises and nothing has changed; if [int]
    accepts [w] and rejects [h] the call raises after the width has been
    set, so the layout is left half changed; if [int] accepts both, the call
    does what [set_layout] does on the pair of the two numbers. *)
Theorem set_layout_str_parts
        (int : string -> outcome Z) (w h : string) (c : Converter) :
  count_x w = 0 ->
  count_x h = 0 ->
  (forall e, int w = Raise e ->
             set_layout_str int (w ++ "x" ++ h) c = (Raise e, c))
  /\ (forall a e,
        int w = Ok a -> int h = Raise e ->
        exists c',
          set_layout_str int (w ++ "x" ++ h) c = (Raise e, c')
          /\ get_pages_in_width c' = a
          /\ get_pages_in_height c' = get_pages_in_height c)
  /\ (forall a b,
        int w = Ok a -> int h = Ok b ->
        set_layout_str int (w ++ "x" ++ h) c = set_layout [a; b] c).
Proof.
  intros Hw Hh. unfold set_layout_str.
  rewrite (split_x_app w h Hw), (split_x_whole h Hh).
  unfold bind, reads.
  split; [| split].
  - intros e He. rewrite He. reflexivity.
  - intros a e Ha He. rewrite Ha. cbn. rewrite He.
    eexists. split; [reflexivity | split; reflexivity].
  - intros a b Ha Hb. rewrite Ha. cbn. rewrite Hb. reflexivity.
Qed.

(** The layout ["3xa"] on a 2x1 converter raises and leaves it 3x1. *)
Lemma set_layout_str_parts_witness :
  count_x "3" = 0 /\ count_x "a" = 0
  /\ exists c',
       set_layout_str int_of_numeral "3xa" six_pages_two_by_one
       = (Raise ValueError, c')
       /\ get_pages_in_width c' = 3%Z
       /\ get_pages_in_height c' = 1%Z.
Proof.
  split; [reflexivity | split; [reflexivity |]].
  destruct (set_layout_str_parts int_of_numeral "3" "a" six_pages_two_by_one
              eq_refl eq_refl) as (_ & Hhalf & _).
  exact (Hhalf 3%Z ValueError eq_refl eq_refl).
Defined.

(** X17.  [set_layout(get_layout())] changes nothing: the string
    [get_layout] returns holds the letter x once, between the two numerals,
    so wherever [int] reads back the two numerals [str] printed, the call
    returns and the converter is as it was. *)
Theorem set_layout_get_layout_round_trip
        (int : string -> outcome Z) (c : Converter) :
  int (str (get_pages_in_width c)) = Ok (get_pages_in_width c) ->
  int (str (get_pages_in_height c)) = Ok (get_pages_in_height c) ->
  count_x (get_layout c) = 1
  /\ set_layout_str int (get_layout c) c = (Ok tt, c).
Proof.
  intros Hw Hh. split.
  - pose proof (split_x_length (get_layout c)) as Hlen.
    unfold get_layout in Hlen.
    rewrite (split_x_app _ _ (str_no_x _)) in Hlen.
    rewrite (split_x_whole _ (str_no_x _)) in Hlen.
    cbn [List.length] in Hlen. unfold get_layout. lia.
  - destruct (set_layout_str_parts int (str (get_pages_in_width c))
                (str (get_pages_in_height c)) c (str_no_x _) (str_no_x _))
      as (_ & _ & Hboth).
    unfold get_layout. rewrite (Hboth _ _ Hw Hh).
    destruct c. reflexivity.
Qed.

Lemma set_layout_get_layout_round_trip_witness :
  get_layout six_pages_two_by_one = "2x1"%string
  /\ set_layout_str int_of_numeral "2x1" six_pages_two_by_one
     = (Ok tt, six_pages_two_by_one).
Proof.
  split; [reflexivity |].
  apply (set_layout_get_layout_round_trip int_of_numeral six_pages_two_by_one
           eq_refl eq_refl).
Defined.

(* ================================================================== *)
(** * The constructor *)

(** X18.  [StreamConverter.__init__].  A layout that is not a pair raises
    [ValueError], also when the format is unknown, since the layout is set
    first.  With a pair and a format of the table the constructor returns,
    the getters give back what was passed, the output size is the one the
    table gives for the format, and the output starts in portrait: every
    format of the table is higher than wide. *)
Theorem init_outcome (input_stream : list MediaBox) (layout : list Z)
        (page_format : string) (flip : TwoSidedFlip) (copy_pages : bool) :
  let run := StreamConverter.init input_stream layout page_format flip
               copy_pages new_object in
  (List.length layout <> 2 -> fst run = Raise ValueError)
  /\ (forall w h,
        layout = [w; h] ->
        In page_format format_names ->
        fst run = Ok tt
        /\ get_pages_in_width (snd run) = w
        /\ get_pages_in_height (snd run) = h
        /\ In (page_format, output_size (snd run)) PAGE_FORMATS
        /\ _get_output_orientation (snd run) = Some PageOrientation.PORTRAIT
        /\ get_copy_pages (snd run) = copy_pages
        /\ get_two_sided_flip (snd run) = flip
        /\ _inpdf (snd run) = input_stream).
Proof.
  cbv zeta. split.
  - intros Hlen.
    destruct layout as [|w [|h [|extra rest]]]; try reflexivity.
    cbn [List.length] in Hlen. lia.
  - intros w h -> Hformat.
    unfold format_names in Hformat. cbn [In] in Hformat.
    destruct Hformat as [<- | [<- | [<- | [<- | [<- | [<- | []]]]]]];
      (split; [reflexivity |]);
      (split; [reflexivity |]);
      (split; [reflexivity |]);
      (split; [cbn; tauto |]);
      (split; [reflexivity |]);
      (split; [reflexivity |]);
      split; reflexivity.
Qed.
